(** * SCN0/SCN1 mesh reconstruction: a shallow embedding of [scn1_to_obj.py]

    The development follows the Python source function by function.
    Python integers are [Z]; [bytes] objects are lists of [Byte.byte];
    Python floats are the kernel's binary64 floats; a raised exception is
    [None] in the option monad; dictionaries with a fixed key set are
    records. *)

From Stdlib Require Import ZArith List Lia Bool Floats.
From Stdlib Require Strings.Byte.
From stdpp Require Import prelude strings gmap sorting.

Local Open Scope Z_scope.

(** ** Byte buffers and [struct.unpack_from] *)

Abbreviation bytes := (list Byte.byte).

(** [len(x)] *)
Definition len {A : Type} (l : list A) : Z := Z.of_nat (length l).

Definition byte_val (b : Byte.byte) : Z := Z.of_N (Byte.to_N b).

(** The byte at a non-negative index; 0 past the end (every use below is
    guarded by a bounds check of [unpack_offset]). *)
Definition get_byte (data : bytes) (i : Z) : Z :=
  match data !! Z.to_nat i with Some b => byte_val b | None => 0 end.

(** Little-endian unsigned integer of [w] bytes at [off]. *)
Fixpoint le_uint (w : nat) (data : bytes) (off : Z) : Z :=
  match w with
  | O => 0
  | S w' => get_byte data off + 256 * le_uint w' data (off + 1)
  end.

(** The offset check of [struct.unpack_from(fmt, buffer, offset)] for a
    format of [size] bytes: a negative offset counts from the end of the
    buffer, and [struct.error] ([None]) is raised when fewer than [size]
    bytes are available. *)
Definition unpack_offset (size : Z) (data : bytes) (off : Z) : option Z :=
  if off <? 0 then
    if (0 <? off + size) || (off + len data <? 0) then None
    else Some (off + len data)
  else if len data - off <? size then None
  else Some off.

Definition unpack_u16 (data : bytes) (off : Z) : option Z :=
  o ← unpack_offset 2 data off; Some (le_uint 2 data o).
Definition unpack_u32 (data : bytes) (off : Z) : option Z :=
  o ← unpack_offset 4 data off; Some (le_uint 4 data o).

(** [struct.unpack_from("<" + "H"*n, data, off)]; a string repeated a
    non-positive number of times is empty. *)
Definition unpack_u16s (n : Z) (data : bytes) (off : Z) : option (list Z) :=
  o ← unpack_offset (2 * Z.max 0 n) data off;
  Some ((λ k, le_uint 2 data (o + 2 * k)) <$> seqZ 0 n).

(** ** Floats

    [struct] decodes format "f" as an IEEE-754 binary32 value and hands it
    to Python as a binary64 float; the conversion is exact. *)
Definition float_of_Z (z : Z) : float := of_uint63 (Uint63.of_Z z).

Definition f32_of_bits (w : Z) : float :=
  let s := Z.testbit w 31 in
  let e := Z.land (Z.shiftr w 23) 255 in
  let m := Z.land w 8388607 in
  if e =? 255 then
    if m =? 0 then (if s then neg_infinity else infinity) else nan
  else
    let mag := if e =? 0 then Z.ldexp (float_of_Z m) (-149)
               else Z.ldexp (float_of_Z (m + 8388608)) (e - 150) in
    if s then (- mag)%float else mag.

Definition vec2 : Type := float * float.
Definition vec3 : Type := float * float * float.

Definition f32_at (data : bytes) (off : Z) : float :=
  f32_of_bits (le_uint 4 data off).

Definition unpack_2f (data : bytes) (off : Z) : option vec2 :=
  o ← unpack_offset 8 data off;
  Some (f32_at data o, f32_at data (o + 4)).
Definition unpack_3f (data : bytes) (off : Z) : option vec3 :=
  o ← unpack_offset 12 data off;
  Some (f32_at data o, f32_at data (o + 4), f32_at data (o + 8)).
(** First three of [n] floats (formats "<4f" .. "<8f"). *)
Definition unpack_nf_xyz (n : Z) (data : bytes) (off : Z) : option vec3 :=
  o ← unpack_offset (4 * n) data off;
  Some (f32_at data o, f32_at data (o + 4), f32_at data (o + 8)).
(** First two of [n] floats (formats "<3f", "<4f"). *)
Definition unpack_nf_uv (n : Z) (data : bytes) (off : Z) : option vec2 :=
  o ← unpack_offset (4 * n) data off;
  Some (f32_at data o, f32_at data (o + 4)).

(** [range(lo, hi)] and [range(lo, hi, step)] for a positive step. *)
Definition py_range (lo hi : Z) : list Z := seqZ lo (hi - lo).
Definition py_range_step (lo hi step : Z) : list Z :=
  (λ k, lo + step * k) <$> seqZ 0 ((hi - lo + step - 1) `div` step).

(** ** [half_to_float] *)

(** [2.0 ** k] for an integer [k]: the exact power of two. *)
Definition pow2f (k : Z) : float := Z.ldexp 1 k.

Definition half_to_float (h : Z) : float :=
  let s := Z.land (Z.shiftr h 15) 1 in
  let e := Z.land (Z.shiftr h 10) 31 in
  let f := Z.land h 1023 in
  let sgn : float := if s =? 0 then 1%float else (-1)%float in
  if e =? 0 then
    if f =? 0 then (if s =? 0 then 0%float else (-0)%float)
    else (sgn * (float_of_Z f / 1024) * pow2f (-14))%float
  else if e =? 31 then
    if f =? 0 then (if s =? 0 then infinity else neg_infinity)
    else nan
  else (sgn * (1 + float_of_Z f / 1024) * pow2f (e - 15))%float.

(** IEEE-754 binary16, read off the standard: one sign bit, five exponent
    bits with bias 15, ten fraction bits; exponent field 0 is a signed zero
    or a subnormal [f * 2^-24]; exponent field 31 is an infinity or a NaN;
    otherwise the value is [(1024 + f) * 2^(e - 25)]. *)
Definition binary16_decode (h : Z) : spec_float :=
  let s := Z.testbit h 15 in
  let e := (h `div` 1024) `mod` 32 in
  let f := h `mod` 1024 in
  if e =? 0 then
    if f =? 0 then S754_zero s else S754_finite s (Z.to_pos f) (-24)
  else if e =? 31 then
    if f =? 0 then S754_infinity s else S754_nan
  else S754_finite s (Z.to_pos (1024 + f)) (e - 25).

(** Two floating-point data denote the same value: the same signed zero,
    infinity or NaN, or finite numbers with [m1 * 2^e1 = m2 * 2^e2] and
    the same sign. *)
Definition sf_same_value (a b : spec_float) : bool :=
  match a, b with
  | S754_zero s1, S754_zero s2 => Bool.eqb s1 s2
  | S754_infinity s1, S754_infinity s2 => Bool.eqb s1 s2
  | S754_nan, S754_nan => true
  | S754_finite s1 m1 e1, S754_finite s2 m2 e2 =>
      let e := Z.min e1 e2 in
      Bool.eqb s1 s2 && (Z.pos m1 * 2 ^ (e1 - e) =? Z.pos m2 * 2 ^ (e2 - e))
  | _, _ => false
  end.

(** [all(p(h) for h in range(n))], counting up in binary. *)
Definition all_below (p : Z → bool) (n : N) : bool :=
  (N.iter n (λ st, (st.1 + 1, st.2 && p st.1)) (0, true)).2.

Definition half_ok (h : Z) : bool :=
  sf_same_value (Prim2SF (half_to_float h)) (binary16_decode h).

(** ** [vertex_stride_from_decl] *)

(** The dictionary literal with [.get(base_sel, 0)]. *)
Definition base_size (base_sel : Z) : Z :=
  match base_sel with
  | 0x0002 => 12
  | 0x0004 => 16
  | 0x0006 => 16
  | 0x0008 => 20
  | 0x000A => 24
  | 0x000C => 28
  | 0x000E => 32
  | _ => 0
  end.

(** The body of [for _ in range(uv_count)], on the pair
    [(stride, uv_fmt_bits)]. *)
Fixpoint uv_loop (n : nat) (stride uv_fmt_bits : Z) : Z :=
  match n with
  | O => stride
  | S n' =>
      let fmt := Z.land uv_fmt_bits 3 in
      let stride :=
        if fmt =? 0 then stride + 8
        else if fmt =? 1 then stride + 12
        else if fmt =? 2 then stride + 16
        else stride + 4 in
      uv_loop n' stride (Z.shiftr uv_fmt_bits 2)
  end.

Definition vertex_stride_from_decl (decl : Z) : Z :=
  let base_sel := Z.land decl 0x400E in
  let base := base_size base_sel in
  let stride := base in
  let stride := if Z.land decl 0x10 =? 0 then stride else stride + 12 in
  let stride := if Z.land decl 0x20 =? 0 then stride else stride + 4 in
  let stride := if Z.land decl 0x40 =? 0 then stride else stride + 4 in
  let stride := if Z.land decl 0x80 =? 0 then stride else stride + 4 in
  let uv_count := Z.land (Z.shiftr decl 8) 0xF in
  let uv_fmt_bits := Z.land (Z.shiftr decl 16) 0xFFFF in
  if uv_fmt_bits =? 0 then stride + 8 * uv_count
  else uv_loop (Z.to_nat uv_count) stride uv_fmt_bits.







(** ** Meshes *)

(** The dictionaries of [find_subset_table]: the four keys every entry
    has, and the helper key ["_end_off"] that only the head of the best
    table carries while the scan runs. *)
Record Subset := {
  material_id : Z;
  start_tri : Z;
  tri_count : Z;
  base_vertex : Z;
  end_off_key : option Z;
}.

(** [f"SCN0_mesh_{off:x}"] is kept symbolic. *)
Inductive MeshName :=
  | Scn0MeshName (off : Z).

Record Mesh := {
  mesh_name : MeshName;
  mesh_decl : Z;
  vertices : list vec3;
  normals : list (option vec3);
  uvs : list (option vec2);
  faces : list (Z * Z * Z);
  maps : gmap string string;
  subsets : list Subset;
  material_sets : list (gmap string string);
}.

(** The dictionary appended by [scan_scn0_stride32_mesh_blocks]. *)
Record Block := {
  b_off : Z;
  b_vcount : Z;
  b_vb_off : Z;
  b_vb_size : Z;
  b_tag : Z;
  b_ib_bytes : Z;
  b_ib_off : Z;
  b_end_off : Z;
  b_stride : Z;
}.

(** ** [scan_scn0_stride32_mesh_blocks] *)

(** What one pass through a loop body does: [continue], [break], or
    reach the [append]. *)
Inductive flow (A : Type) :=
  | Next
  | Stop
  | Emit (a : A).
Arguments Next {A}.
Arguments Stop {A}.
Arguments Emit {A} a.

(** [abs(x) <= 200000.0] *)
Definition coord_sane (x : float) : bool := (abs x <=? 200000)%float.

(** The sampling loop: [ok] after [for i in range(sample)]. *)
Fixpoint sample_ok (payload : bytes) (ib_off vcount : Z) (samples : list Z)
  : option bool :=
  match samples with
  | [] => Some true
  | i :: rest =>
      idx ← unpack_u16 payload (ib_off + i * 2);
      if vcount <=? idx then Some false
      else sample_ok payload ib_off vcount rest
  end.

Definition scan_stride32_at (payload : bytes) (off : Z) : option (flow Block) :=
  let STRIDE := 32 in
  let n := len payload in
  if n <? off + 4 then Some Stop else
  vcount ← unpack_u32 payload off;
  if (vcount <? 3) || (2000000 <? vcount) then Some Next else
  let vb_off := off + 4 in
  let vb_size := vcount * STRIDE in
  let tag_off := vb_off + vb_size in
  if n <? tag_off + 8 then Some Next else
  tag ← unpack_u32 payload tag_off;
  if negb ((tag =? 101) || (tag =? 102)) then Some Next else
  ib_bytes ← unpack_u32 payload (tag_off + 4);
  if (ib_bytes <=? 0) || (500000000 <? ib_bytes) || negb (ib_bytes `mod` 2 =? 0)
  then Some Next else
  let ib_off := tag_off + 8 in
  let ib_end := ib_off + ib_bytes in
  if n <? ib_end then Some Next else
  let idx_count := ib_bytes `div` 2 in
  if (idx_count <? 3) || negb (idx_count `mod` 3 =? 0) then Some Next else
  xyz ← unpack_3f payload vb_off;
  let '(x, y, z) := xyz in
  if negb (coord_sane x && coord_sane y && coord_sane z) then Some Next else
  let sample := Z.min 10 idx_count in
  ok ← sample_ok payload ib_off vcount (py_range 0 sample);
  if negb ok then Some Next else
  Some (Emit {| b_off := off; b_vcount := vcount; b_vb_off := vb_off;
                b_vb_size := vb_size; b_tag := tag; b_ib_bytes := ib_bytes;
                b_ib_off := ib_off; b_end_off := ib_end; b_stride := STRIDE |}).

Fixpoint scan_stride32_loop (payload : bytes) (offs : list Z) (out : list Block)
  : option (list Block) :=
  match offs with
  | [] => Some out
  | off :: rest =>
      r ← scan_stride32_at payload off;
      match r with
      | Stop => Some out
      | Next => scan_stride32_loop payload rest out
      | Emit b => scan_stride32_loop payload rest (out ++ [b])
      end
  end.

Definition scan_scn0_stride32_mesh_blocks (payload : bytes) (start : Z)
  : option (list Block) :=
  let n := len payload in
  let scan_end := n in
  scan_stride32_loop payload (py_range (Z.max 0 start) (Z.max 0 (scan_end - 16))) [].

(** The acceptance conditions of a stride-32 block at [off], as the format
    description lists them. *)
Definition stride32_vcount (payload : bytes) (off : Z) : Z := le_uint 4 payload off.
Definition stride32_tag_off (payload : bytes) (off : Z) : Z :=
  off + 4 + stride32_vcount payload off * 32.
Definition stride32_tag (payload : bytes) (off : Z) : Z :=
  le_uint 4 payload (stride32_tag_off payload off).
Definition stride32_ib_bytes (payload : bytes) (off : Z) : Z :=
  le_uint 4 payload (stride32_tag_off payload off + 4).
Definition stride32_ib_off (payload : bytes) (off : Z) : Z :=
  stride32_tag_off payload off + 8.
Definition stride32_index (payload : bytes) (off i : Z) : Z :=
  le_uint 2 payload (stride32_ib_off payload off + 2 * i).

Definition stride32_valid (payload : bytes) (off : Z) : bool :=
  let vcount := stride32_vcount payload off in
  let tag := stride32_tag payload off in
  let ib_bytes := stride32_ib_bytes payload off in
  let idx_count := ib_bytes `div` 2 in
  (3 <=? vcount) && (vcount <=? 2000000)
  && ((tag =? 101) || (tag =? 102))
  && (0 <? ib_bytes) && (ib_bytes `mod` 2 =? 0) && (ib_bytes <=? 500000000)
  && (3 <=? idx_count) && (idx_count `mod` 3 =? 0)
  && (stride32_ib_off payload off + ib_bytes <=? len payload)
  && coord_sane (f32_at payload (off + 4))
  && coord_sane (f32_at payload (off + 8))
  && coord_sane (f32_at payload (off + 12))
  && forallb (λ i, stride32_index payload off i <? vcount)
       (seqZ 0 (Z.min 10 idx_count)).

Definition stride32_block (payload : bytes) (off : Z) : Block :=
  {| b_off := off;
     b_vcount := stride32_vcount payload off;
     b_vb_off := off + 4;
     b_vb_size := stride32_vcount payload off * 32;
     b_tag := stride32_tag payload off;
     b_ib_bytes := stride32_ib_bytes payload off;
     b_ib_off := stride32_ib_off payload off;
     b_end_off := stride32_ib_off payload off + stride32_ib_bytes payload off;
     b_stride := 32 |}.

(** ** [decode_scn0_stride32_mesh_block] *)

(** One pass of [for i in range(vcount)]: what is appended to
    [vertices], [normals] and [uvs]. *)
Definition decode_stride32_vertex (payload : bytes) (vb_off : Z)
    (flip_v swap_yz : bool) (i : Z) : option (vec3 * vec3 * vec2) :=
  let STRIDE := 32 in
  let base := vb_off + i * STRIDE in
  p ← unpack_3f payload base;
  nr ← unpack_3f payload (base + 12);
  t ← unpack_2f payload (base + 24);
  let '(x, y, z) := p in
  let '(nx, ny, nz) := nr in
  let '(u, v) := t in
  let '(y, z, ny, nz) := if swap_yz then (z, y, nz, ny) else (y, z, ny, nz) in
  let v := if flip_v then (1 - v)%float else v in
  Some ((x, y, z), (nx, ny, nz), (u, v)).

(** [a, b, c = indices[i : i + 3]]; a slice of another length cannot be
    unpacked ([ValueError]). *)
Definition slice3 (indices : list Z) (i : Z) : option (Z * Z * Z) :=
  match take 3 (drop (Z.to_nat i) indices) with
  | [a; b; c] => Some (a, b, c)
  | _ => None
  end.

(** [for i in range(0, len(indices), 3): faces.append(indices[i:i+3])] *)
Definition tri_list_faces (indices : list Z) : option (list (Z * Z * Z)) :=
  mapM (slice3 indices) (py_range_step 0 (len indices) 3).

(** The triangle-strip fallback of the other two decoding paths:
    [for i in range(2, len(indices))] with degenerate triangles dropped
    and the winding alternating with the parity of [i]. The three
    subscripts are in range for every such [i]. *)
Definition strip_face (indices : list Z) (i : Z) : option (Z * Z * Z) :=
  a ← indices !! Z.to_nat (i - 2);
  b ← indices !! Z.to_nat (i - 1);
  c ← indices !! Z.to_nat i;
  if (a =? b) || (b =? c) || (a =? c) then None
  else if Z.land i 1 =? 0 then Some (a, b, c)
  else Some (b, a, c).

Definition strip_faces (indices : list Z) : list (Z * Z * Z) :=
  omap (strip_face indices) (py_range 2 (len indices)).

(** The face-building code shared by [extract_d3d_mesh_blocks] and
    [parse_mesh_record]. *)
Definition build_faces (indices : list Z) : option (list (Z * Z * Z)) :=
  if len indices `mod` 3 =? 0 then tri_list_faces indices
  else Some (strip_faces indices).

(** Indices of a face list, in order. *)
Definition face_indices (fs : list (Z * Z * Z)) : list Z :=
  fs ≫= λ f, [f.1.1; f.1.2; f.2].

Definition decode_scn0_stride32_mesh_block (payload : bytes) (block : Block)
    (flip_v swap_yz : bool) : option Mesh :=
  let vcount := b_vcount block in
  let vb_off := b_vb_off block in
  let ib_off := b_ib_off block in
  let ib_bytes := b_ib_bytes block in
  vs ← mapM (decode_stride32_vertex payload vb_off flip_v swap_yz) (py_range 0 vcount);
  let idx_count := ib_bytes `div` 2 in
  indices ← unpack_u16s idx_count payload ib_off;
  faces ← tri_list_faces indices;
  Some {| mesh_name := Scn0MeshName (b_off block);
          mesh_decl := 0;
          vertices := (λ r, r.1.1) <$> vs;
          normals := (λ r, Some r.1.2) <$> vs;
          uvs := (λ r, Some r.2) <$> vs;
          faces := faces;
          maps := ∅;
          subsets := [];
          material_sets := [] |}.

(** ** Building concrete buffers *)

Definition byte_of_Z (z : Z) : Byte.byte :=
  default Byte.x00 (Byte.of_N (Z.to_N (z `mod` 256))).

(** [struct.pack("<I", z)] and [struct.pack("<H", z)] *)
Definition pack_u32 (z : Z) : bytes :=
  [byte_of_Z z; byte_of_Z (z `div` 256); byte_of_Z (z `div` 65536);
   byte_of_Z (z `div` 16777216)].
Definition pack_u16 (z : Z) : bytes :=
  [byte_of_Z z; byte_of_Z (z `div` 256)].
Definition zeros (n : nat) : bytes := replicate n Byte.x00.

(** A stride-32 block image: vcount, a vertex buffer, tag, ib_bytes and
    u16 indices. *)
Definition stride32_image (vcount : Z) (vb : bytes) (tag : Z) (indices : list Z)
  : bytes :=
  pack_u32 vcount ++ vb ++ pack_u32 tag ++ pack_u32 (2 * len indices)
  ++ (indices ≫= pack_u16).

(** Four vertices at the origin, two triangles (tag 101, ib_bytes 12). *)
Definition quad_payload : bytes :=
  stride32_image 4 (zeros 128) 101 [0; 1; 2; 2; 1; 3].

(** Three vertices and twelve indices; the eleventh index (7) lies beyond
    the ten that the scanner samples. *)
Definition unsampled_index_payload : bytes :=
  stride32_image 3 (zeros 96) 101 [0; 1; 2; 0; 1; 2; 0; 1; 2; 0; 7; 2].

Definition quad_block : Block := stride32_block quad_payload 0.
Definition unsampled_index_block : Block := stride32_block unsampled_index_payload 0.

(** ** [parse_d3d_decl_520] *)

(** One D3DVERTEXELEMENT9 tuple
    [(stream, offset, typ, method, usage, usage_idx)]. *)
Record Elem := {
  e_stream : Z;
  e_offset : Z;
  e_typ : Z;
  e_method : Z;
  e_usage : Z;
  e_usage_idx : Z;
}.

(** The tuple read at [off]: "<HH" at [off], "<BBBB" at [off + 4]. *)
Definition elem_at (block : bytes) (off : Z) : Elem :=
  {| e_stream := le_uint 2 block off;
     e_offset := le_uint 2 block (off + 2);
     e_typ := le_uint 1 block (off + 4);
     e_method := le_uint 1 block (off + 4 + 1);
     e_usage := le_uint 1 block (off + 4 + 2);
     e_usage_idx := le_uint 1 block (off + 4 + 3) |}.

(** The first loop: [(elems, end_found)] after [for i in range(65)]. *)
Fixpoint read_elems (block : bytes) (idxs : list Z) (elems : list Elem)
  : option (list Elem * bool) :=
  match idxs with
  | [] => Some (elems, false)
  | i :: rest =>
      let off := i * 8 in
      o1 ← unpack_offset 4 block off;
      o2 ← unpack_offset 4 block (off + 4);
      let e := {| e_stream := le_uint 2 block o1;
                  e_offset := le_uint 2 block (o1 + 2);
                  e_typ := le_uint 1 block o2;
                  e_method := le_uint 1 block (o2 + 1);
                  e_usage := le_uint 1 block (o2 + 2);
                  e_usage_idx := le_uint 1 block (o2 + 3) |} in
      let elems := elems ++ [e] in
      if e_stream e =? 0xFF then Some (elems, true)
      else read_elems block rest elems
  end.

(** The dictionary [type_size] with [.get(typ)]. *)
Definition type_size (typ : Z) : option Z :=
  match typ with
  | 0 => Some 4
  | 1 => Some 8
  | 2 => Some 12
  | 3 => Some 16
  | 4 => Some 4
  | 5 => Some 4
  | 6 => Some 4
  | 7 => Some 4
  | 8 => Some 8
  | 9 => Some 8
  | 10 => Some 16
  | 11 => Some 4
  | 12 => Some 4
  | 13 => Some 4
  | 14 => Some 4
  | 15 => Some 8
  | 16 => Some 8
  | 17 => Some 8
  | _ => None
  end.

(** The second loop; [None] is its [return None]. *)
Fixpoint decl_stride (elems : list Elem) (stride : Z) : option Z :=
  match elems with
  | [] => Some stride
  | e :: rest =>
      if e_stream e =? 0xFF then Some stride
      else match type_size (e_typ e) with
           | None => None
           | Some sz =>
               if negb (e_stream e =? 0) then decl_stride rest stride
               else decl_stride rest (Z.max stride (e_offset e + sz))
           end
  end.

(** The outer option is an exception, the inner one the returned
    [Optional]. *)
Definition parse_d3d_decl_520 (block : bytes)
  : option (option (Z * list Elem)) :=
  if negb (len block =? 520) then Some None else
  r ← read_elems block (py_range 0 65) [];
  let '(elems, end_found) := r in
  if negb end_found then Some None else
  match decl_stride elems 0 with
  | None => Some None
  | Some stride =>
      if (stride <=? 0) || (1024 <? stride) then Some None
      else Some (Some (stride, elems))
  end.

(** The declaration as the format description reads it: 65 records, the
    elements before the first record with stream id 0xFF, and the stride
    as the largest [offset + type-size] over the stream-0 elements. *)
Definition decl_records (block : bytes) : list Elem :=
  (λ i, elem_at block (8 * i)) <$> seqZ 0 65.

Definition is_sentinel (e : Elem) : bool := e_stream e =? 0xFF.

Fixpoint before_sentinel (recs : list Elem) : list Elem :=
  match recs with
  | [] => []
  | e :: rest => if is_sentinel e then [] else e :: before_sentinel rest
  end.

(** The records up to and including the first sentinel. *)
Fixpoint upto_sentinel (recs : list Elem) : list Elem :=
  match recs with
  | [] => []
  | e :: rest => if is_sentinel e then [e] else e :: upto_sentinel rest
  end.

Definition has_sentinel (recs : list Elem) : bool := existsb is_sentinel recs.

Definition unknown_type (e : Elem) : bool :=
  match type_size (e_typ e) with None => true | Some _ => false end.

Definition elem_end (e : Elem) : Z := e_offset e + default 0 (type_size (e_typ e)).

Definition stream0_stride (elems : list Elem) : Z :=
  foldr Z.max 0 (elem_end <$> filter (λ e, e_stream e = 0) elems).

(** The three rejection causes named by the format description. *)
Definition decl_rejected (block : bytes) : bool :=
  let recs := decl_records block in
  negb (has_sentinel recs)
  || existsb unknown_type (before_sentinel recs)
  || (1024 <? stream0_stride (before_sentinel recs)).

(** A declaration whose first record is the sentinel. *)
Definition empty_decl_block : bytes := pack_u16 0xFF ++ zeros 518.

(** Position (FLOAT3 at 0), normal (FLOAT3 at 12), texcoord0 (FLOAT2 at
    24), then the sentinel: stride 32. *)
Definition elem_bytes (stream offset typ method usage usage_idx : Z) : bytes :=
  pack_u16 stream ++ pack_u16 offset
  ++ [byte_of_Z typ; byte_of_Z method; byte_of_Z usage; byte_of_Z usage_idx].
Definition pnt_decl_block : bytes :=
  elem_bytes 0 0 2 0 0 0 ++ elem_bytes 0 12 2 0 3 0 ++ elem_bytes 0 24 1 0 5 0
  ++ elem_bytes 0xFF 0 17 0 0 0 ++ zeros 488.

(** ** [decode_vertex] *)

(** Everything after the base field: axis swap, optional normal, the
    three packed fields, at most one UV pair. *)
Definition decode_after_base (decl : Z) (vb : bytes) (off : Z) (xyz : vec3)
    (flip_v swap_yz : bool) : option (vec3 * option vec3 * option vec2) :=
  let '(x, y, z) := xyz in
  let '(y, z) := if swap_yz then (z, y) else (y, z) in
  let pos := (x, y, z) in
  r ← (if Z.land decl 0x10 =? 0 then Some (None, off)
       else n ← unpack_3f vb off;
            let '(nx, ny, nz) := n in
            let '(ny, nz) := if swap_yz then (nz, ny) else (ny, nz) in
            Some (Some (nx, ny, nz), off + 12));
  let '(nrm, off) := r in
  let off := if Z.land decl 0x20 =? 0 then off else off + 4 in
  let off := if Z.land decl 0x40 =? 0 then off else off + 4 in
  let off := if Z.land decl 0x80 =? 0 then off else off + 4 in
  let uv_count := Z.land (Z.shiftr decl 8) 0xF in
  uv ← (if uv_count =? 0 then Some None
        else
          let uv_fmt_bits := Z.land (Z.shiftr decl 16) 0xFFFF in
          let fmt := if uv_fmt_bits =? 0 then 0 else Z.land uv_fmt_bits 3 in
          t ← (if fmt =? 0 then unpack_2f vb off
               else if fmt =? 1 then unpack_nf_uv 3 vb off
               else if fmt =? 2 then unpack_nf_uv 4 vb off
               else hu ← unpack_u16 vb off;
                    hv ← unpack_u16 vb (off + 2);
                    Some (half_to_float hu, half_to_float hv));
          let '(u, v) := t in
          let v := if flip_v then (1 - v)%float else v in
          Some (Some (u, v)));
  Some (pos, nrm, uv).

Definition decode_vertex (decl : Z) (vb : bytes) (i : Z) (flip_v swap_yz : bool)
  : option (vec3 * option vec3 * option vec2) :=
  let stride := vertex_stride_from_decl decl in
  let off := i * stride in
  let base_sel := Z.land decl 0x400E in
  b ← (if base_sel =? 0x0002 then
         xyz ← unpack_3f vb off; Some (xyz, off + 12)
       else if (base_sel =? 0x0004) || (base_sel =? 0x0006) then
         xyz ← unpack_nf_xyz 4 vb off; Some (xyz, off + 16)
       else if base_sel =? 0x0008 then
         xyz ← unpack_nf_xyz 5 vb off; Some (xyz, off + 20)
       else if base_sel =? 0x000A then
         xyz ← unpack_nf_xyz 6 vb off; Some (xyz, off + 24)
       else if base_sel =? 0x000C then
         xyz ← unpack_nf_xyz 7 vb off; Some (xyz, off + 28)
       else if base_sel =? 0x000E then
         xyz ← unpack_nf_xyz 8 vb off; Some (xyz, off + 32)
       else
         xyz ← unpack_3f vb off; Some (xyz, off + 12));
  let '(xyz, off) := b in
  decode_after_base decl vb off xyz flip_v swap_yz.

(** The seven base selectors of the table. *)
Definition known_base_sels : list Z := [0x0002; 0x0004; 0x0006; 0x0008; 0x000A; 0x000C; 0x000E].

(** ** [Reader] and [parse_scn_tree] *)















(** ** [find_subset_table] *)

(** The fields unpacked for entry [i], or [None] when the 20-byte entry's
    vertex count differs from [vcount] ([ok = False; break]). *)
Definition entry_fields (payload : bytes) (off entry_size vcount i : Z)
  : option (option (Z * Z * Z * Z)) :=
  if entry_size =? 20 then
    o ← unpack_offset 20 payload (off + 4 + i * 20);
    let m_id := le_uint 4 payload o in
    let start_tri := le_uint 4 payload (o + 4) in
    let tri_count := le_uint 4 payload (o + 8) in
    let base_v := le_uint 4 payload (o + 12) in
    let vcnt := le_uint 4 payload (o + 16) in
    if negb (vcnt =? vcount) then Some None
    else Some (Some (m_id, start_tri, tri_count, base_v))
  else
    o ← unpack_offset 16 payload (off + 4 + i * 16);
    let m_id := le_uint 4 payload o in
    let start_tri := le_uint 4 payload (o + 4) in
    let tri_count := le_uint 4 payload (o + 8) in
    let base_v := le_uint 4 payload (o + 12) in
    Some (Some (m_id, start_tri, tri_count, base_v)).

(** [for i in range(subset_count)]: the state is
    [(entries, max_end, sum_tris)]; the inner [None] is [ok = False]. *)
Fixpoint subset_entries (payload : bytes) (off entry_size vcount : Z)
    (face_count : option Z) (idxs : list Z) (entries : list Subset)
    (max_end sum_tris : Z) : option (option (list Subset * Z * Z)) :=
  match idxs with
  | [] => Some (Some (entries, max_end, sum_tris))
  | i :: rest =>
      f ← entry_fields payload off entry_size vcount i;
      match f with
      | None => Some None
      | Some (m_id, start_tri, tri_count, base_v) =>
          if vcount <? base_v then Some None
          else if (100000000 <? start_tri) || (100000000 <? tri_count)
                  || (tri_count =? 0) then Some None
          else if match face_count with
                  | Some fc => fc <? start_tri + tri_count
                  | None => false
                  end then Some None
          else
            subset_entries payload off entry_size vcount face_count rest
              (entries ++ [{| material_id := m_id; start_tri := start_tri;
                              tri_count := tri_count; base_vertex := base_v;
                              end_off_key := None |}])
              (Z.max max_end (start_tri + tri_count)) (sum_tris + tri_count)
      end
  end.

(** [entries[0]["_end_off"] = v] and [best[0].pop("_end_off", None)] *)
Definition set_end_off (v : option Z) (entries : list Subset) : list Subset :=
  match entries with
  | [] => []
  | e :: rest =>
      {| material_id := material_id e; start_tri := start_tri e;
         tri_count := tri_count e; base_vertex := base_vertex e;
         end_off_key := v |} :: rest
  end.

(** One pass of [for entry_size in (20, 16)]: the new [best]. Reading
    [best[0]["_end_off"]] from a head without that key is a KeyError. *)
Definition try_entry_size (payload : bytes) (decl_off vcount : Z)
    (face_count : option Z) (off subset_count : Z) (best : list Subset)
    (entry_size : Z) : option (list Subset) :=
  let table_bytes := 4 + subset_count * entry_size in
  if decl_off <? off + table_bytes then Some best else
  r ← subset_entries payload off entry_size vcount face_count
        (py_range 0 subset_count) [] 0 0;
  match r with
  | None => Some best
  | Some (entries, max_end, sum_tris) =>
      if (sum_tris =? 0) || (max_end =? 0) then Some best else
      closer ← match best with
               | [] => Some true
               | b0 :: _ =>
                   e ← end_off_key b0;
                   Some (decl_off - (off + table_bytes) <? decl_off - e)
               end;
      if (closer : bool) then Some (set_end_off (Some (off + table_bytes)) entries)
      else Some best
  end.

Fixpoint subset_scan (payload : bytes) (decl_off vcount : Z)
    (face_count : option Z) (offs : list Z) (best : list Subset)
  : option (list Subset) :=
  match offs with
  | [] => Some best
  | off :: rest =>
      subset_count ← unpack_u32 payload off;
      if (subset_count =? 0) || (256 <? subset_count)
      then subset_scan payload decl_off vcount face_count rest best
      else
        best ← try_entry_size payload decl_off vcount face_count off subset_count best 20;
        best ← try_entry_size payload decl_off vcount face_count off subset_count best 16;
        subset_scan payload decl_off vcount face_count rest best
  end.

Definition find_subset_table (payload : bytes) (decl_off vcount : Z)
    (face_count : option Z) : option (list Subset) :=
  let search_start := Z.max 0 (decl_off - 0x4000) in
  let search_end := Z.max 0 (decl_off - 4) in
  if search_end <=? search_start then Some [] else
  best ← subset_scan payload decl_off vcount face_count
           (py_range_step search_start search_end 4) [];
  Some (set_end_off None best).

(** Candidate tables, as the format description has them. A candidate is
    a scanned offset and an entry size. *)
Definition subset_grid (decl_off : Z) : list Z :=
  py_range_step (Z.max 0 (decl_off - 0x4000)) (Z.max 0 (decl_off - 4)) 4.

Definition table_count (payload : bytes) (off : Z) : Z := le_uint 4 payload off.

(** Field [k] (0 = material_id, 1 = start_tri, 2 = tri_count,
    3 = base_vertex, 4 = vertex_count) of entry [i]. *)
Definition table_field (payload : bytes) (off entry_size i k : Z) : Z :=
  le_uint 4 payload (off + 4 + i * entry_size + 4 * k).

Definition table_end (payload : bytes) (off entry_size : Z) : Z :=
  off + 4 + table_count payload off * entry_size.

Definition table_entry (payload : bytes) (off entry_size i : Z) : Subset :=
  {| material_id := table_field payload off entry_size i 0;
     start_tri := table_field payload off entry_size i 1;
     tri_count := table_field payload off entry_size i 2;
     base_vertex := table_field payload off entry_size i 3;
     end_off_key := None |}.

Definition table_entries (payload : bytes) (off entry_size : Z) : list Subset :=
  table_entry payload off entry_size <$> seqZ 0 (table_count payload off).

(** The entry conditions the format description names. *)
Definition entry_named_ok (payload : bytes) (vcount face_count off entry_size i : Z)
  : bool :=
  (table_field payload off entry_size i 3 <=? vcount)
  && (0 <? table_field payload off entry_size i 2)
  && (table_field payload off entry_size i 1 + table_field payload off entry_size i 2
      <=? face_count)
  && ((entry_size =? 16) || (table_field payload off entry_size i 4 =? vcount)).

(** The two further plausibility caps of the code. *)
Definition entry_capped (payload : bytes) (off entry_size i : Z) : bool :=
  (table_field payload off entry_size i 1 <=? 100000000)
  && (table_field payload off entry_size i 2 <=? 100000000).

Definition table_shape_ok (payload : bytes) (decl_off off entry_size : Z) : bool :=
  (1 <=? table_count payload off) && (table_count payload off <=? 256)
  && (table_end payload off entry_size <=? decl_off).

(** A valid candidate in the words of the format description ... *)
Definition named_candidate (payload : bytes) (decl_off vcount face_count : Z)
    (c : Z * Z) : bool :=
  table_shape_ok payload decl_off c.1 c.2
  && forallb (entry_named_ok payload vcount face_count c.1 c.2)
       (seqZ 0 (table_count payload c.1)).

(** ... and as the code accepts it. *)
Definition candidate (payload : bytes) (decl_off vcount face_count : Z)
    (c : Z * Z) : bool :=
  named_candidate payload decl_off vcount face_count c
  && forallb (entry_capped payload c.1 c.2) (seqZ 0 (table_count payload c.1)).

(** The candidates in scan order: per offset, entry size 20 before 16. *)
Definition scan_order (decl_off : Z) : list (Z * Z) :=
  subset_grid decl_off ≫= λ off, [(off, 20); (off, 16)].

Definition table_dist (payload : bytes) (decl_off : Z) (c : Z * Z) : Z :=
  decl_off - table_end payload c.1 c.2.

(** Byte image of a table with 20-byte entries. *)
Definition encode_entry20 (vcount : Z) (e : Subset) : bytes :=
  pack_u32 (material_id e) ++ pack_u32 (start_tri e) ++ pack_u32 (tri_count e)
  ++ pack_u32 (base_vertex e) ++ pack_u32 vcount.

Definition encode_table20 (vcount : Z) (entries : list Subset) : bytes :=
  pack_u32 (len entries) ++ (entries ≫= encode_entry20 vcount).

Definition mk_subset (m s t b : Z) : Subset :=
  {| material_id := m; start_tri := s; tri_count := t; base_vertex := b;
     end_off_key := None |}.

(** One entry, after one stray byte: the declaration offset 25 is not a
    multiple of 4. *)
Definition misaligned_table_payload : bytes :=
  zeros 1 ++ encode_table20 3 [mk_subset 0 0 1 0].

(** The injected one-entry table (vcount 1) is the tail of a two-entry
    table that starts 20 bytes earlier. *)
Definition shadowed_table_payload : bytes :=
  pack_u32 2 ++ pack_u32 7 ++ pack_u32 0 ++ pack_u32 1 ++ pack_u32 0
  ++ encode_table20 1 [mk_subset 5 1 1 0].

(** A table whose only entry starts beyond triangle 100000000, for a
    mesh with 200000002 faces. *)
Definition far_start_payload : bytes :=
  encode_table20 3 [mk_subset 0 100000001 1 0].

(** Two entries after four unrelated bytes. *)
Definition two_entry_payload : bytes :=
  pack_u32 0xFFFFFFFF ++ encode_table20 4 [mk_subset 0 0 1 0; mk_subset 1 1 1 0].

(** What the code checks of entry [i]. *)
Definition entry_ok (payload : bytes) (vcount face_count off entry_size i : Z)
  : bool :=
  entry_named_ok payload vcount face_count off entry_size i
  && entry_capped payload off entry_size i.

(** [best] as the scan keeps it: nothing, or the entries of a candidate
    with its end offset stored in the head. *)
Definition best_of (payload : bytes) (cur : option (Z * Z)) : list Subset :=
  match cur with
  | None => []
  | Some c => set_end_off (Some (table_end payload c.1 c.2))
                (table_entries payload c.1 c.2)
  end.

(** One candidate against the best so far: a valid candidate replaces it
    when there is none yet or when it ends strictly closer. *)
Definition pick (payload : bytes) (decl_off vcount face_count : Z)
    (cur : option (Z * Z)) (c : Z * Z) : option (Z * Z) :=
  if candidate payload decl_off vcount face_count c then
    match cur with
    | None => Some c
    | Some b =>
        if table_dist payload decl_off c <? table_dist payload decl_off b
        then Some c else Some b
    end
  else cur.

(** The best candidate so far has at least one entry. *)
Definition best_inv (payload : bytes) (cur : option (Z * Z)) : Prop :=
  ∀ b, cur = Some b → 1 ≤ table_count payload b.1.

(** An entry that can be written into a table with 20-byte entries and
    passes every check of the scan for the given vertex and face counts. *)
Definition entry_injectable (vcount face_count : Z) (e : Subset) : Prop :=
  0 ≤ material_id e < 2 ^ 32
  ∧ 0 ≤ start_tri e ≤ 100000000
  ∧ 0 < tri_count e ≤ 100000000
  ∧ 0 ≤ base_vertex e ≤ vcount
  ∧ start_tri e + tri_count e ≤ face_count
  ∧ end_off_key e = None.

From stdpp Require Import pretty.
Local Open Scope Z_scope.

(** ** Slices

    [l[lo:hi]]: a negative bound counts from the end, and both bounds are
    clamped to the list. *)
Definition slice_index (n i : Z) : Z :=
  if i <? 0 then Z.max 0 (i + n) else Z.min i n.

Definition py_slice {A : Type} (l : list A) (lo hi : Z) : list A :=
  let lo := slice_index (len l) lo in
  let hi := slice_index (len l) hi in
  take (Z.to_nat (hi - lo)) (drop (Z.to_nat lo) l).

(** [struct.unpack_from("<" + "I"*n, data, off)] *)
Definition unpack_u32s (n : Z) (data : bytes) (off : Z) : option (list Z) :=
  o ← unpack_offset (4 * Z.max 0 n) data off;
  Some ((λ k, le_uint 4 data (o + 4 * k)) <$> seqZ 0 n).

(** ** [find_vb_block] *)

(** One pass of [for desc_off in range(...)]: the inner [None] is
    [continue], the inner [Some] the returned tuple
    [(desc_off, decl, vcount, ib_hdr_off, end_off)]. *)
Definition find_vb_block_at (payload : bytes) (desc_off : Z)
  : option (option (Z * Z * Z * Z * Z)) :=
  decl ← unpack_u32 payload desc_off;
  let stride := vertex_stride_from_decl decl in
  if negb ((12 <=? stride) && (stride <=? 256)) then Some None else
  vcount ← unpack_u32 payload (desc_off + 520);
  if (vcount =? 0) || (10000000 <? vcount) then Some None else
  let vb_off := desc_off + 524 in
  let vb_size := stride * vcount in
  let ib_hdr_off := vb_off + vb_size in
  if len payload <? ib_hdr_off + 8 then Some None else
  idx_fmt ← unpack_u32 payload ib_hdr_off;
  idx_count ← unpack_u32 payload (ib_hdr_off + 4);
  if (idx_count =? 0) || (100000000 <? idx_count) then Some None else
  match (if idx_fmt =? 0 then Some 2
         else if idx_fmt =? 1 then Some 4
         else None) with
  | None => Some None
  | Some idx_size =>
      let end_off := ib_hdr_off + 8 + idx_count * idx_size in
      if len payload <? end_off then Some None else
      if 64 <? len payload - end_off then Some None else
      Some (Some (desc_off, decl, vcount, ib_hdr_off, end_off))
  end.

Fixpoint find_vb_block_loop (payload : bytes) (offs : list Z)
  : option (option (Z * Z * Z * Z * Z)) :=
  match offs with
  | [] => Some None
  | desc_off :: rest =>
      r ← find_vb_block_at payload desc_off;
      match r with
      | Some hit => Some (Some hit)
      | None => find_vb_block_loop payload rest
      end
  end.

Definition find_vb_block (payload : bytes) : option (option (Z * Z * Z * Z * Z)) :=
  if len payload <? 520 + 4 + 4 + 8 then Some None else
  find_vb_block_loop payload (py_range_step 0 (len payload - (520 + 4 + 8)) 4).

(** The fields of a vertex-desc block at [desc_off], and the conditions
    under which the scan returns it. *)
Definition vb_decl (payload : bytes) (desc_off : Z) : Z := le_uint 4 payload desc_off.
Definition vb_stride (payload : bytes) (desc_off : Z) : Z :=
  vertex_stride_from_decl (vb_decl payload desc_off).
Definition vb_vcount (payload : bytes) (desc_off : Z) : Z :=
  le_uint 4 payload (desc_off + 520).
Definition vb_ib_hdr_off (payload : bytes) (desc_off : Z) : Z :=
  desc_off + 524 + vb_stride payload desc_off * vb_vcount payload desc_off.
Definition vb_idx_fmt (payload : bytes) (desc_off : Z) : Z :=
  le_uint 4 payload (vb_ib_hdr_off payload desc_off).
Definition vb_idx_count (payload : bytes) (desc_off : Z) : Z :=
  le_uint 4 payload (vb_ib_hdr_off payload desc_off + 4).
Definition vb_end_off (payload : bytes) (desc_off : Z) : Z :=
  vb_ib_hdr_off payload desc_off + 8
  + vb_idx_count payload desc_off * (if vb_idx_fmt payload desc_off =? 0 then 2 else 4).

Definition vb_block_valid (payload : bytes) (desc_off : Z) : bool :=
  (12 <=? vb_stride payload desc_off) && (vb_stride payload desc_off <=? 256)
  && (1 <=? vb_vcount payload desc_off) && (vb_vcount payload desc_off <=? 10000000)
  && ((vb_idx_fmt payload desc_off =? 0) || (vb_idx_fmt payload desc_off =? 1))
  && (1 <=? vb_idx_count payload desc_off)
  && (vb_idx_count payload desc_off <=? 100000000)
  && (vb_end_off payload desc_off <=? len payload)
  && (len payload - vb_end_off payload desc_off <=? 64).

Definition vb_block (payload : bytes) (desc_off : Z) : Z * Z * Z * Z * Z :=
  (desc_off, vb_decl payload desc_off, vb_vcount payload desc_off,
   vb_ib_hdr_off payload desc_off, vb_end_off payload desc_off).

(** The offsets the scan visits. *)
Definition vb_grid (payload : bytes) : list Z :=
  py_range_step 0 (len payload - 532) 4.

(** The smallest payload with a block: declaration word 2 (stride 12),
    one vertex, index format 0 and one index. *)
Definition tiny_vb_payload : bytes :=
  pack_u32 0x2 ++ zeros 516 ++ pack_u32 1 ++ zeros 12
  ++ pack_u32 0 ++ pack_u32 1 ++ pack_u16 0.

(** ** [decode_vertex_d3d] *)

(** [x is None] *)
Definition is_none {A : Type} (x : option A) : bool :=
  match x with None => true | Some _ => false end.

(** The loop over [elems] on the state [(pos, nrm, uv)]. *)
Fixpoint decode_d3d_loop (elems : list Elem) (vb : bytes) (base : Z)
    (flip_v swap_yz : bool) (pos nrm : option vec3) (uv : option vec2)
  : option (option vec3 * option vec3 * option vec2) :=
  match elems with
  | [] => Some (pos, nrm, uv)
  | e :: rest =>
      if e_stream e =? 0xFF then Some (pos, nrm, uv)
      else if negb (e_stream e =? 0) then
        decode_d3d_loop rest vb base flip_v swap_yz pos nrm uv
      else
        let at_ := base + e_offset e in
        if (e_usage e =? 0) && is_none pos then
          if e_typ e =? 2 then
            xyz ← unpack_3f vb at_;
            let '(x, y, z) := xyz in
            let '(y, z) := if swap_yz then (z, y) else (y, z) in
            decode_d3d_loop rest vb base flip_v swap_yz (Some (x, y, z)) nrm uv
          else decode_d3d_loop rest vb base flip_v swap_yz pos nrm uv
        else if (e_usage e =? 3) && is_none nrm then
          if e_typ e =? 2 then
            n ← unpack_3f vb at_;
            let '(nx, ny, nz) := n in
            let '(ny, nz) := if swap_yz then (nz, ny) else (ny, nz) in
            decode_d3d_loop rest vb base flip_v swap_yz pos (Some (nx, ny, nz)) uv
          else decode_d3d_loop rest vb base flip_v swap_yz pos nrm uv
        else if (e_usage e =? 5) && (e_usage_idx e =? 0) && is_none uv then
          if e_typ e =? 1 then
            t ← unpack_2f vb at_;
            let '(u, v) := t in
            let v := if flip_v then (1 - v)%float else v in
            decode_d3d_loop rest vb base flip_v swap_yz pos nrm (Some (u, v))
          else decode_d3d_loop rest vb base flip_v swap_yz pos nrm uv
        else decode_d3d_loop rest vb base flip_v swap_yz pos nrm uv
  end.

Definition decode_vertex_d3d (elems : list Elem) (vb : bytes) (i stride : Z)
    (flip_v swap_yz : bool) : option (vec3 * option vec3 * option vec2) :=
  let base := i * stride in
  r ← decode_d3d_loop elems vb base flip_v swap_yz None None None;
  let '(pos, nrm, uv) := r in
  let pos := match pos with None => (0, 0, 0)%float | Some p => p end in
  Some (pos, nrm, uv).

(** What the decoder looks for: the first stream-0 element before the
    sentinel with the given usage and type. *)
Definition is_position (e : Elem) : bool :=
  (e_stream e =? 0) && (e_usage e =? 0) && (e_typ e =? 2).
Definition is_normal (e : Elem) : bool :=
  (e_stream e =? 0) && (e_usage e =? 3) && (e_typ e =? 2).
Definition is_texcoord0 (e : Elem) : bool :=
  (e_stream e =? 0) && (e_usage e =? 5) && (e_usage_idx e =? 0) && (e_typ e =? 1).

Definition first_elem (p : Elem → bool) (elems : list Elem) : option Elem :=
  head (filter (λ e, p e = true) (before_sentinel elems)).

Definition swap_vec3 (swap_yz : bool) (v : vec3) : vec3 :=
  let '(x, y, z) := v in if swap_yz then (x, z, y) else (x, y, z).
Definition flip_vec2 (flip_v : bool) (t : vec2) : vec2 :=
  let '(u, v) := t in if flip_v then (u, (1 - v)%float) else (u, v).

Definition vec3_at (vb : bytes) (off : Z) : vec3 :=
  (f32_at vb off, f32_at vb (off + 4), f32_at vb (off + 8)).
Definition vec2_at (vb : bytes) (off : Z) : vec2 :=
  (f32_at vb off, f32_at vb (off + 4)).

(** [x] if it is set, else [y]. *)
Definition or_else {A : Type} (x y : option A) : option A :=
  match x with Some _ => x | None => y end.

(** A stream-0 element lies inside a vertex of [stride] bytes. *)
Definition elem_fits (stride : Z) (e : Elem) : Prop :=
  e_stream e = 0 → 0 ≤ e_offset e ∧ elem_end e ≤ stride.

(** The vertex of [pnt_decl_block]: 32 bytes. *)
Definition pnt_vertex_buffer : bytes := zeros 64.

(** ** [extract_d3d_mesh_blocks] *)

(** The dataclass [Mesh] with its name as a string. *)
Record NamedMesh := {
  nm_name : string;
  nm_decl : Z;
  nm_vertices : list vec3;
  nm_normals : list (option vec3);
  nm_uvs : list (option vec2);
  nm_faces : list (Z * Z * Z);
  nm_maps : gmap string string;
  nm_subsets : list Subset;
  nm_material_sets : list (gmap string string);
}.

(** The locals of one pass of the scan loop once a block has passed every
    check. *)
Record D3DBlock := {
  d_stride : Z;
  d_elems : list Elem;
  d_vcount : Z;
  d_vb_off : Z;
  d_idx_fmt : Z;
  d_idx_count : Z;
  d_idx_size : Z;
}.

(** The dictionary [idx_bpi] with [.get(h0)]. *)
Definition idx_bpi (h0 : Z) : option Z :=
  match h0 with
  | 0 => Some 2
  | 1 => Some 4
  | 2 => Some 2
  | 3 => Some 2
  | 4 => Some 4
  | _ => None
  end.

(** The index header: variant A, else variant B, else [continue]
    ([None]); the result is [(idx_fmt, idx_count, idx_size)]. *)
Definition d3d_index_header (h0 h1 : Z) : option (Z * Z * Z) :=
  if ((h0 =? 0) || (h0 =? 1)) && negb (h1 =? 0) && (h1 <=? 50000000) then
    Some (h0, h1, if h0 =? 0 then 2 else 4)
  else
    match idx_bpi h0 with
    | None => None
    | Some bpi =>
        if (h1 =? 0) || (100000000 <? h1) then None
        else Some (if bpi =? 2 then 0 else 1, h1, bpi)
    end.

(** The loop body up to the duplicate check: the inner [None] is
    [continue]. *)
Definition extract_d3d_header (payload : bytes) (off : Z)
  : option (option D3DBlock) :=
  maybe ← parse_d3d_decl_520 (py_slice payload off (off + 520));
  match maybe with
  | None => Some None
  | Some (stride, elems) =>
      v0 ← unpack_u32 payload (off + 520);
      v1 ← unpack_u32 payload (off + 524);
      v2 ← unpack_u32 payload (off + 528);
      let '(vcount, vb_off) :=
        if (0 <? v0) && (v0 <=? 5000000) then (v0, off + 524)
        else if (0 <? v1) && (v1 <=? 5000000) then (v1, off + 528)
        else (v2, off + 532) in
      if (vcount =? 0) || (5000000 <? vcount) then Some None else
      let vb_size := stride * vcount in
      let idx_hdr := vb_off + vb_size in
      if len payload <? idx_hdr + 8 then Some None else
      o ← unpack_offset 8 payload idx_hdr;
      let h0 := le_uint 4 payload o in
      let h1 := le_uint 4 payload (o + 4) in
      match d3d_index_header h0 h1 with
      | None => Some None
      | Some (idx_fmt, idx_count, idx_size) =>
          let ib_off := idx_hdr + 8 in
          let ib_size := idx_count * idx_size in
          let end_ := ib_off + ib_size in
          if len payload <? end_ then Some None else
          Some (Some {| d_stride := stride; d_elems := elems; d_vcount := vcount;
                        d_vb_off := vb_off; d_idx_fmt := idx_fmt;
                        d_idx_count := idx_count; d_idx_size := idx_size |})
      end
  end.

(** [(off << 1) ^ (vcount & 0xFFFF) ^ (idx_count << 3)] *)
Definition d3d_key (off vcount idx_count : Z) : Z :=
  Z.lxor (Z.lxor (Z.shiftl off 1) (Z.land vcount 0xFFFF)) (Z.shiftl idx_count 3).

(** The loop body after the duplicate check: the mesh that is appended. *)
Definition extract_d3d_mesh (payload : bytes) (flip_v swap_yz : bool)
    (maps : gmap string string) (material_sets : list (gmap string string))
    (mesh_name : string) (b : D3DBlock) : option NamedMesh :=
  let stride := d_stride b in
  let vcount := d_vcount b in
  let vb_off := d_vb_off b in
  let vb_size := stride * vcount in
  let idx_hdr := vb_off + vb_size in
  let ib_off := idx_hdr + 8 in
  let end_ := ib_off + d_idx_count b * d_idx_size b in
  let vb := py_slice payload vb_off (vb_off + vb_size) in
  let ib := py_slice payload ib_off end_ in
  indices ← (if d_idx_fmt b =? 0 then unpack_u16s (d_idx_count b) ib 0
             else unpack_u32s (d_idx_count b) ib 0);
  vs ← mapM (λ i, decode_vertex_d3d (d_elems b) vb i stride flip_v swap_yz)
          (py_range 0 vcount);
  faces ← build_faces indices;
  subsets ← (if bool_decide (vs ≠ []) && bool_decide (faces ≠ []) then
               let decl_off_eff := vb_off - 524 in
               find_subset_table payload decl_off_eff vcount (Some (len faces))
             else Some []);
  Some {| nm_name := mesh_name;
          nm_decl := 0;
          nm_vertices := (λ r, r.1.1) <$> vs;
          nm_normals := (λ r, r.1.2) <$> vs;
          nm_uvs := (λ r, r.2) <$> vs;
          nm_faces := faces;
          nm_maps := maps;
          nm_subsets := subsets;
          nm_material_sets := material_sets |}.

(** [name_prefix if len(meshes) == 0 else f"{name_prefix}_{len(meshes)}"] *)
Definition part_name (name_prefix : string) (count : Z) : string :=
  if count =? 0 then name_prefix
  else name_prefix +:+ "_" +:+ pretty count.

(** One pass of the loop on the state [(meshes, seen)]. *)
Definition extract_d3d_at (payload : bytes) (flip_v swap_yz : bool)
    (name_prefix : string) (maps : gmap string string)
    (material_sets : list (gmap string string))
    (st : list NamedMesh * gset Z) (off : Z)
  : option (list NamedMesh * gset Z) :=
  let '(meshes, seen) := st in
  h ← extract_d3d_header payload off;
  match h with
  | None => Some st
  | Some b =>
      let key := d3d_key off (d_vcount b) (d_idx_count b) in
      if bool_decide (key ∈ seen) then Some st else
      let seen := seen ∪ {[key]} in
      m ← extract_d3d_mesh payload flip_v swap_yz maps material_sets
             (part_name name_prefix (len meshes)) b;
      Some (meshes ++ [m], seen)
  end.

Fixpoint extract_d3d_loop (payload : bytes) (flip_v swap_yz : bool)
    (name_prefix : string) (maps : gmap string string)
    (material_sets : list (gmap string string))
    (offs : list Z) (st : list NamedMesh * gset Z)
  : option (list NamedMesh * gset Z) :=
  match offs with
  | [] => Some st
  | off :: rest =>
      st ← extract_d3d_at payload flip_v swap_yz name_prefix maps material_sets st off;
      extract_d3d_loop payload flip_v swap_yz name_prefix maps material_sets rest st
  end.

(** [maps] and [material_sets] stand for [dict(maps or {})] and
    [list(material_sets or [])]. *)
Definition extract_d3d_mesh_blocks (payload : bytes) (flip_v swap_yz : bool)
    (name_prefix : string) (maps : gmap string string)
    (material_sets : list (gmap string string)) : option (list NamedMesh) :=
  if len payload <? 520 + 4 + 8 then Some [] else
  st ← extract_d3d_loop payload flip_v swap_yz name_prefix maps material_sets
         (py_range_step 0 (len payload - (520 + 4 + 8)) 2) ([], ∅);
  Some st.1.

(** The offsets the scan visits. *)
Definition d3d_grid (payload : bytes) : list Z :=
  py_range_step 0 (len payload - 532) 2.

(** What the scan has checked of a block found at [off]. *)
Definition d3d_block_wf (payload : bytes) (off : Z) (b : D3DBlock) : Prop :=
  parse_d3d_decl_520 (py_slice payload off (off + 520))
    = Some (Some (d_stride b, d_elems b))
  ∧ (d_vb_off b = off + 524 ∨ d_vb_off b = off + 528 ∨ d_vb_off b = off + 532)
  ∧ d_vcount b = le_uint 4 payload (d_vb_off b - 4)
  ∧ 1 ≤ d_vcount b ≤ 5000000
  ∧ 1 ≤ d_idx_count b ≤ 100000000
  ∧ (d_idx_fmt b = 0 ∧ d_idx_size b = 2 ∨ d_idx_fmt b = 1 ∧ d_idx_size b = 4)
  ∧ d_idx_count b
    = le_uint 4 payload (d_vb_off b + d_stride b * d_vcount b + 4)
  ∧ d_vb_off b + d_stride b * d_vcount b + 8 + d_idx_count b * d_idx_size b
    ≤ len payload.

(** The index buffer of a block, read from the payload. *)
Definition d3d_indices (payload : bytes) (b : D3DBlock) : list Z :=
  let ib_off := d_vb_off b + d_stride b * d_vcount b + 8 in
  (λ k, le_uint (Z.to_nat (d_idx_size b)) payload (ib_off + d_idx_size b * k))
    <$> seqZ 0 (d_idx_count b).

(** Vertex [i] of a block, read from the payload as the declaration
    directs. *)
Definition d3d_position (payload : bytes) (swap_yz : bool) (b : D3DBlock) (i : Z)
  : vec3 :=
  default (0, 0, 0)%float
    ((λ e, swap_vec3 swap_yz
             (vec3_at payload (d_vb_off b + i * d_stride b + e_offset e)))
       <$> first_elem is_position (d_elems b)).
Definition d3d_normal (payload : bytes) (swap_yz : bool) (b : D3DBlock) (i : Z)
  : option vec3 :=
  (λ e, swap_vec3 swap_yz
          (vec3_at payload (d_vb_off b + i * d_stride b + e_offset e)))
    <$> first_elem is_normal (d_elems b).
Definition d3d_uv (payload : bytes) (flip_v : bool) (b : D3DBlock) (i : Z)
  : option vec2 :=
  (λ e, flip_vec2 flip_v
          (vec2_at payload (d_vb_off b + i * d_stride b + e_offset e)))
    <$> first_elem is_texcoord0 (d_elems b).

(** Mesh [m], the [k]-th of the result, was built from block [b] found
    at [off]. *)
Definition d3d_mesh_of (payload : bytes) (flip_v swap_yz : bool)
    (name_prefix : string) (maps : gmap string string)
    (material_sets : list (gmap string string))
    (k : nat) (off : Z) (b : D3DBlock) (m : NamedMesh) : Prop :=
  d3d_block_wf payload off b
  ∧ extract_d3d_header payload off = Some (Some b)
  ∧ nm_name m = part_name name_prefix (Z.of_nat k)
  ∧ nm_decl m = 0
  ∧ nm_maps m = maps
  ∧ nm_material_sets m = material_sets
  ∧ nm_vertices m = d3d_position payload swap_yz b <$> seqZ 0 (d_vcount b)
  ∧ nm_normals m = d3d_normal payload swap_yz b <$> seqZ 0 (d_vcount b)
  ∧ nm_uvs m = d3d_uv payload flip_v b <$> seqZ 0 (d_vcount b)
  ∧ build_faces (d3d_indices payload b) = Some (nm_faces m)
  ∧ (if bool_decide (nm_faces m = []) then Some []
     else find_subset_table payload (d_vb_off b - 524) (d_vcount b)
            (Some (len (nm_faces m))))
    = Some (nm_subsets m).

(** The state of the scan loop after the offsets [pre]: [used] are the
    offsets of the blocks that produced [meshes], [blocks] their blocks. *)
Definition d3d_inv (payload : bytes) (flip_v swap_yz : bool)
    (name_prefix : string) (maps : gmap string string)
    (material_sets : list (gmap string string))
    (pre : list Z) (st : list NamedMesh * gset Z)
    (used : list (Z * D3DBlock)) : Prop :=
  length used = length st.1
  ∧ (∀ (k : nat) ob m, used !! k = Some ob → st.1 !! k = Some m →
       d3d_mesh_of payload flip_v swap_yz name_prefix maps material_sets
         k ob.1 ob.2 m)
  ∧ StronglySorted Z.lt (fst <$> used)
  ∧ (∀ ob, ob ∈ used → ob.1 ∈ pre)
  ∧ (used = [] → st.2 = ∅
                 ∧ ∀ off, off ∈ pre → extract_d3d_header payload off = Some None)
  ∧ (∀ ob, head used = Some ob →
       ∀ off, off ∈ pre → off < ob.1 →
              extract_d3d_header payload off = Some None).

(** ** [half_to_float] against binary16 *)

Lemma all_below_iter (p : Z → bool) (n : N) :
  N.iter n (λ st, (st.1 + 1, st.2 && p st.1)) (0, true)
  = (Z.of_N n, forallb p (seqZ 0 (Z.of_N n))).
Proof.
  induction n as [|n IH] using N.peano_ind; [done|].
  rewrite N.iter_succ, IH. cbn [fst snd]. f_equal; [lia|].
  rewrite N2Z.inj_succ, <- Z.add_1_r.
  rewrite (seqZ_app 0 (Z.of_N n) 1) by lia. rewrite forallb_app.
  rewrite (seqZ_cons _ 1) by lia. rewrite (seqZ_nil _ (Z.pred 1)) by lia. cbn. by rewrite andb_true_r.
Qed.

Lemma all_below_spec (p : Z → bool) (n : N) :
  all_below p n = true → ∀ h, 0 ≤ h < Z.of_N n → p h = true.
Proof.
  unfold all_below. rewrite all_below_iter. cbn [snd].
  rewrite forallb_forall. intros Hall h Hh.
  apply Hall, list_elem_of_In, elem_of_seqZ. lia.
Qed.

Lemma half_ok_all : all_below half_ok 65536 = true.
Proof. vm_compute. reflexivity. Qed.

(** C6. [half_to_float] decodes IEEE-754 binary16: 0x3C00 is 1.0, 0x0000
    is 0.0, 0x7C00 is +infinity, 0x8000 is -0.0 (a zero with the sign bit
    set), and every 16-bit input yields the double that denotes the value
    of its sign, exponent and fraction fields, subnormals, infinities and
    NaN included. *)
Theorem half_to_float_binary16 :
  half_to_float 0x3C00 = 1%float
  ∧ half_to_float 0x0000 = 0%float
  ∧ half_to_float 0x7C00 = infinity
  ∧ half_to_float 0x8000 = (-0)%float
  ∧ Prim2SF (half_to_float 0x8000) = S754_zero true
  ∧ ∀ h, 0 ≤ h < 65536 →
      sf_same_value (Prim2SF (half_to_float h)) (binary16_decode h) = true.
Proof.
  do 5 (split; [vm_compute; reflexivity|]).
  intros h Hh. apply (all_below_spec half_ok 65536 half_ok_all). lia.
Qed.

Lemma half_to_float_binary16_witness :
  sf_same_value (Prim2SF (half_to_float 0x3555)) (binary16_decode 0x3555) = true.
Proof.
  apply (proj2 (proj2 (proj2 (proj2 (proj2 half_to_float_binary16))))).
  lia.
Defined.

(** ** [vertex_stride_from_decl] is the sum of its three parts *)

Section stride.


Lemma land_ones_mod (x k : Z) : 0 ≤ k → Z.land x (2 ^ k - 1) = x `mod` 2 ^ k.
Proof. intros. rewrite <- Z.land_ones by done. by rewrite Z.ones_equiv, <- Z.sub_1_r. Qed.



End stride.


(** ** Reads inside the buffer succeed *)

#[local] Arguments le_uint : simpl never.
#[local] Arguments f32_at : simpl never.
#[local] Arguments coord_sane : simpl never.

Lemma len_nonneg {A} (l : list A) : 0 ≤ len l.
Proof. unfold len. lia. Qed.

Lemma len_app {A} (l1 l2 : list A) : len (l1 ++ l2) = len l1 + len l2.
Proof. unfold len. rewrite length_app. lia. Qed.

Lemma unpack_offset_ok (size : Z) (data : bytes) (off : Z) :
  0 ≤ off → off + size ≤ len data → unpack_offset size data off = Some off.
Proof.
  intros H0 H1. unfold unpack_offset.
  destruct (Z.ltb_spec off 0); [lia|].
  destruct (Z.ltb_spec (len data - off) size); [lia|done].
Qed.

Lemma unpack_u32_ok (data : bytes) (off : Z) :
  0 ≤ off → off + 4 ≤ len data → unpack_u32 data off = Some (le_uint 4 data off).
Proof. intros. unfold unpack_u32. by rewrite unpack_offset_ok. Qed.

Lemma unpack_u16_ok (data : bytes) (off : Z) :
  0 ≤ off → off + 2 ≤ len data → unpack_u16 data off = Some (le_uint 2 data off).
Proof. intros. unfold unpack_u16. by rewrite unpack_offset_ok. Qed.

Lemma unpack_3f_ok (data : bytes) (off : Z) :
  0 ≤ off → off + 12 ≤ len data →
  unpack_3f data off
  = Some (f32_at data off, f32_at data (off + 4), f32_at data (off + 8)).
Proof. intros. unfold unpack_3f. by rewrite unpack_offset_ok. Qed.

Lemma unpack_2f_ok (data : bytes) (off : Z) :
  0 ≤ off → off + 8 ≤ len data →
  unpack_2f data off = Some (f32_at data off, f32_at data (off + 4)).
Proof. intros. unfold unpack_2f. by rewrite unpack_offset_ok. Qed.

Lemma unpack_u16s_ok (n : Z) (data : bytes) (off : Z) :
  0 ≤ n → 0 ≤ off → off + 2 * n ≤ len data →
  unpack_u16s n data off = Some ((λ k, le_uint 2 data (off + 2 * k)) <$> seqZ 0 n).
Proof. intros. unfold unpack_u16s. by rewrite unpack_offset_ok by lia. Qed.

(** Turning boolean guards into arithmetic facts. *)
Ltac guard_facts H :=
  repeat first
    [ rewrite orb_true_iff in H | rewrite orb_false_iff in H
    | rewrite andb_true_iff in H | rewrite andb_false_iff in H
    | rewrite negb_true_iff in H | rewrite negb_false_iff in H
    | rewrite Z.ltb_lt in H | rewrite Z.ltb_ge in H
    | rewrite Z.leb_le in H | rewrite Z.leb_gt in H
    | rewrite Z.eqb_eq in H | rewrite Z.eqb_neq in H ].

(** ** The stride-32 scanner *)

Section scan.
Variable payload : bytes.

Lemma stride32_valid_iff (off : Z) :
  stride32_valid payload off = true ↔
    let vcount := stride32_vcount payload off in
    let tag := stride32_tag payload off in
    let ib_bytes := stride32_ib_bytes payload off in
    let idx_count := ib_bytes `div` 2 in
    3 ≤ vcount ≤ 2000000
    ∧ (tag = 101 ∨ tag = 102)
    ∧ 0 < ib_bytes ∧ ib_bytes `mod` 2 = 0 ∧ ib_bytes ≤ 500000000
    ∧ 3 ≤ idx_count ∧ idx_count `mod` 3 = 0
    ∧ stride32_ib_off payload off + ib_bytes ≤ len payload
    ∧ coord_sane (f32_at payload (off + 4)) = true
    ∧ coord_sane (f32_at payload (off + 8)) = true
    ∧ coord_sane (f32_at payload (off + 12)) = true
    ∧ ∀ i, 0 ≤ i < Z.min 10 idx_count → stride32_index payload off i < vcount.
Proof.
  unfold stride32_valid. cbv zeta.
  rewrite !andb_true_iff, orb_true_iff, forallb_forall, !Z.leb_le, !Z.eqb_eq, Z.ltb_lt.
  setoid_rewrite <- list_elem_of_In. setoid_rewrite elem_of_seqZ.
  setoid_rewrite Z.ltb_lt.
  split.
  - intros ((((((((((((?&?)&?)&?)&?)&?)&?)&?)&?)&?)&?)&?)&Hs).
    repeat split; try done; intros i Hi; apply Hs; lia.
  - intros ((?&?)&?&?&?&?&?&?&?&?&?&?&Hs).
    repeat split; try done; intros i Hi; apply Hs; lia.
Qed.

Lemma sample_ok_forallb (ib_off vcount k : Z) (l : list Z) :
  0 ≤ ib_off → ib_off + 2 * k ≤ len payload →
  Forall (λ i, 0 ≤ i < k) l →
  sample_ok payload ib_off vcount l
  = Some (forallb (λ i, le_uint 2 payload (ib_off + 2 * i) <? vcount) l).
Proof.
  intros H0 Hk. induction 1 as [|i l Hi _ IH]; [done|].
  cbn [sample_ok forallb]. rewrite unpack_u16_ok by lia. cbn.
  replace (ib_off + i * 2) with (ib_off + 2 * i) by lia.
  rewrite IH. rewrite (Z.ltb_antisym vcount).
  by destruct (vcount <=? _).
Qed.

Lemma scan_stride32_at_valid (off : Z) :
  0 ≤ off → off + 4 ≤ len payload →
  scan_stride32_at payload off
  = Some (if stride32_valid payload off then Emit (stride32_block payload off)
          else Next).
Proof.
  intros H0 H4.
  pose proof (stride32_valid_iff off) as Hv.
  unfold stride32_block, stride32_index, stride32_ib_off, stride32_ib_bytes,
    stride32_tag, stride32_tag_off, stride32_vcount in *.
  cbv zeta in Hv.
  unfold scan_stride32_at. cbv zeta.
  set (vcount := le_uint 4 payload off) in *.
  set (tag_off := off + 4 + vcount * 32) in *.
  set (tag := le_uint 4 payload tag_off) in *.
  set (ib_bytes := le_uint 4 payload (tag_off + 4)) in *.
  destruct (Z.ltb_spec (len payload) (off + 4)); [lia|].
  rewrite (unpack_u32_ok payload off) by lia. cbn [mbind option_bind].
  fold vcount.
  destruct ((vcount <? 3) || (2000000 <? vcount)) eqn:G1.
  { guard_facts G1. destruct (stride32_valid payload off); [|done].
    destruct Hv as [Hv _]. specialize (Hv eq_refl). lia. }
  guard_facts G1. fold tag_off.
  destruct (Z.ltb_spec (len payload) (tag_off + 8)) as [G2|G2].
  { destruct (stride32_valid payload off); [|done].
    destruct Hv as [Hv _]. specialize (Hv eq_refl). lia. }
  rewrite (unpack_u32_ok payload tag_off) by lia. cbn [mbind option_bind]. fold tag.
  destruct (negb ((tag =? 101) || (tag =? 102))) eqn:G3.
  { guard_facts G3. destruct (stride32_valid payload off); [|done].
    destruct Hv as [Hv _]. specialize (Hv eq_refl). lia. }
  guard_facts G3.
  rewrite (unpack_u32_ok payload (tag_off + 4)) by lia. cbn [mbind option_bind]. fold ib_bytes.
  destruct ((ib_bytes <=? 0) || (500000000 <? ib_bytes) || negb (ib_bytes `mod` 2 =? 0)) eqn:G4.
  { guard_facts G4. destruct (stride32_valid payload off); [|done].
    destruct Hv as [Hv _]. specialize (Hv eq_refl). lia. }
  guard_facts G4.
  destruct (Z.ltb_spec (len payload) (tag_off + 8 + ib_bytes)) as [G5|G5].
  { destruct (stride32_valid payload off); [|done].
    destruct Hv as [Hv _]. specialize (Hv eq_refl). lia. }
  destruct ((ib_bytes `div` 2 <? 3) || negb ((ib_bytes `div` 2) `mod` 3 =? 0)) eqn:G6.
  { guard_facts G6. destruct (stride32_valid payload off); [|done].
    destruct Hv as [Hv _]. specialize (Hv eq_refl). lia. }
  guard_facts G6.
  rewrite unpack_3f_ok by lia. cbn [mbind option_bind].
  replace (off + 4 + 4) with (off + 8) by lia.
  replace (off + 4 + 8) with (off + 12) by lia.
  destruct (negb (coord_sane _ && coord_sane _ && coord_sane _)) eqn:G7.
  { guard_facts G7. destruct (stride32_valid payload off); [|done].
    destruct Hv as [Hv _]. specialize (Hv eq_refl).
    destruct Hv as (_&_&_&_&_&_&_&_&Hx&Hy&Hz&_). destruct G7 as [[?|?]|?]; congruence. }
  guard_facts G7. destruct G7 as [[Hx Hy] Hz].
  assert (0 ≤ ib_bytes `div` 2) by (apply Z.div_pos; lia).
  assert (2 * (ib_bytes `div` 2) ≤ ib_bytes) by (apply Z.mul_div_le; lia).
  unfold py_range. rewrite Z.sub_0_r.
  rewrite (sample_ok_forallb _ _ (Z.min 10 (ib_bytes `div` 2)));
    [|lia|lia|apply Forall_seqZ; lia].
  cbn [mbind option_bind].
  destruct (forallb _ _) eqn:G8; cbn [negb].
  - destruct (stride32_valid payload off); [done|].
    destruct Hv as [_ Hv]. exfalso. cut (false = true); [done|]. apply Hv.
    repeat split; try lia; try done.
    intros i Hi. rewrite forallb_forall in G8.
    apply Z.ltb_lt, G8, list_elem_of_In, elem_of_seqZ. lia.
  - destruct (stride32_valid payload off); [|done].
    destruct Hv as [Hv _]. specialize (Hv eq_refl).
    destruct Hv as (_&_&_&_&_&_&_&_&_&_&_&Hs).
    exfalso. apply not_true_iff_false in G8. apply G8.
    apply forallb_forall. intros i Hi.
    apply list_elem_of_In, elem_of_seqZ in Hi. apply Z.ltb_lt, Hs. lia.
Qed.

Lemma scan_stride32_loop_filter (offs : list Z) : ∀ out,
  Forall (λ off, 0 ≤ off ∧ off + 4 ≤ len payload) offs →
  scan_stride32_loop payload offs out
  = Some (out ++ (stride32_block payload <$> filter (λ off, stride32_valid payload off = true) offs)).
Proof.
  induction offs as [|off offs IH]; intros out Hall.
  - cbn. by rewrite app_nil_r.
  - apply Forall_cons in Hall as [[H0 H4] Hall].
    cbn [scan_stride32_loop]. rewrite scan_stride32_at_valid by done.
    cbn [mbind option_bind]. rewrite filter_cons.
    destruct (stride32_valid payload off) eqn:V.
    + rewrite decide_True by done. rewrite IH by done.
      by rewrite fmap_cons, <- app_assoc.
    + rewrite decide_False by (by rewrite not_true_iff_false). by rewrite IH.
Qed.

End scan.

Lemma StronglySorted_seqZ (m n : Z) : StronglySorted Z.lt (seqZ m n).
Proof.
  destruct (Z.le_gt_cases n 0) as [Hn|Hn].
  { rewrite seqZ_nil by done. constructor. }
  rewrite <- (Z2Nat.id n) by lia. clear Hn.
  induction (Z.to_nat n) as [|k IH]; [constructor|].
  rewrite seqZ_S. apply StronglySorted_app; split_and!; [|done|repeat constructor].
  intros x1 x2 Hx1 Hx2. apply elem_of_seqZ in Hx1. apply list_elem_of_singleton in Hx2. lia.
Qed.

Lemma StronglySorted_filter_lt (P : Z → Prop) `{!∀ x, Decision (P x)} (l : list Z) :
  StronglySorted Z.lt l → StronglySorted Z.lt (filter P l).
Proof.
  induction 1 as [|x l Hl IH Hx]; [constructor|].
  rewrite filter_cons. destruct (decide (P x)); [|done].
  constructor; [done|]. apply Forall_forall. intros y Hy.
  apply list_elem_of_filter in Hy as [_ Hy]. rewrite Forall_forall in Hx. by apply Hx.
Qed.

(** The scanner's result in closed form. *)
Lemma scan_stride32_result (payload : bytes) (start : Z) :
  scan_scn0_stride32_mesh_blocks payload start
  = Some (stride32_block payload
            <$> filter (λ off, stride32_valid payload off = true)
                  (py_range (Z.max 0 start) (Z.max 0 (len payload - 16)))).
Proof.
  unfold scan_scn0_stride32_mesh_blocks. cbv zeta.
  rewrite scan_stride32_loop_filter; [done|].
  apply Forall_forall. intros off Hoff%elem_of_seqZ. lia.
Qed.

(** C3. [scan_scn0_stride32_mesh_blocks] returns normally, and its result
    is exactly the blocks at the offsets of the scanned window (every byte
    position from [max(0, start)] up to [len(payload) - 16]) that satisfy
    the acceptance conditions [stride32_valid]: vcount in [3, 2000000],
    tag 101 or 102 after the vertex buffer, ib_bytes positive, even and at
    most 500000000, an index count of at least 3 divisible by 3, the block
    inside the payload, the first vertex within 200000 on each axis, and
    the first min(10, index count) indices below vcount. The blocks come
    in increasing offset order. *)
Theorem scan_scn0_stride32_mesh_blocks_spec (payload : bytes) (start : Z) :
  ∃ blocks : list Block,
    scan_scn0_stride32_mesh_blocks payload start = Some blocks
    ∧ (∀ b, b ∈ blocks →
         Z.max 0 start ≤ b_off b < Z.max 0 (len payload - 16)
         ∧ stride32_valid payload (b_off b) = true
         ∧ b = stride32_block payload (b_off b))
    ∧ (∀ off, Z.max 0 start ≤ off < Z.max 0 (len payload - 16) →
         stride32_valid payload off = true →
         stride32_block payload off ∈ blocks)
    ∧ b_off <$> blocks
      = filter (λ off, stride32_valid payload off = true)
          (py_range (Z.max 0 start) (Z.max 0 (len payload - 16)))
    ∧ StronglySorted Z.lt (b_off <$> blocks).
Proof.
  rewrite scan_stride32_result.
  set (window := py_range _ _).
  assert (∀ off, off ∈ window ↔ Z.max 0 start ≤ off < Z.max 0 (len payload - 16))
    as Hwin.
  { intros off. unfold window, py_range. rewrite elem_of_seqZ. lia. }
  eexists. split; [done|].
  assert (b_off <$> (stride32_block payload <$>
            filter (λ off, stride32_valid payload off = true) window)
          = filter (λ off, stride32_valid payload off = true) window) as Hoffs.
  { rewrite <- list_fmap_compose. apply list_fmap_id. }
  split_and!.
  - intros b (off & -> & [Hv Hoff]%list_elem_of_filter)%list_elem_of_fmap.
    apply Hwin in Hoff. done.
  - intros off Hoff Hv. apply list_elem_of_fmap. exists off. split; [done|].
    apply list_elem_of_filter. split; [done|]. by apply Hwin.
  - done.
  - rewrite Hoffs. apply StronglySorted_filter_lt, StronglySorted_seqZ.
Qed.

(** ** The stride-32 decoder *)

Lemma decode_stride32_vertex_ok (payload : bytes) (vb_off : Z)
    (flip_v swap_yz : bool) (i : Z) :
  0 ≤ vb_off → 0 ≤ i → vb_off + (i + 1) * 32 ≤ len payload →
  is_Some (decode_stride32_vertex payload vb_off flip_v swap_yz i).
Proof.
  intros Hvb Hi Hend. unfold decode_stride32_vertex. cbv zeta.
  rewrite (unpack_3f_ok payload (vb_off + i * 32)) by lia.
  cbn [mbind option_bind].
  rewrite (unpack_3f_ok payload (vb_off + i * 32 + 12)) by lia.
  cbn [mbind option_bind].
  rewrite (unpack_2f_ok payload (vb_off + i * 32 + 24)) by lia.
  cbn [mbind option_bind].
  destruct swap_yz; eauto.
Qed.

Lemma slice3_app (pre rest : list Z) (a b c : Z) :
  slice3 (pre ++ a :: b :: c :: rest) (len pre) = Some (a, b, c).
Proof.
  unfold slice3, len. rewrite Nat2Z.id, drop_app_length. done.
Qed.

(** A list of [3 * m] indices is cut into [m] consecutive triples. *)
Lemma tri_list_chunks (m : nat) : ∀ (pre rest : list Z) (j : nat),
  length pre = (3 * j)%nat → length rest = (3 * m)%nat →
  ∃ fs, mapM (slice3 (pre ++ rest))
          ((λ k, 0 + 3 * k) <$> seqZ (Z.of_nat j) (Z.of_nat m)) = Some fs
        ∧ face_indices fs = rest ∧ length fs = m.
Proof.
  induction m as [|m IH]; intros pre rest j Hpre Hrest.
  - destruct rest; [|done]. rewrite seqZ_nil by done. by exists [].
  - destruct rest as [|a [|b [|c rest]]]; try (cbn in Hrest; lia).
    rewrite (seqZ_cons _ (Z.of_nat (S m))) by lia.
    replace (Z.pred (Z.of_nat (S m))) with (Z.of_nat m) by lia.
    replace (Z.succ (Z.of_nat j)) with (Z.of_nat (S j)) by lia.
    destruct (IH (pre ++ [a; b; c]) rest (S j)) as (fs & Hfs & Hflat & Hlen).
    { rewrite length_app. cbn. lia. }
    { cbn in Hrest. lia. }
    rewrite <- app_assoc in Hfs. cbn [app] in Hfs.
    exists ((a, b, c) :: fs). rewrite fmap_cons. cbn [mapM].
    replace (0 + 3 * Z.of_nat j) with (len pre) by (unfold len; lia).
    rewrite slice3_app. cbn [mbind option_bind]. rewrite Hfs.
    split_and!; [done| |cbn; lia]. cbn. by rewrite <- Hflat.
Qed.

Lemma tri_list_faces_chunks (indices : list Z) :
  len indices `mod` 3 = 0 →
  ∃ fs, tri_list_faces indices = Some fs
        ∧ face_indices fs = indices ∧ len fs = len indices `div` 3.
Proof.
  intros Hmod. unfold tri_list_faces, py_range_step.
  apply Z.mod_divide in Hmod as [m Hm]; [|done].
  assert (0 ≤ m) by (pose proof (len_nonneg indices); lia).
  replace ((len indices - 0 + 3 - 1) `div` 3) with (Z.of_nat (Z.to_nat m)).
  2:{ rewrite Hm, Z2Nat.id by done.
      replace (m * 3 - 0 + 3 - 1) with (2 + m * 3) by lia.
      rewrite Z.div_add by done. done. }
  destruct (tri_list_chunks (Z.to_nat m) [] indices 0) as (fs & Hfs & Hflat & Hlen);
    [done|unfold len in Hm; lia|].
  exists fs. split_and!; [done..|].
  unfold len at 1. rewrite Hlen, Hm, Z.div_mul by done. lia.
Qed.

Section decode.
Variables (payload : bytes) (start : Z) (blocks : list Block) (b : Block).
Variables (flip_v swap_yz : bool).
Hypothesis Hscan : scan_scn0_stride32_mesh_blocks payload start = Some blocks.
Hypothesis Hb : b ∈ blocks.

Lemma accepted_block_facts :
  let off := b_off b in
  0 ≤ off ∧ stride32_valid payload off = true ∧ b = stride32_block payload off.
Proof.
  rewrite scan_stride32_result in Hscan. injection Hscan as <-.
  apply list_elem_of_fmap in Hb as (off & -> & [Hv Hoff]%list_elem_of_filter).
  apply elem_of_seqZ in Hoff. cbn [b_off stride32_block]. split_and!; [lia|done..].
Qed.

Lemma decode_accepted_block :
  ∃ mesh indices,
    decode_scn0_stride32_mesh_block payload b flip_v swap_yz = Some mesh
    ∧ len (vertices mesh) = b_vcount b
    ∧ len (normals mesh) = b_vcount b
    ∧ len (uvs mesh) = b_vcount b
    ∧ Forall is_Some (normals mesh)
    ∧ Forall is_Some (uvs mesh)
    ∧ unpack_u16s (b_ib_bytes b `div` 2) payload (b_ib_off b) = Some indices
    ∧ indices = (λ k, stride32_index payload (b_off b) k)
                  <$> seqZ 0 (b_ib_bytes b `div` 2)
    ∧ len (faces mesh) = b_ib_bytes b `div` 6
    ∧ face_indices (faces mesh) = indices.
Proof.
  destruct accepted_block_facts as (Hoff & Hv & Heq).
  apply stride32_valid_iff in Hv. cbv zeta in Hv.
  destruct Hv as (Hvc & _ & Hib & Heven & _ & Hidx & Hmod3 & Hend & _).
  set (off := b_off b) in *. rewrite Heq.
  unfold decode_scn0_stride32_mesh_block, stride32_block. cbn [b_vcount b_vb_off
    b_ib_off b_ib_bytes b_off].
  unfold stride32_ib_off, stride32_tag_off in *.
  set (vcount := stride32_vcount payload off) in *.
  set (ib_bytes := stride32_ib_bytes payload off) in *.
  assert (2 * (ib_bytes `div` 2) ≤ ib_bytes) by (apply Z.mul_div_le; lia).
  destruct (mapM_is_Some_2 (decode_stride32_vertex payload (off + 4) flip_v swap_yz)
              (py_range 0 vcount)) as [vs Hvs].
  { apply Forall_forall. intros i Hi%elem_of_seqZ.
    apply decode_stride32_vertex_ok; [lia..|nia]. }
  rewrite Hvs. cbn [mbind option_bind].
  rewrite unpack_u16s_ok by lia. cbn [mbind option_bind].
  set (indices := _ <$> seqZ 0 (ib_bytes `div` 2)).
  assert (len indices = ib_bytes `div` 2) as Hlen.
  { unfold len, indices. rewrite length_fmap, length_seqZ. lia. }
  destruct (tri_list_faces_chunks indices) as (fs & Hfs & Hflat & Hlenfs);
    [by rewrite Hlen|].
  rewrite Hfs. cbn [mbind option_bind].
  assert (len vs = vcount) as Hlenvs.
  { apply length_mapM in Hvs. unfold len, py_range in *.
    rewrite <- Hvs, length_seqZ. lia. }
  eexists _, indices. split; [done|]. cbn [vertices normals uvs faces].
  unfold len in *. rewrite !length_fmap.
  split_and!; try done.
  - apply Forall_fmap, Forall_true. by eexists.
  - apply Forall_fmap, Forall_true. by eexists.
  - rewrite Hlenfs, Hlen. replace 6 with (2 * 3) by done.
    by rewrite Z.div_div by lia.
Qed.

End decode.

(** C10. For every block accepted by the scanner,
    [decode_scn0_stride32_mesh_block] returns a mesh whose vertex, normal
    and UV lists each have exactly vcount elements, no normal or UV being
    None, and whose face list has exactly ib_bytes / 6 triangles that are
    the consecutive, non-overlapping triples of the index buffer in order
    (flattening the faces gives back the ib_bytes / 2 indices read at
    ib_off). *)
Theorem decode_scn0_stride32_mesh_block_shape
    (payload : bytes) (start : Z) (blocks : list Block) (b : Block)
    (flip_v swap_yz : bool) :
  scan_scn0_stride32_mesh_blocks payload start = Some blocks →
  b ∈ blocks →
  ∃ mesh indices,
    decode_scn0_stride32_mesh_block payload b flip_v swap_yz = Some mesh
    ∧ len (vertices mesh) = b_vcount b
    ∧ len (normals mesh) = b_vcount b
    ∧ len (uvs mesh) = b_vcount b
    ∧ Forall is_Some (normals mesh)
    ∧ Forall is_Some (uvs mesh)
    ∧ unpack_u16s (b_ib_bytes b `div` 2) payload (b_ib_off b) = Some indices
    ∧ len (faces mesh) = b_ib_bytes b `div` 6
    ∧ face_indices (faces mesh) = indices.
Proof.
  intros Hscan Hb.
  destruct (decode_accepted_block payload start blocks b flip_v swap_yz Hscan Hb)
    as (mesh & indices & ? & ? & ? & ? & ? & ? & ? & _ & ? & ?).
  by exists mesh, indices.
Qed.

Lemma decode_scn0_stride32_mesh_block_shape_witness :
  ∃ mesh indices,
    decode_scn0_stride32_mesh_block quad_payload quad_block true false = Some mesh
    ∧ len (vertices mesh) = b_vcount quad_block
    ∧ len (normals mesh) = b_vcount quad_block
    ∧ len (uvs mesh) = b_vcount quad_block
    ∧ Forall is_Some (normals mesh)
    ∧ Forall is_Some (uvs mesh)
    ∧ unpack_u16s (b_ib_bytes quad_block `div` 2) quad_payload (b_ib_off quad_block)
      = Some indices
    ∧ len (faces mesh) = b_ib_bytes quad_block `div` 6
    ∧ face_indices (faces mesh) = indices.
Proof.
  apply (decode_scn0_stride32_mesh_block_shape quad_payload 0 [quad_block]).
  - vm_compute. reflexivity.
  - apply list_elem_of_here.
Defined.

(** ** Face indices against the vertex count *)

Lemma le_uint_range_nonneg (w : nat) (data : bytes) (off : Z) : 0 ≤ le_uint w data off.
Proof.
  revert off. induction w as [|w IH]; intros off; [done|].
  change (le_uint (S w) data off)
    with (get_byte data off + 256 * le_uint w data (off + 1)).
  specialize (IH (off + 1)). unfold get_byte, byte_val.
  destruct (data !! Z.to_nat off); lia.
Qed.


Lemma strip_faces_from_buffer (indices : list Z) (f : Z * Z * Z) :
  f ∈ strip_faces indices → f.1.1 ∈ indices ∧ f.1.2 ∈ indices ∧ f.2 ∈ indices.
Proof.
  unfold strip_faces. intros (i & _ & Hf)%list_elem_of_omap.
  unfold strip_face in Hf.
  destruct (indices !! Z.to_nat (i - 2)) as [a|] eqn:Ha; [|done].
  destruct (indices !! Z.to_nat (i - 1)) as [b|] eqn:Hb; [|done].
  destruct (indices !! Z.to_nat i) as [c|] eqn:Hc; [|done].
  apply list_elem_of_lookup_2 in Ha, Hb, Hc. cbn in Hf.
  destruct (_ || _); [done|].
  destruct (_ =? _); injection Hf as <-; cbn; done.
Qed.

Lemma build_faces_from_buffer (indices : list Z) (fs : list (Z * Z * Z)) :
  build_faces indices = Some fs →
  (∀ idx, idx ∈ face_indices fs → idx ∈ indices)
  ∧ (len indices `mod` 3 = 0 → face_indices fs = indices).
Proof.
  unfold build_faces.
  destruct (Z.eqb_spec (len indices `mod` 3) 0) as [Hmod|Hmod]; intros Hfs.
  - destruct (tri_list_faces_chunks indices Hmod) as (fs' & Hfs' & Hflat & _).
    rewrite Hfs in Hfs'. injection Hfs' as <-. rewrite Hflat. done.
  - injection Hfs as <-. split; [|done].
    intros idx (f & Hidx & Hf)%list_elem_of_bind.
    apply strip_faces_from_buffer in Hf as (? & ? & ?).
    rewrite !elem_of_cons, elem_of_nil in Hidx.
    destruct Hidx as [-> | [-> | [-> | []]]]; done.
Qed.

Lemma sampled_face_indices_in_range
    (payload : bytes) (start : Z) (blocks : list Block) (b : Block)
    (flip_v swap_yz : bool) (mesh : Mesh) :
  scan_scn0_stride32_mesh_blocks payload start = Some blocks →
  b ∈ blocks →
  decode_scn0_stride32_mesh_block payload b flip_v swap_yz = Some mesh →
  ∀ (k : nat) (idx : Z),
    (k < 10)%nat →
    face_indices (faces mesh) !! k = Some idx →
    0 ≤ idx < len (vertices mesh).
Proof.
  intros Hscan Hb Hdec k idx Hk Hlook.
  destruct (decode_accepted_block payload start blocks b flip_v swap_yz Hscan Hb)
    as (mesh' & indices & Hdec' & Hlen & _ & _ & _ & _ & _ & Hidx & _ & Hflat).
  rewrite Hdec in Hdec'. injection Hdec' as <-.
  destruct (accepted_block_facts payload start blocks b Hscan Hb) as (Hoff & Hv & Heq).
  cbv zeta in *. apply stride32_valid_iff in Hv. cbv zeta in Hv.
  destruct Hv as (_ & _ & _ & _ & _ & _ & _ & _ & _ & _ & _ & Hsample).
  rewrite Hflat, Hidx in Hlook. rewrite Hlen.
  apply list_lookup_fmap_Some in Hlook as (i & -> & Hi).
  apply lookup_seqZ in Hi as [-> Hi].
  set (off := b_off b) in *.
  rewrite Heq in Hi |- *. cbn [b_ib_bytes b_vcount stride32_block] in Hi |- *.
  split; [apply le_uint_range_nonneg|]. apply Hsample. lia.
Qed.

(** C1, as the code has it. For a mesh decoded by the stride-32 decoder
    from a block the scanner accepted, each of the first ten indices of
    the face list (faces flattened in order), as far as they exist, is
    below the length of the vertex list: these are the indices the
    scanner samples. No path checks the other indices: on the other two
    paths the faces are built from the index buffer as it is, every face
    index being an element of the buffer, and a buffer whose length is a
    multiple of 3 being reproduced index for index. *)
Theorem stride32_sampled_face_indices_in_range :
  (∀ (payload : bytes) (start : Z) (blocks : list Block) (b : Block)
     (flip_v swap_yz : bool) (mesh : Mesh),
     scan_scn0_stride32_mesh_blocks payload start = Some blocks →
     b ∈ blocks →
     decode_scn0_stride32_mesh_block payload b flip_v swap_yz = Some mesh →
     ∀ (k : nat) (idx : Z),
       (k < 10)%nat →
       face_indices (faces mesh) !! k = Some idx →
       0 ≤ idx < len (vertices mesh))
  ∧ (∀ (indices : list Z) (fs : list (Z * Z * Z)),
       build_faces indices = Some fs →
       (∀ idx, idx ∈ face_indices fs → idx ∈ indices)
       ∧ (len indices `mod` 3 = 0 → face_indices fs = indices)).
Proof.
  split; [apply sampled_face_indices_in_range|apply build_faces_from_buffer].
Qed.

Lemma stride32_sampled_face_indices_in_range_witness :
  0 ≤ 3 < len [(0, 0, 0); (0, 0, 0); (0, 0, 0); (0, 0, 0)]%float.
Proof.
  assert (∃ mesh, decode_scn0_stride32_mesh_block quad_payload quad_block true false
                  = Some mesh
                  ∧ vertices mesh = [(0, 0, 0); (0, 0, 0); (0, 0, 0); (0, 0, 0)]%float
                  ∧ face_indices (faces mesh) !! 5%nat = Some 3)
    as (mesh & Hdec & <- & Hlook).
  { eexists. split; [vm_compute; reflexivity|]. split; reflexivity. }
  apply (proj1 stride32_sampled_face_indices_in_range quad_payload 0 [quad_block]
           quad_block true false mesh eq_refl (list_elem_of_here _ _) Hdec 5%nat 3);
    [lia | exact Hlook].
Defined.

(** C1 refuted: the scanner accepts the block of
    [unsampled_index_payload], and the decoded mesh has three vertices
    and the face (0, 7, 2). *)
Lemma face_index_beyond_vertex_count :
  scan_scn0_stride32_mesh_blocks unsampled_index_payload 0
    = Some [unsampled_index_block]
  ∧ faces <$> decode_scn0_stride32_mesh_block unsampled_index_payload
                unsampled_index_block true false
    = Some [(0, 1, 2); (0, 1, 2); (0, 1, 2); (0, 7, 2)]
  ∧ len ∘ vertices <$> decode_scn0_stride32_mesh_block unsampled_index_payload
                         unsampled_index_block true false
    = Some 3.
Proof. split_and!; vm_compute; reflexivity. Qed.

(** ** [parse_d3d_decl_520] *)

Lemma byte_val_range (b : Byte.byte) : 0 ≤ byte_val b < 256.
Proof. unfold byte_val. pose proof (Byte.to_N_bounded b). lia. Qed.

Lemma get_byte_range (data : bytes) (i : Z) : 0 ≤ get_byte data i < 256.
Proof.
  unfold get_byte. destruct (data !! Z.to_nat i); [apply byte_val_range|lia].
Qed.

Lemma le_uint_range (w : nat) (data : bytes) (off : Z) :
  0 ≤ le_uint w data off < 256 ^ Z.of_nat w.
Proof.
  revert off. induction w as [|w IH]; intros off.
  - change (le_uint 0 data off) with 0. cbn. lia.
  - rewrite Nat2Z.inj_succ, Z.pow_succ_r by lia.
    change (le_uint (S w) data off)
      with (get_byte data off + 256 * le_uint w data (off + 1)).
    pose proof (get_byte_range data off). pose proof (IH (off + 1)). nia.
Qed.

Lemma upto_sentinel_cons (e : Elem) (recs : list Elem) :
  upto_sentinel (e :: recs)
  = if e_stream e =? 0xFF then [e] else e :: upto_sentinel recs.
Proof. done. Qed.

Lemma has_sentinel_cons (e : Elem) (recs : list Elem) :
  has_sentinel (e :: recs) = (e_stream e =? 0xFF) || has_sentinel recs.
Proof. done. Qed.

Section decl.
Variable block : bytes.

Lemma read_elems_spec (idxs : list Z) : ∀ acc,
  Forall (λ i, 0 ≤ i ∧ i * 8 + 8 ≤ len block) idxs →
  let recs := (λ i, elem_at block (8 * i)) <$> idxs in
  read_elems block idxs acc = Some (acc ++ upto_sentinel recs, has_sentinel recs).
Proof.
  induction idxs as [|i idxs IH]; intros acc Hall; cbv zeta.
  - cbn. by rewrite app_nil_r.
  - apply Forall_cons in Hall as [[Hi0 Hi8] Hall].
    cbn [read_elems]. cbv zeta.
    rewrite (unpack_offset_ok 4 block (i * 8)) by lia. cbn [mbind option_bind].
    rewrite (unpack_offset_ok 4 block (i * 8 + 4)) by lia. cbn [mbind option_bind].
    fold (elem_at block (i * 8)).
    rewrite fmap_cons, upto_sentinel_cons, has_sentinel_cons.
    replace (8 * i) with (i * 8) by lia.
    change (e_stream (elem_at block (i * 8))) with (le_uint 2 block (i * 8)).
    destruct (le_uint 2 block (i * 8) =? 255) eqn:Hs; [done|].
    rewrite IH by done. cbv zeta. cbn [orb]. f_equal. f_equal.
    by rewrite <- app_assoc.
Qed.

Lemma stream0_stride_nonneg (elems : list Elem) : 0 ≤ stream0_stride elems.
Proof.
  unfold stream0_stride. induction (elem_end <$> _) as [|x l IH]; cbn; lia.
Qed.

Lemma decl_stride_spec (recs : list Elem) : ∀ s,
  0 ≤ s →
  decl_stride (upto_sentinel recs) s
  = if existsb unknown_type (before_sentinel recs) then None
    else Some (Z.max s (stream0_stride (before_sentinel recs))).
Proof.
  induction recs as [|e recs IH]; intros s Hs.
  - cbn. f_equal. unfold stream0_stride. cbn. lia.
  - cbn [upto_sentinel before_sentinel]. unfold is_sentinel.
    destruct (e_stream e =? 255) eqn:Hsent.
    + cbn. rewrite Hsent. f_equal. unfold stream0_stride. cbn. lia.
    + cbn [decl_stride existsb]. rewrite Hsent.
      unfold unknown_type at 1.
      destruct (type_size (e_typ e)) as [sz|] eqn:Hsz; [|done].
      cbn [orb]. unfold stream0_stride. rewrite filter_cons.
      destruct (Z.eqb_spec (e_stream e) 0) as [H0|H0]; cbn [negb].
      * rewrite decide_True by done. rewrite IH by lia.
        destruct (existsb _ _); [done|]. f_equal. rewrite fmap_cons.
        cbn [foldr]. unfold elem_end at 1. rewrite Hsz. cbn [default].
        unfold id, stream0_stride. lia.
      * rewrite decide_False by done. by rewrite IH.
Qed.

Lemma stream0_stride_zero (elems : list Elem) :
  Forall (λ e, 0 ≤ e_offset e ∧ unknown_type e = false) elems →
  stream0_stride elems = 0 ↔ Forall (λ e, e_stream e ≠ 0) elems.
Proof.
  induction 1 as [|e elems [Hoff Hty] _ IH].
  - by split; [constructor|].
  - unfold stream0_stride in *. rewrite filter_cons, Forall_cons.
    destruct (decide (e_stream e = 0)) as [H0|H0].
    + rewrite fmap_cons. cbn [foldr].
      assert (4 ≤ elem_end e).
      { unfold elem_end, unknown_type in *.
        destruct (type_size (e_typ e)) as [sz|] eqn:Hsz; [|done]. cbn.
        assert (4 ≤ sz); [|lia].
        unfold type_size in Hsz.
        repeat match type of Hsz with
               | match ?t with _ => _ end = _ => destruct t; try done
               end; injection Hsz as <-; lia. }
      split; [lia|by intros [? _]].
    + rewrite IH. tauto.
Qed.

End decl.

Lemma before_sentinel_records (block : bytes) :
  Forall (λ e, 0 ≤ e_offset e) (before_sentinel (decl_records block)).
Proof.
  unfold decl_records. induction (seqZ 0 65) as [|i l IH]; [constructor|].
  rewrite fmap_cons. cbn [before_sentinel]. destruct (is_sentinel _); [constructor|].
  constructor; [|done]. cbn. apply le_uint_range.
Qed.

(** C7, as the code has it. For a 520-byte block, [parse_d3d_decl_520]
    returns None exactly when no record among the 65 has stream id 0xFF,
    or an element before the sentinel has a type of unknown size, or the
    stride (the largest offset + type-size over the stream-0 elements
    before the sentinel) exceeds 1024, or that stride is 0, which, all
    types being known, means that no stream-0 element precedes the
    sentinel. Otherwise it returns the stride and the records up to and
    including the sentinel. *)
Theorem parse_d3d_decl_520_result (block : bytes) :
  len block = 520 →
  let recs := decl_records block in
  let stride := stream0_stride (before_sentinel recs) in
  parse_d3d_decl_520 block
  = Some (if decl_rejected block || (stride =? 0) then None
          else Some (stride, upto_sentinel recs))
  ∧ (parse_d3d_decl_520 block = Some None
     ↔ has_sentinel recs = false
       ∨ existsb unknown_type (before_sentinel recs) = true
       ∨ 1024 < stride
       ∨ stride = 0)
  ∧ (existsb unknown_type (before_sentinel recs) = false →
     stride = 0 ↔ Forall (λ e, e_stream e ≠ 0) (before_sentinel recs)).
Proof.
  intros Hlen recs stride.
  assert (parse_d3d_decl_520 block
          = Some (if decl_rejected block || (stride =? 0) then None
                  else Some (stride, upto_sentinel recs))) as Hres.
  { unfold parse_d3d_decl_520, decl_rejected. rewrite Hlen. cbn [Z.eqb negb Pos.eqb].
    rewrite read_elems_spec; cycle 1.
    { apply Forall_forall. intros i Hi%elem_of_seqZ. lia. }
    cbv zeta. cbn [mbind option_bind]. change (py_range 0 65) with (seqZ 0 65).
    fold (decl_records block). fold recs.
    rewrite app_nil_l. destruct (has_sentinel recs); [|done]. cbn [negb orb].
    rewrite decl_stride_spec by done. fold stride.
    destruct (existsb _ _); [done|]. cbn [orb].
    pose proof (stream0_stride_nonneg (before_sentinel recs)) as Hnn. fold stride in Hnn.
    rewrite Z.max_r by done.
    destruct (Z.leb_spec stride 0), (Z.ltb_spec 1024 stride), (Z.eqb_spec stride 0);
      try lia; done. }
  split_and!; [done| |].
  - rewrite Hres. unfold decl_rejected. fold recs. fold stride.
    destruct (has_sentinel recs), (existsb unknown_type (before_sentinel recs)),
      (Z.ltb_spec 1024 stride), (Z.eqb_spec stride 0); cbn; (split; [intros ?|intros [?|[?|[?|?]]]]); first [done | lia | tauto | auto].
  - intros Hknown. apply stream0_stride_zero.
    pose proof (before_sentinel_records block) as Hoff. fold recs in Hoff.
    rewrite Forall_forall in Hoff. apply Forall_forall. intros e He. split; [by apply Hoff|].
    apply not_true_iff_false. intros Hu. apply not_true_iff_false in Hknown.
    apply Hknown, existsb_exists. exists e. split; [by apply list_elem_of_In|done].
Qed.

Lemma parse_d3d_decl_520_result_witness :
  parse_d3d_decl_520 pnt_decl_block
  = Some (if decl_rejected pnt_decl_block
             || (stream0_stride (before_sentinel (decl_records pnt_decl_block)) =? 0)
          then None
          else Some (stream0_stride (before_sentinel (decl_records pnt_decl_block)),
                     upto_sentinel (decl_records pnt_decl_block))).
Proof.
  apply (parse_d3d_decl_520_result pnt_decl_block). vm_compute. reflexivity.
Defined.

(** C7 refuted: a block whose first record is the sentinel has a
    sentinel, no element of unknown type and stride 0, yet the result is
    None. *)
Lemma parse_d3d_decl_520_empty_decl :
  len empty_decl_block = 520
  ∧ decl_rejected empty_decl_block = false
  ∧ parse_d3d_decl_520 empty_decl_block = Some None.
Proof. split_and!; vm_compute; reflexivity. Qed.

(** ** [decode_vertex] on an unrecognised base selector *)




(** ** Reading back what was packed *)

Lemma byte_val_of_Z (z : Z) : byte_val (byte_of_Z z) = z `mod` 256.
Proof.
  unfold byte_val, byte_of_Z.
  pose proof (Z.mod_pos_bound z 256 eq_refl) as Hb.
  pose proof (Byte.to_of_N_option_map (Z.to_N (z `mod` 256))) as Hn.
  destruct (N.leb_spec (Z.to_N (z `mod` 256)) 255) as [_|Hgt]; [|lia].
  destruct (Byte.of_N (Z.to_N (z `mod` 256))) as [b|]; [|done].
  cbn in Hn |- *. injection Hn as ->. lia.
Qed.

Lemma get_byte_app_r (pre l : bytes) (k : Z) :
  0 ≤ k → get_byte (pre ++ l) (len pre + k) = get_byte l k.
Proof.
  intros Hk. unfold get_byte, len.
  rewrite lookup_app_r by lia.
  by replace (Z.to_nat (Z.of_nat (length pre) + k) - length pre)%nat
    with (Z.to_nat k) by lia.
Qed.

Lemma get_byte_app_l (l rest : bytes) (k : Z) :
  0 ≤ k < len l → get_byte (l ++ rest) k = get_byte l k.
Proof.
  intros Hk. unfold get_byte, len in *. by rewrite lookup_app_l by lia.
Qed.

Lemma le_uint_succ (w : nat) (data : bytes) (off : Z) :
  le_uint (S w) data off = get_byte data off + 256 * le_uint w data (off + 1).
Proof. done. Qed.

(** A read that falls inside the middle part of [pre ++ l ++ rest] sees
    only [l]. *)
Lemma le_uint_window (w : nat) (pre l rest : bytes) : ∀ k,
  0 ≤ k → k + Z.of_nat w ≤ len l →
  le_uint w (pre ++ l ++ rest) (len pre + k) = le_uint w l k.
Proof.
  induction w as [|w IH]; intros k Hk Hw; [done|].
  rewrite !le_uint_succ. rewrite get_byte_app_r, get_byte_app_l by lia.
  replace (len pre + k + 1) with (len pre + (k + 1)) by lia.
  by rewrite IH by lia.
Qed.

Lemma le_uint_pack_u32 (v : Z) : 0 ≤ v < 2 ^ 32 → le_uint 4 (pack_u32 v) 0 = v.
Proof.
  intros Hv. rewrite !le_uint_succ. change (le_uint 0 _ _) with 0.
  change (get_byte (pack_u32 v) 0) with (byte_val (byte_of_Z v)).
  change (get_byte (pack_u32 v) (0 + 1)) with (byte_val (byte_of_Z (v `div` 256))).
  change (get_byte (pack_u32 v) (0 + 1 + 1))
    with (byte_val (byte_of_Z (v `div` 65536))).
  change (get_byte (pack_u32 v) (0 + 1 + 1 + 1))
    with (byte_val (byte_of_Z (v `div` 16777216))).
  rewrite !byte_val_of_Z.
  change (2 ^ 32) with 4294967296 in Hv.
  pose proof (Z.div_mod v 256 ltac:(done)) as H1.
  pose proof (Z.div_mod (v `div` 256) 256 ltac:(done)) as H2.
  pose proof (Z.div_mod (v `div` 65536) 256 ltac:(done)) as H3.
  rewrite (Z.div_div v 256 256) in H2 by done.
  rewrite (Z.div_div v 65536 256) in H3 by done.
  change (256 * 256) with 65536 in H2. change (65536 * 256) with 16777216 in H3.
  assert ((v `div` 16777216) `mod` 256 = v `div` 16777216) as ->.
  { apply Z.mod_small. split; [apply Z.div_pos; lia|].
    apply Z.div_lt_upper_bound; lia. }
  lia.
Qed.

Lemma len_pack_u32 (v : Z) : len (pack_u32 v) = 4.
Proof. done. Qed.


(** ** The scene-tree walker *)



(** *** The walker on the image of a tree *)


Section encode.




End encode.



(** *** The recursion budget of the model is never used up *)







(** *** Chains of any depth *)






(** ** Subset table recovery *)

Lemma elem_of_py_range_step4 (lo hi x : Z) :
  x ∈ py_range_step lo hi 4 ↔ ∃ k, 0 ≤ k ∧ x = lo + 4 * k ∧ x < hi.
Proof.
  unfold py_range_step. rewrite list_elem_of_fmap. setoid_rewrite elem_of_seqZ.
  assert (∀ k, k < (hi - lo + 4 - 1) `div` 4 ↔ lo + 4 * k < hi) as Hk.
  { intros k. pose proof (Z.div_mod (hi - lo + 4 - 1) 4 ltac:(done)).
    pose proof (Z.mod_pos_bound (hi - lo + 4 - 1) 4 ltac:(done)). lia. }
  split.
  - intros (k & -> & Hk0 & Hk1). exists k. apply Hk in Hk1. lia.
  - intros (k & Hk0 & -> & Hlt). exists k. apply Hk in Hlt. lia.
Qed.

Lemma subset_grid_bounds (decl_off off : Z) :
  off ∈ subset_grid decl_off →
  0 ≤ off ∧ decl_off - 0x4000 ≤ off ∧ off + 4 < decl_off.
Proof.
  unfold subset_grid. intros (k & Hk & -> & Hlt)%elem_of_py_range_step4. lia.
Qed.

Lemma set_end_off_strip (v : option Z) (l : list Subset) :
  Forall (λ e, end_off_key e = None) l → set_end_off None (set_end_off v l) = l.
Proof. intros [|[] l' He _]; [done|]. cbn in *. by subst. Qed.

Lemma table_entries_keys (payload : bytes) (off es : Z) :
  Forall (λ e, end_off_key e = None) (table_entries payload off es).
Proof. unfold table_entries. by apply Forall_fmap, Forall_true. Qed.

Section table.
Variables (payload : bytes) (decl_off vcount fc : Z).
Hypothesis Hdecl : decl_off ≤ len payload.

(** One pass of the entry loop on an in-bounds entry. *)
Lemma subset_entries_cons (off es i : Z) (idxs : list Z)
    (acc : list Subset) (me st : Z) :
  0 ≤ off → es = 20 ∨ es = 16 →
  0 ≤ i → off + 4 + (i + 1) * es ≤ len payload →
  subset_entries payload off es vcount (Some fc) (i :: idxs) acc me st
  = if entry_ok payload vcount fc off es i
    then subset_entries payload off es vcount (Some fc) idxs
           (acc ++ [table_entry payload off es i])
           (Z.max me (table_field payload off es i 1 + table_field payload off es i 2))
           (st + table_field payload off es i 2)
    else Some None.
Proof.
  intros Hoff Hes Hi0 Hi1. cbn [subset_entries].
  unfold entry_ok, entry_named_ok, entry_capped, table_entry.
  set (F := λ k, table_field payload off es i k).
  change (table_field payload off es i) with F.
  assert (entry_fields payload off es vcount i
          = Some (if (es =? 20) && negb (F 4 =? vcount) then None
                  else Some (F 0, F 1, F 2, F 3))) as ->.
  { unfold entry_fields, F, table_field.
    destruct Hes as [-> | ->]; cbn [Z.eqb Pos.eqb andb].
    - rewrite unpack_offset_ok by lia. cbn [mbind option_bind].
      replace (off + 4 + i * 20 + 4 * 0) with (off + 4 + i * 20) by lia.
      replace (off + 4 + i * 20 + 4 * 1) with (off + 4 + i * 20 + 4) by lia.
      replace (off + 4 + i * 20 + 4 * 2) with (off + 4 + i * 20 + 8) by lia.
      replace (off + 4 + i * 20 + 4 * 3) with (off + 4 + i * 20 + 12) by lia.
      replace (off + 4 + i * 20 + 4 * 4) with (off + 4 + i * 20 + 16) by lia.
      by destruct (negb _).
    - rewrite unpack_offset_ok by lia. cbn [mbind option_bind].
      replace (off + 4 + i * 16 + 4 * 0) with (off + 4 + i * 16) by lia.
      replace (off + 4 + i * 16 + 4 * 1) with (off + 4 + i * 16 + 4) by lia.
      replace (off + 4 + i * 16 + 4 * 2) with (off + 4 + i * 16 + 8) by lia.
      replace (off + 4 + i * 16 + 4 * 3) with (off + 4 + i * 16 + 12) by lia.
      done. }
  cbn [mbind option_bind].
  assert (0 ≤ F 2) as Htri by apply le_uint_range. revert Htri.
  generalize (F 0) (F 1) (F 2) (F 3) (F 4). intros f0 f1 f2 f3 f4 Htri.
  destruct Hes as [-> | ->]; cbn [Z.eqb Pos.eqb andb negb orb];
    repeat (match goal with
            | |- context [Z.ltb ?a ?b] => destruct (Z.ltb_spec a b)
            | |- context [Z.leb ?a ?b] => destruct (Z.leb_spec a b)
            | |- context [Z.eqb ?a ?b] => destruct (Z.eqb_spec a b)
            end; cbn [andb orb negb]; try lia);
    done.
Qed.

Lemma entry_ok_tri_pos (off es i : Z) :
  entry_ok payload vcount fc off es i = true →
  0 < table_field payload off es i 2 ∧ 0 ≤ table_field payload off es i 1.
Proof.
  unfold entry_ok, entry_named_ok. rewrite !andb_true_iff, Z.ltb_lt.
  intros [[[[_ ?] _] _] _]. split; [done|apply le_uint_range].
Qed.

(** The entry loop on in-bounds entries. *)
Lemma subset_entries_spec (off es : Z) (idxs : list Z) :
  ∀ (acc : list Subset) (me st : Z),
  0 ≤ off → es = 20 ∨ es = 16 →
  Forall (λ i, 0 ≤ i ∧ off + 4 + (i + 1) * es ≤ len payload) idxs →
  0 ≤ me → 0 ≤ st →
  ∃ me' st',
    subset_entries payload off es vcount (Some fc) idxs acc me st
    = Some (if forallb (entry_ok payload vcount fc off es) idxs
            then Some (acc ++ (table_entry payload off es <$> idxs), me', st')
            else None)
    ∧ me ≤ me' ∧ st ≤ st'
    ∧ (idxs ≠ [] → forallb (entry_ok payload vcount fc off es) idxs = true →
       0 < me' ∧ 0 < st').
Proof.
  induction idxs as [|i idxs IH]; intros acc me st Hoff Hes Hall Hme Hst.
  { exists me, st. cbn. rewrite app_nil_r. split_and!; [done|lia|lia|done]. }
  apply Forall_cons in Hall as [[Hi0 Hi1] Hall].
  rewrite subset_entries_cons by done. cbn [forallb].
  destruct (entry_ok payload vcount fc off es i) eqn:Hok; cbn [andb].
  - apply entry_ok_tri_pos in Hok as [Htri Hstart].
    destruct (IH (acc ++ [table_entry payload off es i])
                (Z.max me (table_field payload off es i 1
                           + table_field payload off es i 2))
                (st + table_field payload off es i 2))
      as (me' & st' & Heq & Hme' & Hst' & _); [done|done|done|lia|lia|].
    exists me', st'. rewrite Heq, fmap_cons, <- app_assoc.
    split_and!; [done|lia|lia|intros _ _; lia].
  - exists me, st. split_and!; [done|lia|lia|done].
Qed.

Lemma candidate_alt (c : Z * Z) :
  candidate payload decl_off vcount fc c
  = table_shape_ok payload decl_off c.1 c.2
    && forallb (entry_ok payload vcount fc c.1 c.2)
         (seqZ 0 (table_count payload c.1)).
Proof.
  unfold candidate, named_candidate. rewrite <- andb_assoc. f_equal.
  induction (seqZ 0 _) as [|i l IH]; [done|].
  cbn [forallb]. rewrite <- IH. unfold entry_ok.
  repeat (destruct (entry_named_ok _ _ _ _ _ _) || destruct (entry_capped _ _ _ _)
          || destruct (forallb _ _)); done.
Qed.

Lemma pick_inv (cur : option (Z * Z)) (c : Z * Z) :
  best_inv payload cur → best_inv payload (pick payload decl_off vcount fc cur c).
Proof.
  intros Hinv b. unfold pick.
  destruct (candidate payload decl_off vcount fc c) eqn:Hc; [|apply Hinv].
  assert (1 ≤ table_count payload c.1) as Hc1.
  { rewrite candidate_alt in Hc. unfold table_shape_ok in Hc.
    rewrite !andb_true_iff, !Z.leb_le in Hc. lia. }
  destruct cur as [b'|]; [|by intros [= <-]].
  destruct (_ <? _); intros [= <-]; [done|by apply Hinv].
Qed.

Lemma best_of_head (b : Z * Z) :
  1 ≤ table_count payload b.1 →
  ∃ e0 rest,
    best_of payload (Some b) = e0 :: rest
    ∧ end_off_key e0 = Some (table_end payload b.1 b.2).
Proof.
  intros Hb. unfold best_of, table_entries. rewrite seqZ_cons by lia.
  rewrite fmap_cons. cbn [set_end_off]. by eexists _, _.
Qed.

Lemma try_entry_size_pick (off es : Z) (cur : option (Z * Z)) :
  0 ≤ off → es = 20 ∨ es = 16 →
  1 ≤ table_count payload off ≤ 256 →
  best_inv payload cur →
  try_entry_size payload decl_off vcount (Some fc) off (table_count payload off)
    (best_of payload cur) es
  = Some (best_of payload (pick payload decl_off vcount fc cur (off, es))).
Proof.
  intros Hoff Hes Hcount Hinv. unfold try_entry_size, pick. cbv zeta.
  rewrite candidate_alt. unfold table_shape_ok, table_end. cbn [fst snd].
  destruct (Z.leb_spec 1 (table_count payload off)); [|lia].
  destruct (Z.leb_spec (table_count payload off) 256); [|lia].
  cbn [andb].
  replace (off + (4 + table_count payload off * es))
    with (off + 4 + table_count payload off * es) by lia.
  destruct (Z.ltb_spec decl_off (off + 4 + table_count payload off * es)),
    (Z.leb_spec (off + 4 + table_count payload off * es) decl_off);
    try lia; [done|]. cbn [andb].
  destruct (subset_entries_spec off es (py_range 0 (table_count payload off))
              [] 0 0) as (me & st & -> & _ & _ & Hpos); [done|done| |done|done|].
  { apply Forall_forall. intros i Hi%elem_of_seqZ. nia. }
  cbn [mbind option_bind]. unfold py_range in *. rewrite Z.sub_0_r in *.
  destruct (forallb _ _) eqn:Hall; [|done].
  destruct Hpos as [Hme Hst]; [rewrite seqZ_cons by lia; done|done|].
  destruct (Z.eqb_spec st 0), (Z.eqb_spec me 0); try lia. cbn [orb app].
  destruct cur as [b|]; [|done].
  destruct (best_of_head b) as (e0 & rest & Hb & Hkey); [by apply Hinv|].
  unfold table_dist, table_end. cbn [fst snd].
  replace (off + (4 + table_count payload off * es))
    with (off + 4 + table_count payload off * es) by lia.
  destruct (_ <? _) eqn:Hlt; rewrite Hb; cbn [mbind option_bind];
    rewrite Hkey; cbn [mbind option_bind]; unfold table_end;
    rewrite Hlt; [done|by rewrite <- Hb].
Qed.

Lemma pick_shape (cur : option (Z * Z)) (c : Z * Z) :
  ¬ 1 ≤ table_count payload c.1 ≤ 256 →
  pick payload decl_off vcount fc cur c = cur.
Proof.
  intros Hc. unfold pick. rewrite candidate_alt. unfold table_shape_ok.
  destruct (Z.leb_spec 1 (table_count payload c.1)),
    (Z.leb_spec (table_count payload c.1) 256); try lia; done.
Qed.

Lemma subset_scan_fold (offs : list Z) : ∀ cur,
  Forall (λ off, 0 ≤ off ∧ off + 4 ≤ decl_off) offs →
  best_inv payload cur →
  subset_scan payload decl_off vcount (Some fc) offs (best_of payload cur)
  = Some (best_of payload
            (fold_left (pick payload decl_off vcount fc)
               (offs ≫= λ off, [(off, 20); (off, 16)]) cur)).
Proof.
  induction offs as [|off offs IH]; intros cur Hall Hinv; [done|].
  apply Forall_cons in Hall as [[Hoff0 Hoff4] Hall].
  cbn [subset_scan]. rewrite bind_cons. cbn [app fold_left].
  rewrite unpack_u32_ok by lia. cbn [mbind option_bind].
  fold (table_count payload off).
  destruct ((table_count payload off =? 0) || (256 <? table_count payload off))
    eqn:Hskip.
  - guard_facts Hskip. rewrite !pick_shape by (cbn [fst]; lia). by apply IH.
  - guard_facts Hskip.
    assert (1 ≤ table_count payload off ≤ 256) as Hcount.
    { pose proof (le_uint_range 4 payload off). unfold table_count in *. lia. }
    rewrite try_entry_size_pick by (done || tauto). cbn [mbind option_bind].
    rewrite try_entry_size_pick by (auto using pick_inv). cbn [mbind option_bind].
    apply IH; auto using pick_inv.
Qed.

Lemma find_subset_table_fold :
  find_subset_table payload decl_off vcount (Some fc)
  = Some match fold_left (pick payload decl_off vcount fc) (scan_order decl_off) None
         with
         | None => []
         | Some c => table_entries payload c.1 c.2
         end.
Proof.
  unfold find_subset_table, scan_order. cbv zeta. fold (subset_grid decl_off).
  destruct (Z.leb_spec (Z.max 0 (decl_off - 4)) (Z.max 0 (decl_off - 16384)))
    as [Hempty|Hne].
  - assert (subset_grid decl_off = []) as ->; [|done].
    apply elem_of_nil_inv. intros off Hoff. unfold subset_grid in Hoff.
    apply elem_of_py_range_step4 in Hoff as (k & ? & -> & ?). lia.
  - change [] with (best_of payload None) at 1.
    rewrite subset_scan_fold; cycle 1.
    { apply Forall_forall. intros off Hoff%subset_grid_bounds. lia. }
    { by intros b. }
    cbn [mbind option_bind]. f_equal.
    destruct (fold_left _ _ _) as [c|]; [|done].
    apply set_end_off_strip, table_entries_keys.
Qed.

End table.

(** *** The fold keeps the first closest candidate *)

Section closest.
Variables (payload : bytes) (decl_off vcount fc : Z).

Let valid := candidate payload decl_off vcount fc.
Let dist := table_dist payload decl_off.
Let step := pick payload decl_off vcount fc.

Lemma fold_pick_None (l : list (Z * Z)) :
  fold_left step l None = None → ∀ c, c ∈ l → valid c = false.
Proof.
  induction l as [|x l IH] using rev_ind; [by intros _ c ?%elem_of_nil|].
  rewrite fold_left_app. cbn [fold_left]. unfold step at 1, pick. fold valid.
  destruct (valid x) eqn:Hx.
  - destruct (fold_left step l None); [by destruct (_ <? _)|done].
  - intros Hl c [Hc | ->%list_elem_of_singleton]%elem_of_app; [by apply IH|done].
Qed.

Lemma fold_pick_Some (l : list (Z * Z)) : ∀ b,
  fold_left step l None = Some b →
  ∃ l1 l2, l = l1 ++ b :: l2 ∧ valid b = true
           ∧ (∀ c, c ∈ l1 → valid c = true → dist b < dist c)
           ∧ (∀ c, c ∈ l2 → valid c = true → dist b ≤ dist c).
Proof.
  induction l as [|x l IH] using rev_ind; [done|]. intros b.
  rewrite fold_left_app. cbn [fold_left]. unfold step at 1, pick.
  fold valid. fold dist.
  destruct (valid x) eqn:Hx.
  - destruct (fold_left step l None) as [b'|] eqn:Hl.
    + destruct (IH b' eq_refl) as (l1 & l2 & -> & Hb' & H1 & H2).
      destruct (Z.ltb_spec (dist x) (dist b')) as [Hlt|Hge]; intros [= <-].
      * exists (l1 ++ b' :: l2), []. split_and!; [done..| |by intros c ?%elem_of_nil].
        intros c [Hc | [-> | Hc]%elem_of_cons]%elem_of_app Hv.
        -- specialize (H1 c Hc Hv). lia.
        -- done.
        -- specialize (H2 c Hc Hv). lia.
      * exists l1, (l2 ++ [x]). rewrite <- app_assoc. split_and!; [done..|].
        intros c [Hc | ->%list_elem_of_singleton]%elem_of_app Hv; [by apply H2|done].
    + intros [= <-]. exists l, []. split_and!; [done..| |by intros c ?%elem_of_nil].
      intros c Hc Hv. pose proof (fold_pick_None l Hl c Hc). congruence.
  - intros Hl. destruct (IH b Hl) as (l1 & l2 & -> & Hb & H1 & H2).
    exists l1, (l2 ++ [x]). rewrite <- app_assoc. split_and!; [done..|].
    intros c [Hc | ->%list_elem_of_singleton]%elem_of_app Hv; [by apply H2|congruence].
Qed.

End closest.

Lemma StronglySorted_fmap_mono (f : Z → Z) (l : list Z) :
  (∀ a b, a < b → f a < f b) →
  StronglySorted Z.lt l → StronglySorted Z.lt (f <$> l).
Proof.
  intros Hf. induction 1 as [|x l _ IH Hx]; [constructor|].
  rewrite fmap_cons. constructor; [done|].
  apply Forall_fmap. eapply Forall_impl; [done|]. intros y. apply Hf.
Qed.

Lemma subset_grid_sorted (decl_off : Z) : StronglySorted Z.lt (subset_grid decl_off).
Proof.
  unfold subset_grid, py_range_step.
  apply StronglySorted_fmap_mono; [intros; lia|apply StronglySorted_seqZ].
Qed.

Lemma scan_order_grid (decl_off : Z) (c : Z * Z) :
  c ∈ scan_order decl_off ↔ c.1 ∈ subset_grid decl_off ∧ (c.2 = 20 ∨ c.2 = 16).
Proof.
  unfold scan_order. rewrite list_elem_of_bind. split.
  - intros (off & Hc & Hoff). rewrite !elem_of_cons, elem_of_nil in Hc.
    destruct Hc as [-> | [-> | []]]; cbn; tauto.
  - destruct c as [off es]. cbn. intros [Hoff Hes]. exists off. split; [|done].
    rewrite !elem_of_cons. destruct Hes as [-> | ->]; tauto.
Qed.

Lemma scan_order_later (decl_off : Z) (l1 l2 : list (Z * Z)) (b : Z * Z) :
  scan_order decl_off = l1 ++ b :: l2 → ∀ c, c ∈ l2 → b.1 ≤ c.1.
Proof.
  assert (StronglySorted (λ a c : Z * Z, a.1 ≤ c.1) (scan_order decl_off)) as Hs.
  { unfold scan_order.
    induction (subset_grid_sorted decl_off) as [|x l _ IH Hx]; [constructor|].
    rewrite bind_cons. cbn [app].
    assert (Forall (λ c : Z * Z, x ≤ c.1) (l ≫= λ off, [(off, 20); (off, 16)])) as Hl.
    { apply Forall_forall. intros c (off & Hc & Hoff)%list_elem_of_bind.
      rewrite Forall_forall in Hx. specialize (Hx off Hoff).
      rewrite !elem_of_cons, elem_of_nil in Hc.
      destruct Hc as [-> | [-> | []]]; cbn; lia. }
    constructor; [constructor; [done|done]|].
    constructor; [cbn; lia|done]. }
  intros Heq. rewrite Heq in Hs. apply StronglySorted_app in Hs as (_ & _ & Hs).
  apply StronglySorted_cons in Hs as [Hb _]. intros c Hc.
  rewrite Forall_forall in Hb. by apply Hb.
Qed.

(** What [find_subset_table] returns, for a declaration offset inside the
    payload: the entries of the first closest valid candidate. *)
Lemma find_subset_table_char (payload : bytes) (decl_off vcount fc : Z) :
  decl_off ≤ len payload →
  (find_subset_table payload decl_off vcount (Some fc) = Some []
   ∧ ∀ c, c ∈ scan_order decl_off → candidate payload decl_off vcount fc c = false)
  ∨ (∃ c, c ∈ scan_order decl_off
          ∧ candidate payload decl_off vcount fc c = true
          ∧ find_subset_table payload decl_off vcount (Some fc)
            = Some (table_entries payload c.1 c.2)
          ∧ ∀ c', c' ∈ scan_order decl_off →
                  candidate payload decl_off vcount fc c' = true →
                  table_dist payload decl_off c < table_dist payload decl_off c'
                  ∨ (table_dist payload decl_off c = table_dist payload decl_off c'
                     ∧ c.1 ≤ c'.1)).
Proof.
  intros Hdecl. rewrite find_subset_table_fold by done.
  destruct (fold_left _ _ _) as [b|] eqn:Hfold.
  - right. apply fold_pick_Some in Hfold as (l1 & l2 & Heq & Hb & H1 & H2).
    exists b. split_and!; [|done|done|].
    { rewrite Heq. apply elem_of_app. right. apply elem_of_cons. by left. }
    intros c'. rewrite Heq at 1.
    intros [Hc | [-> | Hc]%elem_of_cons]%elem_of_app Hv.
    + left. by apply H1.
    + right. done.
    + pose proof (H2 c' Hc Hv). pose proof (scan_order_later _ _ _ _ Heq c' Hc). lia.
  - left. split; [done|]. by apply fold_pick_None.
Qed.

(** C4, as the code has it. For a declaration offset inside the payload,
    [find_subset_table] returns normally. A non-empty result is the entry
    list of a candidate table that starts on the 4-byte scan grid of the
    0x4000-byte window before the declaration offset, has 1 to 256
    entries, does not reach past the declaration offset, and whose every
    entry has base_vertex <= vcount, tri_count > 0,
    start_tri + tri_count <= face_count, start_tri and tri_count at most
    100000000 and, for entry size 20, vertex_count = vcount. Among all
    such candidates it is the one that ends closest to the declaration
    offset, the first one scanned when several end equally close. The
    result is empty exactly when the window holds no such candidate. *)
Theorem find_subset_table_closest (payload : bytes) (decl_off vcount fc : Z) :
  decl_off ≤ len payload →
  ∃ result,
    find_subset_table payload decl_off vcount (Some fc) = Some result
    ∧ ((result = []
        ∧ ∀ c, c ∈ scan_order decl_off →
               candidate payload decl_off vcount fc c = false)
       ∨ (∃ c, c ∈ scan_order decl_off
               ∧ decl_off - 0x4000 ≤ c.1 ∧ c.1 + 4 < decl_off
               ∧ candidate payload decl_off vcount fc c = true
               ∧ result = table_entries payload c.1 c.2
               ∧ result ≠ []
               ∧ ∀ c', c' ∈ scan_order decl_off →
                       candidate payload decl_off vcount fc c' = true →
                       table_dist payload decl_off c < table_dist payload decl_off c'
                       ∨ (table_dist payload decl_off c = table_dist payload decl_off c'
                          ∧ c.1 ≤ c'.1))).
Proof.
  intros Hdecl.
  destruct (find_subset_table_char payload decl_off vcount fc Hdecl)
    as [[Hres Hnone] | (c & Hc & Hv & Hres & Hbest)].
  - exists []. split; [done|]. by left.
  - exists (table_entries payload c.1 c.2). split; [done|]. right.
    exists c. split_and!; try done.
    + apply scan_order_grid in Hc as [Hc _]. apply subset_grid_bounds in Hc. lia.
    + apply scan_order_grid in Hc as [Hc _]. apply subset_grid_bounds in Hc. lia.
    + rewrite candidate_alt in Hv. unfold table_shape_ok in Hv.
      rewrite !andb_true_iff, !Z.leb_le in Hv.
      unfold table_entries. rewrite seqZ_cons by lia. done.
Qed.

Lemma find_subset_table_closest_witness :
  ∃ result,
    find_subset_table two_entry_payload 48 4 (Some 2) = Some result
    ∧ ((result = []
        ∧ ∀ c, c ∈ scan_order 48 → candidate two_entry_payload 48 4 2 c = false)
       ∨ (∃ c, c ∈ scan_order 48
               ∧ 48 - 0x4000 ≤ c.1 ∧ c.1 + 4 < 48
               ∧ candidate two_entry_payload 48 4 2 c = true
               ∧ result = table_entries two_entry_payload c.1 c.2
               ∧ result ≠ []
               ∧ ∀ c', c' ∈ scan_order 48 →
                       candidate two_entry_payload 48 4 2 c' = true →
                       table_dist two_entry_payload 48 c
                         < table_dist two_entry_payload 48 c'
                       ∨ (table_dist two_entry_payload 48 c
                            = table_dist two_entry_payload 48 c'
                          ∧ c.1 ≤ c'.1))).
Proof.
  apply (find_subset_table_closest two_entry_payload 48 4 2).
  vm_compute. discriminate.
Defined.

(** C4 refuted: the table of [far_start_payload] satisfies every
    condition the format description names for 200000002 faces, yet the
    result is empty, because its start_tri exceeds 100000000. *)
Lemma find_subset_table_far_start :
  24 ≤ len far_start_payload
  ∧ scan_order 24
    = [(0, 20); (0, 16); (4, 20); (4, 16); (8, 20); (8, 16); (12, 20); (12, 16);
       (16, 20); (16, 16)]
  ∧ named_candidate far_start_payload 24 3 200000002 (0, 20) = true
  ∧ find_subset_table far_start_payload 24 3 (Some 200000002) = Some [].
Proof. split_and!; [vm_compute; discriminate|vm_compute; reflexivity..]. Qed.

(** *** Reading back an injected table *)

Lemma le_uint_pack_at (A B : bytes) (v : Z) :
  0 ≤ v < 2 ^ 32 → le_uint 4 (A ++ pack_u32 v ++ B) (len A) = v.
Proof.
  intros Hv. rewrite <- (Z.add_0_r (len A)).
  rewrite le_uint_window by (rewrite ?len_pack_u32; lia).
  by apply le_uint_pack_u32.
Qed.

Lemma len_encode_entry20 (vcount : Z) (e : Subset) : len (encode_entry20 vcount e) = 20.
Proof. done. Qed.

Lemma len_encode_entries (vcount : Z) (entries : list Subset) :
  len (entries ≫= encode_entry20 vcount) = 20 * len entries.
Proof.
  induction entries as [|e entries IH]; [done|].
  rewrite bind_cons, len_app, IH, len_encode_entry20. unfold len. cbn [length]. lia.
Qed.

Section injected.
Variables (vcount fc : Z).
Hypothesis Hvcount : 0 ≤ vcount < 2 ^ 32.

Lemma encoded_entry_fields (entries : list Subset) :
  ∀ (i : nat) (e : Subset) (A B : bytes),
  entries !! i = Some e → entry_injectable vcount fc e →
  let data := A ++ (entries ≫= encode_entry20 vcount) ++ B in
  let o := len A + Z.of_nat i * 20 in
  le_uint 4 data (o + 4 * 0) = material_id e
  ∧ le_uint 4 data (o + 4 * 1) = start_tri e
  ∧ le_uint 4 data (o + 4 * 2) = tri_count e
  ∧ le_uint 4 data (o + 4 * 3) = base_vertex e
  ∧ le_uint 4 data (o + 4 * 4) = vcount.
Proof.
  induction entries as [|e0 entries IH]; intros i e A B Hi Hinj; [done|].
  cbv zeta. rewrite bind_cons. destruct i as [|i].
  - injection Hi as ->. destruct Hinj as (Hm & Hs & Ht & Hb & _).
    unfold encode_entry20. rewrite <- !app_assoc.
    set (m := pack_u32 (material_id e)). set (s := pack_u32 (start_tri e)).
    set (t := pack_u32 (tri_count e)). set (b := pack_u32 (base_vertex e)).
    set (R := (entries ≫= _) ++ B).
    change (Z.of_nat 0 * 20) with 0.
    assert (len m = 4 ∧ len s = 4 ∧ len t = 4 ∧ len b = 4) as (?&?&?&?) by done.
    split_and!.
    + replace (len A + 0 + 4 * 0) with (len A) by lia. apply le_uint_pack_at. lia.
    + replace (A ++ m ++ s ++ t ++ b ++ pack_u32 vcount ++ R)
        with ((A ++ m) ++ s ++ t ++ b ++ pack_u32 vcount ++ R)
        by (by rewrite <- !app_assoc).
      replace (len A + 0 + 4 * 1) with (len (A ++ m)) by (rewrite !len_app; lia).
      apply le_uint_pack_at. lia.
    + replace (A ++ m ++ s ++ t ++ b ++ pack_u32 vcount ++ R)
        with ((A ++ m ++ s) ++ t ++ b ++ pack_u32 vcount ++ R)
        by (by rewrite <- !app_assoc).
      replace (len A + 0 + 4 * 2) with (len (A ++ m ++ s)) by (rewrite !len_app; lia).
      apply le_uint_pack_at. lia.
    + replace (A ++ m ++ s ++ t ++ b ++ pack_u32 vcount ++ R)
        with ((A ++ m ++ s ++ t) ++ b ++ pack_u32 vcount ++ R)
        by (by rewrite <- !app_assoc).
      replace (len A + 0 + 4 * 3) with (len (A ++ m ++ s ++ t)) by (rewrite !len_app; lia).
      apply le_uint_pack_at. lia.
    + replace (A ++ m ++ s ++ t ++ b ++ pack_u32 vcount ++ R)
        with ((A ++ m ++ s ++ t ++ b) ++ pack_u32 vcount ++ R)
        by (by rewrite <- !app_assoc).
      replace (len A + 0 + 4 * 4) with (len (A ++ m ++ s ++ t ++ b))
        by (rewrite !len_app; lia).
      by apply le_uint_pack_at.
  - cbn [lookup list_lookup] in Hi.
    specialize (IH i e (A ++ encode_entry20 vcount e0) B Hi Hinj). cbv zeta in IH.
    rewrite <- !app_assoc in IH |- *.
    rewrite len_app, len_encode_entry20 in IH.
    replace (len A + Z.of_nat (S i) * 20) with (len A + 20 + Z.of_nat i * 20) by lia.
    exact IH.
Qed.

Variables (pre tail : bytes) (entries : list Subset).
Hypothesis Hcount : 1 ≤ len entries ≤ 256.
Hypothesis Hentries : Forall (entry_injectable vcount fc) entries.

Let payload := pre ++ encode_table20 vcount entries ++ tail.
Let decl_off := len pre + 4 + 20 * len entries.

Lemma injected_count : table_count payload (len pre) = len entries.
Proof.
  unfold table_count, payload, encode_table20. rewrite <- app_assoc.
  apply le_uint_pack_at. lia.
Qed.

Lemma injected_fields (i : nat) (e : Subset) :
  entries !! i = Some e →
  table_field payload (len pre) 20 (Z.of_nat i) 0 = material_id e
  ∧ table_field payload (len pre) 20 (Z.of_nat i) 1 = start_tri e
  ∧ table_field payload (len pre) 20 (Z.of_nat i) 2 = tri_count e
  ∧ table_field payload (len pre) 20 (Z.of_nat i) 3 = base_vertex e
  ∧ table_field payload (len pre) 20 (Z.of_nat i) 4 = vcount.
Proof.
  intros Hi.
  assert (entry_injectable vcount fc e) as Hinj.
  { rewrite Forall_forall in Hentries. by eapply Hentries, list_elem_of_lookup_2. }
  pose proof (encoded_entry_fields entries i e (pre ++ pack_u32 (len entries)) tail
                Hi Hinj) as H.
  cbv zeta in H. rewrite len_app, len_pack_u32 in H.
  unfold table_field, payload, encode_table20.
  by rewrite <- !app_assoc in H |- *.
Qed.

Lemma injected_entries : table_entries payload (len pre) 20 = entries.
Proof.
  unfold table_entries. rewrite injected_count.
  apply list_eq. intros i. rewrite list_lookup_fmap.
  destruct (entries !! i) as [e|] eqn:Hi.
  - rewrite lookup_seqZ_lt; cycle 1.
    { apply lookup_lt_Some in Hi. unfold len. lia. }
    cbn [fmap option_fmap option_map]. f_equal. rewrite Z.add_0_l.
    destruct (injected_fields i e Hi) as (H0 & H1 & H2 & H3 & _).
    unfold table_entry. rewrite H0, H1, H2, H3.
    assert (end_off_key e = None) as Hkey.
    { rewrite Forall_forall in Hentries.
      by eapply Hentries, list_elem_of_lookup_2. }
    destruct e. cbn in *. by subst.
  - rewrite lookup_seqZ_ge; [done|].
    apply lookup_ge_None in Hi. unfold len. lia.
Qed.

Lemma injected_end : table_end payload (len pre) 20 = decl_off.
Proof. unfold table_end, decl_off. rewrite injected_count. lia. Qed.

Lemma injected_candidate :
  candidate payload decl_off vcount fc (len pre, 20) = true.
Proof.
  rewrite candidate_alt. cbn [fst snd]. unfold table_shape_ok.
  rewrite injected_end, injected_count.
  rewrite !andb_true_iff, !Z.leb_le. split_and!; [lia..|].
  apply forallb_forall. intros i Hi%list_elem_of_In%elem_of_seqZ.
  destruct (lookup_lt_is_Some_2 entries (Z.to_nat i)) as [e He].
  { unfold len in Hi. lia. }
  destruct (injected_fields _ e He) as (H0 & H1 & H2 & H3 & H4).
  rewrite Z2Nat.id in * by lia.
  assert (entry_injectable vcount fc e) as (Hm & Hs & Ht & Hb & Hf & _).
  { rewrite Forall_forall in Hentries. by eapply Hentries, list_elem_of_lookup_2. }
  unfold entry_ok, entry_named_ok, entry_capped. rewrite H1, H2, H3, H4.
  rewrite !andb_true_iff, orb_true_iff, !Z.leb_le, Z.ltb_lt, Z.eqb_eq.
  split_and!; (lia || tauto).
Qed.

Lemma injected_on_grid :
  0x4000 ≤ decl_off ∨ len pre `mod` 4 = 0 →
  (len pre, 20) ∈ scan_order decl_off.
Proof.
  intros Halign. apply scan_order_grid. cbn [fst snd]. split; [|tauto].
  unfold subset_grid. apply elem_of_py_range_step4.
  pose proof (len_nonneg pre). unfold decl_off in *.
  destruct (Z.le_gt_cases 0x4000 (len pre + 4 + 20 * len entries)) as [Hbig|Hsmall].
  - exists (4095 - 5 * len entries). lia.
  - destruct Halign as [?|Hmod]; [lia|].
    exists (len pre `div` 4). pose proof (Z.div_mod (len pre) 4 ltac:(done)).
    split_and!; [apply Z.div_pos; lia|lia|lia].
Qed.

Lemma injected_table_found :
  0x4000 ≤ decl_off ∨ len pre `mod` 4 = 0 →
  (∀ c, c ∈ scan_order decl_off → c.1 < len pre →
        candidate payload decl_off vcount fc c = true →
        table_end payload c.1 c.2 < decl_off) →
  find_subset_table payload decl_off vcount (Some fc) = Some entries.
Proof.
  intros Halign Hearlier.
  assert (decl_off ≤ len payload) as Hin.
  { unfold decl_off, payload, encode_table20.
    rewrite !len_app, len_pack_u32, len_encode_entries.
    pose proof (len_nonneg tail). lia. }
  pose proof (injected_on_grid Halign) as Hgrid.
  pose proof injected_candidate as Hcand.
  destruct (find_subset_table_char payload decl_off vcount fc Hin)
    as [[_ Hnone] | (c & Hc & Hv & -> & Hbest)].
  { rewrite (Hnone _ Hgrid) in Hcand. done. }
  destruct (Hbest _ Hgrid Hcand) as [Hlt | [Heq Hle]];
    unfold table_dist in *; cbn [fst snd] in *; rewrite injected_end in *.
  - exfalso. rewrite candidate_alt in Hv. unfold table_shape_ok in Hv.
    rewrite !andb_true_iff, !Z.leb_le in Hv. lia.
  - destruct (Z.le_gt_cases (len pre) c.1) as [Hge|Hlt].
    + assert (c.1 = len pre) as Hc1 by lia.
      assert (c.2 = 20) as Hc2.
      { apply scan_order_grid in Hc as [_ Hes]. unfold table_end in Heq.
        rewrite Hc1, injected_count in Heq. unfold decl_off in Heq. lia. }
      rewrite Hc1, Hc2. by rewrite injected_entries.
    + specialize (Hearlier c Hc Hlt Hv). lia.
Qed.

End injected.

(** C5, as the code has it. A table of N 20-byte entries (N in 1..256),
    each with base_vertex <= vcount, 0 < tri_count, start_tri and
    tri_count at most 100000000 and start_tri + tri_count <= face_count,
    written directly before the declaration offset, is returned entry
    for entry (material_id, start_tri, tri_count, base_vertex; the
    vertex_count field is checked and not returned), provided the table
    starts on the scan grid (the declaration offset is at least 0x4000 or
    the table offset is a multiple of 4) and no valid candidate table at
    a smaller scanned offset also ends at the declaration offset. *)
Theorem find_subset_table_roundtrip
    (pre tail : bytes) (entries : list Subset) (vcount fc : Z) :
  let payload := pre ++ encode_table20 vcount entries ++ tail in
  let decl_off := len pre + 4 + 20 * len entries in
  1 ≤ len entries ≤ 256 →
  0 ≤ vcount < 2 ^ 32 →
  Forall (entry_injectable vcount fc) entries →
  0x4000 ≤ decl_off ∨ len pre `mod` 4 = 0 →
  (∀ c, c ∈ scan_order decl_off → c.1 < len pre →
        candidate payload decl_off vcount fc c = true →
        table_end payload c.1 c.2 < decl_off) →
  find_subset_table payload decl_off vcount (Some fc) = Some entries.
Proof.
  intros payload decl_off Hcount Hvcount Hentries Halign Hearlier.
  by apply injected_table_found.
Qed.

Lemma find_subset_table_roundtrip_witness :
  find_subset_table
    (pack_u32 0xFFFFFFFF
     ++ encode_table20 4 [mk_subset 0 0 1 0; mk_subset 1 1 1 0] ++ [])
    (len (pack_u32 0xFFFFFFFF) + 4 + 20 * len [mk_subset 0 0 1 0; mk_subset 1 1 1 0])
    4 (Some 2)
  = Some [mk_subset 0 0 1 0; mk_subset 1 1 1 0].
Proof.
  apply (find_subset_table_roundtrip (pack_u32 0xFFFFFFFF) []
           [mk_subset 0 0 1 0; mk_subset 1 1 1 0] 4 2).
  - vm_compute. split; discriminate.
  - lia.
  - repeat constructor; cbn; lia.
  - right. reflexivity.
  - intros [off es] Hc Hlt Hcand. exfalso.
    apply scan_order_grid in Hc as [(k & Hk & Hoff & _)%elem_of_py_range_step4 Hes].
    cbn [fst snd] in *. change (len (pack_u32 4294967295)) with 4 in Hlt.
    assert (Z.max 0 (len (pack_u32 4294967295) + 4
                     + 20 * len [mk_subset 0 0 1 0; mk_subset 1 1 1 0] - 16384) = 0)
      as Hz by reflexivity.
    rewrite Hz in Hoff. assert (off = 0) as -> by lia.
    rewrite candidate_alt in Hcand. apply andb_true_iff in Hcand as [Hshape _].
    destruct Hes as [-> | ->]; vm_compute in Hshape; discriminate.
Defined.

(** C5 refuted: one valid entry written directly before declaration
    offset 25 (after one stray byte) is not found, the scan visiting only
    offsets 0, 4, ..., 20. *)
Lemma find_subset_table_misaligned :
  len (zeros 1) + 4 + 20 * len [mk_subset 0 0 1 0] = 25
  ∧ entry_ok (zeros 1 ++ encode_table20 3 [mk_subset 0 0 1 0]) 3 1 1 20 0 = true
  ∧ find_subset_table (zeros 1 ++ encode_table20 3 [mk_subset 0 0 1 0]) 25 3 (Some 1)
    = Some [].
Proof. split_and!; vm_compute; reflexivity. Qed.

(** The same with an aligned table that is the tail of a longer valid
    table: the two-entry table, scanned first, is returned. *)
Lemma find_subset_table_shadowed :
  shadowed_table_payload
  = (pack_u32 2 ++ pack_u32 7 ++ pack_u32 0 ++ pack_u32 1 ++ pack_u32 0)
    ++ encode_table20 1 [mk_subset 5 1 1 0]
  ∧ find_subset_table shadowed_table_payload 44 1 (Some 2)
    = Some [mk_subset 7 0 1 0; mk_subset 5 1 1 0].
Proof. split; vm_compute; reflexivity. Qed.

(** * Further properties of the vertex layout *)

Lemma base_size_bounds (x : Z) : 0 ≤ base_size x ≤ 32.
Proof. unfold base_size. repeat case_match; lia. Qed.

Lemma uv_loop_bounds (n : nat) : ∀ stride bits,
  stride + 4 * Z.of_nat n ≤ uv_loop n stride bits ≤ stride + 16 * Z.of_nat n.
Proof.
  induction n as [|n IH]; intros stride bits; [simpl; lia|].
  cbn [uv_loop].
  repeat case_match;
    match goal with
    | |- context [uv_loop n ?s ?b] => specialize (IH s b); lia
    end.
Qed.

Lemma land_15_range (x : Z) : 0 ≤ Z.land x 0xF < 16.
Proof.
  change 0xF with (2 ^ 4 - 1). rewrite land_ones_mod by lia.
  apply Z.mod_pos_bound. lia.
Qed.

(** The bytes [vertex_stride_from_decl] counts after the base field. *)
Lemma stride_after_base (decl : Z) :
  ∃ n p1 p2 p3 uv,
    vertex_stride_from_decl decl
    = base_size (Z.land decl 0x400E) + n + p1 + p2 + p3 + uv
    ∧ n = (if Z.land decl 0x10 =? 0 then 0 else 12)
    ∧ p1 = (if Z.land decl 0x20 =? 0 then 0 else 4)
    ∧ p2 = (if Z.land decl 0x40 =? 0 then 0 else 4)
    ∧ p3 = (if Z.land decl 0x80 =? 0 then 0 else 4)
    ∧ 0 ≤ uv ≤ 240
    ∧ (Z.land (Z.shiftr decl 8) 0xF ≠ 0 →
       let bits := Z.land (Z.shiftr decl 16) 0xFFFF in
       let fmt := if bits =? 0 then 0 else Z.land bits 3 in
       (if fmt =? 0 then 8 else if fmt =? 1 then 12 else if fmt =? 2 then 16 else 4)
       ≤ uv).
Proof.
  unfold vertex_stride_from_decl.
  pose proof (land_15_range (Z.shiftr decl 8)) as Hc.
  set (c := Z.land (Z.shiftr decl 8) 0xF) in *.
  set (bits := Z.land (Z.shiftr decl 16) 0xFFFF).
  set (b := base_size _).
  set (s0 := if Z.land decl 0x10 =? 0 then b else b + 12).
  set (s1 := if Z.land decl 0x20 =? 0 then s0 else s0 + 4).
  set (s2 := if Z.land decl 0x40 =? 0 then s1 else s1 + 4).
  set (s3 := if Z.land decl 0x80 =? 0 then s2 else s2 + 4).
  assert (s3 = b + (if Z.land decl 0x10 =? 0 then 0 else 12)
               + (if Z.land decl 0x20 =? 0 then 0 else 4)
               + (if Z.land decl 0x40 =? 0 then 0 else 4)
               + (if Z.land decl 0x80 =? 0 then 0 else 4)) as Hs3.
  { subst s3 s2 s1 s0. repeat case_match; lia. }
  destruct (bits =? 0) eqn:Hb.
  - exists (if Z.land decl 0x10 =? 0 then 0 else 12),
           (if Z.land decl 0x20 =? 0 then 0 else 4),
           (if Z.land decl 0x40 =? 0 then 0 else 4),
           (if Z.land decl 0x80 =? 0 then 0 else 4), (8 * c).
    repeat split; try lia. intros Hne. simpl. lia.
  - pose proof (uv_loop_bounds (Z.to_nat c) s3 bits) as Hl.
    exists (if Z.land decl 0x10 =? 0 then 0 else 12),
           (if Z.land decl 0x20 =? 0 then 0 else 4),
           (if Z.land decl 0x40 =? 0 then 0 else 4),
           (if Z.land decl 0x80 =? 0 then 0 else 4),
           (uv_loop (Z.to_nat c) s3 bits - s3).
    repeat split; try lia.
    intros Hne. cbv zeta.
    destruct (Z.to_nat c) as [|n] eqn:Hn; [lia|].
    cbn [uv_loop].
    repeat case_match;
      match goal with
      | |- context [uv_loop n ?s ?b] =>
          pose proof (uv_loop_bounds n s b); lia
      end.
Qed.

Lemma stride_range (decl : Z) : 0 ≤ vertex_stride_from_decl decl ≤ 296.
Proof.
  destruct (stride_after_base decl) as (n & p1 & p2 & p3 & uv & -> & -> & -> & -> & -> & Huv & _).
  pose proof (base_size_bounds (Z.land decl 0x400E)).
  repeat case_match; lia.
Qed.

(** X1. The stride of any declaration word lies between 0 and 296 bytes:
    at most 32 for the base, 24 for the optional fields and 16 for each of
    at most 15 UV slots. *)
Theorem vertex_stride_from_decl_bounds (decl : Z) :
  0 ≤ vertex_stride_from_decl decl ≤ 296.
Proof. apply stride_range. Qed.

Lemma unpack_nf_xyz_ok (n : Z) (data : bytes) (off : Z) :
  0 ≤ off → off + 4 * n ≤ len data → is_Some (unpack_nf_xyz n data off).
Proof.
  intros. unfold unpack_nf_xyz. rewrite unpack_offset_ok by lia. by eexists.
Qed.

Lemma unpack_nf_uv_ok (n : Z) (data : bytes) (off : Z) :
  0 ≤ off → off + 4 * n ≤ len data → is_Some (unpack_nf_uv n data off).
Proof.
  intros. unfold unpack_nf_uv. rewrite unpack_offset_ok by lia. by eexists.
Qed.

Lemma decode_after_base_ok (decl : Z) (vb : bytes) (off : Z) (xyz : vec3)
    (flip_v swap_yz : bool) :
  0 ≤ off →
  off + (vertex_stride_from_decl decl - base_size (Z.land decl 0x400E)) ≤ len vb →
  is_Some (decode_after_base decl vb off xyz flip_v swap_yz).
Proof.
  intros Hoff Hlen.
  destruct (stride_after_base decl)
    as (n & p1 & p2 & p3 & uv & Hs & Hn & Hp1 & Hp2 & Hp3 & Huv & Hfirst).
  rewrite Hs in Hlen.
  unfold decode_after_base. destruct xyz as [[x y] z].
  pose proof (base_size_bounds (Z.land decl 0x400E)).
  destruct swap_yz; cbn [mbind option_bind mret option_ret].
  all: change 15 with 0xF. change 65535 with 0xFFFF.
  all: set (bits := Z.land (Z.shiftr decl 16) 0xFFFF) in *.
  all: set (fmt := if bits =? 0 then 0 else Z.land bits 3) in *.
  all: assert (Z.land (Z.shiftr decl 8) 0xF ≠ 0 →
          (fmt = 0 → 8 ≤ uv) ∧ (fmt = 1 → 12 ≤ uv) ∧ (fmt = 2 → 16 ≤ uv) ∧ 4 ≤ uv)
    as Huvs.
  1, 3: intros Hc; specialize (Hfirst Hc); cbv zeta in Hfirst;
    fold bits fmt in Hfirst;
    (destruct (Z.eqb_spec fmt 0); [lia|]);
    (destruct (Z.eqb_spec fmt 1); [lia|]);
    destruct (Z.eqb_spec fmt 2); lia.
  all: clear Hfirst.
  all: assert (0 ≤ n ∧ 0 ≤ p1 ∧ 0 ≤ p2 ∧ 0 ≤ p3) as (? & ? & ? & ?)
    by (subst n p1 p2 p3; repeat case_match; lia).
  all: (destruct (Z.land decl 0x10 =? 0) eqn:H10;
        [|rewrite unpack_3f_ok by lia]);
    cbn [mbind option_bind mret option_ret].
  all: match goal with
       | |- context [if Z.land ?d 0x20 =? 0 then ?a else ?a + 4] =>
           set (o0 := a);
           set (o1 := if Z.land d 0x20 =? 0 then o0 else o0 + 4);
           set (o2 := if Z.land d 0x40 =? 0 then o1 else o1 + 4);
           set (o3 := if Z.land d 0x80 =? 0 then o2 else o2 + 4);
           assert (o3 = o0 + p1 + p2 + p3) as Ho3
             by (subst o3 o2 o1 p1 p2 p3; repeat case_match; lia);
           assert (o0 = off + n) as Ho0 by (subst o0; lia);
           clearbody o3 o0; clear o1 o2 Hp1 Hp2 Hp3
       end.
  all: (destruct (Z.eqb_spec (Z.land (Z.shiftr decl 8) 0xF) 0) as [Hc|Hc];
     [by eexists|]);
    destruct (Huvs Hc) as (U0 & U1 & U2 & U3);
    (destruct (Z.eqb_spec fmt 0) as [F0|F0];
     [rewrite unpack_2f_ok by lia; by eexists|]);
    (destruct (Z.eqb_spec fmt 1) as [F1|F1];
     [match goal with
      | |- context [unpack_nf_uv 3 ?b ?o] =>
          destruct (unpack_nf_uv_ok 3 b o) as [[u v] ->]; [lia..|]
      end; by eexists|]);
    (destruct (Z.eqb_spec fmt 2) as [F2|F2];
     [match goal with
      | |- context [unpack_nf_uv 4 ?b ?o] =>
          destruct (unpack_nf_uv_ok 4 b o) as [[u v] ->]; [lia..|]
      end; by eexists|]);
    rewrite !unpack_u16_ok by lia; by eexists.
Qed.

(** X2. For a declaration word with one of the seven known base selectors,
    decoding vertex [i] from a buffer that holds vertices [0 .. i] never
    raises: every field read lies inside the stride that
    [vertex_stride_from_decl] computes. *)
Theorem decode_vertex_in_bounds
    (decl : Z) (vb : bytes) (i : Z) (flip_v swap_yz : bool) :
  Z.land decl 0x400E ∈ known_base_sels →
  0 ≤ i →
  (i + 1) * vertex_stride_from_decl decl ≤ len vb →
  is_Some (decode_vertex decl vb i flip_v swap_yz).
Proof.
  intros Hsel Hi Hlen.
  pose proof (stride_range decl) as Hb.
  destruct (stride_after_base decl)
    as (n & p1 & p2 & p3 & uv & Hs & Hn & Hp1 & Hp2 & Hp3 & Huv & _).
  assert (0 ≤ n ∧ 0 ≤ p1 ∧ 0 ≤ p2 ∧ 0 ≤ p3) as (? & ? & ? & ?).
  { subst n p1 p2 p3. repeat case_match; lia. }
  unfold decode_vertex.
  set (s := vertex_stride_from_decl decl) in *.
  assert (0 ≤ i * s) by nia.
  assert (i * s + s ≤ len vb) by lia.
  unfold known_base_sels in Hsel.
  set (sel := Z.land decl 0x400E) in *.
  assert (sel = 2 ∨ sel = 4 ∨ sel = 6 ∨ sel = 8 ∨ sel = 10 ∨ sel = 12 ∨ sel = 14)
    as Hcase.
  { repeat (apply elem_of_cons in Hsel as [Hsel|Hsel]; [tauto|]).
    by apply elem_of_nil in Hsel. }
  assert (∀ k, base_size sel = k → 0 ≤ i * s + k
               ∧ i * s + k + (s - base_size sel) ≤ len vb) as Hrest.
  { intros k <-. pose proof (base_size_bounds sel). lia. }
  destruct Hcase as [E|[E|[E|[E|[E|[E|E]]]]]]; rewrite E in *; cbn [Z.eqb Pos.eqb orb].
  - rewrite unpack_3f_ok by (cbn in Hs; lia). cbn [mbind option_bind].
    apply decode_after_base_ok; fold sel s; rewrite ?E; apply (Hrest 12); done.
  - destruct (unpack_nf_xyz_ok 4 vb (i * s)) as [xyz ->]; [cbn in Hs; lia..|]. cbn [mbind option_bind].
    apply decode_after_base_ok; fold sel s; rewrite ?E; apply (Hrest 16); done.
  - destruct (unpack_nf_xyz_ok 4 vb (i * s)) as [xyz ->]; [cbn in Hs; lia..|]. cbn [mbind option_bind].
    apply decode_after_base_ok; fold sel s; rewrite ?E; apply (Hrest 16); done.
  - destruct (unpack_nf_xyz_ok 5 vb (i * s)) as [xyz ->]; [cbn in Hs; lia..|]. cbn [mbind option_bind].
    apply decode_after_base_ok; fold sel s; rewrite ?E; apply (Hrest 20); done.
  - destruct (unpack_nf_xyz_ok 6 vb (i * s)) as [xyz ->]; [cbn in Hs; lia..|]. cbn [mbind option_bind].
    apply decode_after_base_ok; fold sel s; rewrite ?E; apply (Hrest 24); done.
  - destruct (unpack_nf_xyz_ok 7 vb (i * s)) as [xyz ->]; [cbn in Hs; lia..|]. cbn [mbind option_bind].
    apply decode_after_base_ok; fold sel s; rewrite ?E; apply (Hrest 28); done.
  - destruct (unpack_nf_xyz_ok 8 vb (i * s)) as [xyz ->]; [cbn in Hs; lia..|]. cbn [mbind option_bind].
    apply decode_after_base_ok; fold sel s; rewrite ?E; apply (Hrest 32); done.
Qed.

Lemma decode_vertex_in_bounds_witness :
  is_Some (decode_vertex 0x112 (zeros 64) 1 true false).
Proof.
  apply decode_vertex_in_bounds.
  - unfold known_base_sels. rewrite !elem_of_cons. left. reflexivity.
  - lia.
  - vm_compute. discriminate.
Defined.

Lemma unpack_3f_short (data : bytes) (off : Z) :
  0 ≤ off → len data < off + 12 → unpack_3f data off = None.
Proof.
  intros. unfold unpack_3f, unpack_offset.
  destruct (Z.ltb_spec off 0); [lia|].
  destruct (Z.ltb_spec (len data - off) 12); [done|lia].
Qed.

(** X3. With an unknown base selector the decoder reads 12 position bytes
    that the stride does not count.  When the normal flag 0x10 is set it
    therefore needs 24 bytes from the start of vertex [i], and raises
    whenever the buffer holds fewer, even if the buffer holds the whole
    vertex as the stride measures it. *)
Theorem decode_vertex_unknown_base_overrun
    (decl : Z) (vb : bytes) (i : Z) (flip_v swap_yz : bool) :
  Z.land decl 0x400E ∉ known_base_sels →
  Z.land decl 0x10 ≠ 0 →
  0 ≤ i * vertex_stride_from_decl decl →
  len vb < i * vertex_stride_from_decl decl + 24 →
  decode_vertex decl vb i flip_v swap_yz = None.
Proof.
  intros Hsel Hn Hoff Hlen. unfold decode_vertex.
  set (off := i * vertex_stride_from_decl decl) in *.
  set (sel := Z.land decl 0x400E) in *.
  unfold known_base_sels in Hsel.
  assert (sel ≠ 2 ∧ sel ≠ 4 ∧ sel ≠ 6 ∧ sel ≠ 8 ∧ sel ≠ 10 ∧ sel ≠ 12 ∧ sel ≠ 14)
    as (? & ? & ? & ? & ? & ? & ?).
  { repeat split; intros E; apply Hsel; rewrite E, !elem_of_cons; tauto. }
  repeat (match goal with
          | |- context [?a =? ?b] =>
              destruct (Z.eqb_spec a b); [lia|]
          end; cbn [orb]).
  destruct (unpack_3f vb off) as [[[x y] z]|] eqn:Hp; [|done].
  cbn [mbind option_bind].
  unfold decode_after_base.
  destruct (Z.eqb_spec (Z.land decl 0x10) 0) as [|_]; [lia|].
  rewrite unpack_3f_short by lia.
  by destruct swap_yz.
Qed.

Lemma decode_vertex_unknown_base_overrun_witness :
  (1 * vertex_stride_from_decl 0x10 ≤ len (zeros 12))
  ∧ decode_vertex 0x10 (zeros 12) 0 true false = None.
Proof.
  split; [vm_compute; discriminate|].
  apply decode_vertex_unknown_base_overrun.
  - unfold known_base_sels. rewrite !elem_of_cons, elem_of_nil.
    change (Z.land 0x10 0x400E) with 0. lia.
  - vm_compute. discriminate.
  - vm_compute. discriminate.
  - vm_compute. reflexivity.
Defined.

(** * The vertex-desc block scan of [find_vb_block] *)

Section vb_block.
Variable payload : bytes.

Lemma vb_block_valid_iff (o : Z) :
  vb_block_valid payload o = true ↔
    12 ≤ vb_stride payload o ≤ 256
    ∧ 1 ≤ vb_vcount payload o ≤ 10000000
    ∧ (vb_idx_fmt payload o = 0 ∨ vb_idx_fmt payload o = 1)
    ∧ 1 ≤ vb_idx_count payload o ≤ 100000000
    ∧ vb_end_off payload o ≤ len payload ≤ vb_end_off payload o + 64.
Proof.
  unfold vb_block_valid.
  rewrite !andb_true_iff, orb_true_iff, !Z.leb_le, !Z.eqb_eq. lia.
Qed.

(** A valid block spans at least 546 bytes. *)
Lemma vb_block_valid_span (o : Z) :
  vb_block_valid payload o = true →
  o + 536 ≤ vb_ib_hdr_off payload o
  ∧ vb_ib_hdr_off payload o + 10 ≤ vb_end_off payload o
  ∧ vb_end_off payload o ≤ len payload.
Proof.
  rewrite vb_block_valid_iff. intros (Hs & Hv & Hf & Hc & He).
  unfold vb_end_off, vb_ib_hdr_off in *.
  set (s := vb_stride payload o) in *. set (v := vb_vcount payload o) in *.
  set (c := vb_idx_count payload o) in *.
  assert (12 ≤ s * v) by nia.
  destruct (_ =? 0); lia.
Qed.

Lemma find_vb_block_at_valid (o : Z) :
  0 ≤ o → o + 532 < len payload →
  find_vb_block_at payload o
  = Some (if vb_block_valid payload o then Some (vb_block payload o) else None).
Proof.
  intros H0 Hlen.
  assert (vb_block_valid payload o = true
          ∨ ¬ (12 ≤ vb_stride payload o ≤ 256
               ∧ 1 ≤ vb_vcount payload o ≤ 10000000
               ∧ (vb_idx_fmt payload o = 0 ∨ vb_idx_fmt payload o = 1)
               ∧ 1 ≤ vb_idx_count payload o ≤ 100000000
               ∧ vb_end_off payload o ≤ len payload ≤ vb_end_off payload o + 64)
            ∧ vb_block_valid payload o = false) as Hcase.
  { destruct (vb_block_valid payload o) eqn:E; [by left|right].
    split; [|done]. rewrite <- vb_block_valid_iff. congruence. }
  destruct Hcase as [E|[Hv E]]; rewrite E.
  1: apply vb_block_valid_iff in E as Hv.
  all: unfold vb_block, vb_end_off, vb_idx_count, vb_idx_fmt, vb_ib_hdr_off,
    vb_vcount, vb_stride, vb_decl in *; clear E.
  all: unfold find_vb_block_at.
  all: rewrite (unpack_u32_ok payload o) by lia; cbn [mbind option_bind].
  all: rewrite (unpack_u32_ok payload (o + 520)) by lia; cbn [mbind option_bind].
  all: generalize dependent (vertex_stride_from_decl (le_uint 4 payload o));
    intros s ?.
  all: pose proof (le_uint_range_nonneg 4 payload (o + 520)) as Hv0.
  all: generalize dependent (le_uint 4 payload (o + 520)); intros v ? ?.
  all: (destruct ((12 <=? s) && (s <=? 256)) eqn:G1; cbn [negb]; guard_facts G1;
        [|first [done|exfalso; lia]]).
  all: (destruct ((v =? 0) || (10000000 <? v)) eqn:G2; guard_facts G2;
        [first [done|exfalso; lia]|]).
  all: assert (0 ≤ s * v) by (apply Z.mul_nonneg_nonneg; lia).
  all: generalize dependent (s * v); intros sv ? ?.
  all: pose proof (le_uint_range_nonneg 4 payload (o + 524 + sv + 4)) as Hc0.
  all: (destruct (Z.ltb_spec (len payload) (o + 524 + sv + 8)) as [G3|G3];
        [first [done|exfalso; destruct (_ =? 0); lia]|]).
  all: rewrite (unpack_u32_ok payload (o + 524 + sv)),
         (unpack_u32_ok payload (o + 524 + sv + 4)) by lia;
       cbn [mbind option_bind].
  all: generalize dependent (le_uint 4 payload (o + 524 + sv + 4)); intros c ? ?.
  all: generalize dependent (le_uint 4 payload (o + 524 + sv)); intros f ?.
  all: (destruct ((c =? 0) || (100000000 <? c)) eqn:G4; guard_facts G4;
        [first [done|exfalso; lia]|]).
  all: (destruct (Z.eqb_spec f 0) as [F0|F0];
        [|destruct (Z.eqb_spec f 1) as [F1|F1];
          [|first [done|exfalso; lia]]]).
  all: match goal with
       | |- context [len payload <? ?e] =>
           destruct (Z.ltb_spec (len payload) e) as [G5|G5];
           [first [done|exfalso; lia]|];
           destruct (Z.ltb_spec 64 (len payload - e)) as [G6|G6];
           [first [done|exfalso; lia]|]
       end.
  all: first [done|exfalso; apply Hv; lia].
Qed.

Lemma find_vb_block_loop_first (offs : list Z) :
  Forall (λ o, 0 ≤ o ∧ o + 532 < len payload) offs →
  find_vb_block_loop payload offs
  = Some (vb_block payload
            <$> head (filter (λ o, vb_block_valid payload o = true) offs)).
Proof.
  induction 1 as [|o offs [H0 Hlen] _ IH]; [done|].
  cbn [find_vb_block_loop]. rewrite find_vb_block_at_valid by done.
  cbn [mbind option_bind]. rewrite filter_cons.
  destruct (vb_block_valid payload o) eqn:E.
  - rewrite decide_True by done. done.
  - rewrite decide_False by discriminate. done.
Qed.

Lemma vb_grid_bounds (o : Z) :
  o ∈ vb_grid payload ↔ 0 ≤ o ∧ o `mod` 4 = 0 ∧ o + 532 < len payload.
Proof.
  unfold vb_grid. rewrite elem_of_py_range_step4. split.
  - intros (k & Hk & -> & Hlt). repeat split; try lia.
    rewrite Z.add_0_l, Z.mul_comm. apply Z_mod_mult.
  - intros (H0 & Hm & Hlt). exists (o `div` 4).
    pose proof (Z.div_mod o 4 ltac:(lia)).
    repeat split; try lia.
Qed.

Lemma find_vb_block_first :
  find_vb_block payload
  = Some (vb_block payload
            <$> head (filter (λ o, vb_block_valid payload o = true)
                        (vb_grid payload))).
Proof.
  unfold find_vb_block.
  destruct (Z.ltb_spec (len payload) (520 + 4 + 4 + 8)) as [Hs|Hs].
  - destruct (head _) as [o|] eqn:Ho; [|done].
    apply head_Some_elem_of, list_elem_of_filter in Ho as [Hval Hin].
    apply vb_block_valid_span in Hval. apply vb_grid_bounds in Hin. lia.
  - change (520 + 4 + 8) with 532. apply find_vb_block_loop_first.
    apply Forall_forall. intros o Ho. apply vb_grid_bounds in Ho. lia.
Qed.
End vb_block.

(** The first element that passes a filter comes before every other one. *)
Lemma head_filter_Some {A} (P : A → Prop) `{!∀ x, Decision (P x)} (l : list A) (x : A) :
  head (filter P l) = Some x →
  ∃ l1 l2, l = l1 ++ x :: l2 ∧ P x ∧ Forall (λ y, ¬ P y) l1.
Proof.
  induction l as [|a l IH]; [done|].
  rewrite filter_cons. destruct (decide (P a)) as [Ha|Ha].
  - intros [= ->]. exists [], l. by repeat split.
  - intros Hh. destruct (IH Hh) as (l1 & l2 & -> & Hx & Hl1).
    exists (a :: l1), l2. repeat split; [done|]. by constructor.
Qed.

Lemma head_filter_None {A} (P : A → Prop) `{!∀ x, Decision (P x)} (l : list A) :
  head (filter P l) = None ↔ Forall (λ y, ¬ P y) l.
Proof.
  rewrite head_None. split.
  - intros Hn. apply Forall_forall. intros y Hy HP.
    assert (y ∈ filter P l) as Hin by (apply list_elem_of_filter; done).
    rewrite Hn in Hin. by apply elem_of_nil in Hin.
  - intros Hall. induction Hall as [|a l Ha _ IH]; [done|].
    rewrite filter_cons. by rewrite decide_False.
Qed.

Lemma vb_grid_sorted (payload : bytes) : StronglySorted Z.lt (vb_grid payload).
Proof.
  unfold vb_grid, py_range_step.
  apply StronglySorted_fmap_mono; [intros; lia|apply StronglySorted_seqZ].
Qed.

(** X4. [find_vb_block] never raises.  It returns the block at the first
    offset of [range(0, len(payload) - 532, 4)] at which every check
    passes (stride in 12..256, vertex count in 1..10000000, index format 0
    or 1, index count in 1..100000000, the index data ending inside the
    payload with at most 64 bytes after it), and [None] exactly when no
    offset of the range passes. *)
Theorem find_vb_block_spec (payload : bytes) :
  ∃ r,
    find_vb_block payload = Some r
    ∧ (∀ hit, r = Some hit →
         ∃ o, hit = vb_block payload o
              ∧ o ∈ vb_grid payload
              ∧ vb_block_valid payload o = true
              ∧ ∀ o', o' ∈ vb_grid payload → o' < o →
                      vb_block_valid payload o' = false)
    ∧ (r = None ↔ ∀ o, o ∈ vb_grid payload → vb_block_valid payload o = false).
Proof.
  rewrite find_vb_block_first. eexists; split; [done|]. split.
  - intros hit Hhit.
    destruct (head _) as [o|] eqn:Ho; [|done].
    injection Hhit as <-. exists o.
    apply head_filter_Some in Ho as (l1 & l2 & Hg & Hval & Hl1).
    repeat split; [|done|].
    + rewrite Hg. apply elem_of_app. right. apply elem_of_cons. by left.
    + intros o' Hin Hlt.
      pose proof (vb_grid_sorted payload) as Hsort. rewrite Hg in Hsort, Hin.
      apply elem_of_app in Hin as [Hin|Hin].
      * rewrite Forall_forall in Hl1. specialize (Hl1 _ Hin).
        by destruct (vb_block_valid payload o').
      * apply StronglySorted_app_1_r in Hsort.
        apply StronglySorted_inv in Hsort as [_ Hall].
        apply elem_of_cons in Hin as [->|Hin]; [lia|].
        rewrite Forall_forall in Hall. specialize (Hall _ Hin). lia.
  - rewrite fmap_None, head_filter_None, Forall_forall.
    split; intros H o Ho; specialize (H o Ho);
      by destruct (vb_block_valid payload o).
Qed.

(** X5. A payload shorter than 546 bytes holds no vertex-desc block: the
    declaration, the vertex count, one vertex of the smallest stride, the
    index header and one 16-bit index do not fit (the function's own
    length guard stops at 536). *)
Theorem find_vb_block_short (payload : bytes) :
  len payload < 546 → find_vb_block payload = Some None.
Proof.
  intros Hlen. rewrite find_vb_block_first.
  destruct (head _) as [o|] eqn:Ho; [|done].
  apply head_Some_elem_of, list_elem_of_filter in Ho as [Hval Hin].
  apply vb_block_valid_span in Hval. apply vb_grid_bounds in Hin. lia.
Qed.

Lemma find_vb_block_short_witness : find_vb_block (zeros 545) = Some None.
Proof. apply find_vb_block_short. vm_compute. reflexivity. Defined.

(** X6. Whatever [find_vb_block] returns lies inside the payload: the
    descriptor offset is a non-negative multiple of 4, the declaration word
    is the dword at that offset, the vertex buffer of [stride * vcount]
    bytes starts 524 bytes after it and is followed by the 8-byte index
    header and the index data, which ends at [end_off], at most 64 bytes
    before the end of the payload. *)
Theorem find_vb_block_within
    (payload : bytes) (desc_off decl vcount ib_hdr_off end_off : Z) :
  find_vb_block payload = Some (Some (desc_off, decl, vcount, ib_hdr_off, end_off)) →
  let stride := vertex_stride_from_decl decl in
  let idx_fmt := le_uint 4 payload ib_hdr_off in
  let idx_count := le_uint 4 payload (ib_hdr_off + 4) in
  0 ≤ desc_off ∧ desc_off `mod` 4 = 0
  ∧ decl = le_uint 4 payload desc_off
  ∧ vcount = le_uint 4 payload (desc_off + 520)
  ∧ 12 ≤ stride ≤ 256
  ∧ 1 ≤ vcount ≤ 10000000
  ∧ ib_hdr_off = desc_off + 524 + stride * vcount
  ∧ 1 ≤ idx_count ≤ 100000000
  ∧ (idx_fmt = 0 ∧ end_off = ib_hdr_off + 8 + 2 * idx_count
     ∨ idx_fmt = 1 ∧ end_off = ib_hdr_off + 8 + 4 * idx_count)
  ∧ end_off ≤ len payload ≤ end_off + 64.
Proof.
  rewrite find_vb_block_first. intros Hr stride idx_fmt idx_count.
  destruct (head _) as [o|] eqn:Ho; [|done].
  injection Hr as <- <- <- <- <-.
  apply head_Some_elem_of, list_elem_of_filter in Ho as [Hval Hin].
  apply vb_grid_bounds in Hin as (H0 & Hm & _).
  apply vb_block_valid_iff in Hval as (Hs & Hv & Hf & Hc & He).
  subst stride idx_fmt idx_count.
  change (le_uint 4 payload (vb_ib_hdr_off payload o)) with (vb_idx_fmt payload o).
  change (le_uint 4 payload (vb_ib_hdr_off payload o + 4))
    with (vb_idx_count payload o).
  change (vertex_stride_from_decl (vb_decl payload o)) with (vb_stride payload o).
  assert (vb_end_off payload o
          = vb_ib_hdr_off payload o + 8
            + vb_idx_count payload o * (if vb_idx_fmt payload o =? 0 then 2 else 4))
    as Hend by done.
  assert (vb_ib_hdr_off payload o
          = o + 524 + vb_stride payload o * vb_vcount payload o) as Hhdr by done.
  assert (vb_vcount payload o = le_uint 4 payload (o + 520)) as Hvq by done.
  assert (vb_decl payload o = le_uint 4 payload o) as Hdq by done.
  generalize dependent (vb_end_off payload o).
  generalize dependent (vb_ib_hdr_off payload o).
  generalize dependent (vb_idx_count payload o).
  generalize dependent (vb_idx_fmt payload o).
  generalize dependent (vb_stride payload o).
  generalize dependent (vb_vcount payload o).
  generalize dependent (vb_decl payload o).
  intros.
  match goal with
  | H : _ = 0 ∨ _ = 1 |- _ => destruct H as [-> | ->]
  end; cbn [Z.eqb Pos.eqb] in *; split_and!; try done; lia.
Qed.

Lemma find_vb_block_within_witness :
  find_vb_block tiny_vb_payload = Some (Some (0, 2, 1, 536, 546))
  ∧ 546 ≤ len tiny_vb_payload ≤ 546 + 64.
Proof.
  assert (find_vb_block tiny_vb_payload = Some (Some (0, 2, 1, 536, 546))) as H
    by (vm_compute; reflexivity).
  split; [exact H|].
  apply (find_vb_block_within _ _ _ _ _ _ H).
Defined.

(** * The D3D declaration and its vertex decoder *)

Lemma before_upto_sentinel (recs : list Elem) :
  before_sentinel (upto_sentinel recs) = before_sentinel recs.
Proof.
  induction recs as [|e recs IH]; [done|].
  cbn [upto_sentinel before_sentinel].
  destruct (is_sentinel e) eqn:E; cbn [before_sentinel]; rewrite E; [done|].
  by rewrite IH.
Qed.

Lemma upto_sentinel_split (recs : list Elem) :
  has_sentinel recs = true →
  ∃ s, upto_sentinel recs = before_sentinel recs ++ [s] ∧ e_stream s = 0xFF.
Proof.
  induction recs as [|e recs IH]; [done|].
  rewrite has_sentinel_cons. cbn [upto_sentinel before_sentinel]. unfold is_sentinel.
  destruct (Z.eqb_spec (e_stream e) 0xFF) as [E|E]; cbn [orb].
  - intros _. by exists e.
  - intros H. destruct (IH H) as (s & -> & Hs). by exists s.
Qed.

Lemma before_sentinel_length (recs : list Elem) :
  (length (before_sentinel recs) ≤ length recs)%nat.
Proof.
  induction recs as [|e recs IH]; [done|].
  cbn [before_sentinel]. destruct (is_sentinel e); cbn; lia.
Qed.

Lemma before_sentinel_short (recs : list Elem) :
  has_sentinel recs = true →
  (length (before_sentinel recs) < length recs)%nat.
Proof.
  induction recs as [|e recs IH]; [done|].
  rewrite has_sentinel_cons. cbn [before_sentinel]. unfold is_sentinel.
  destruct (e_stream e =? 0xFF); cbn; [lia|]. intros H. specialize (IH H). lia.
Qed.

Lemma stream0_stride_upper (elems : list Elem) (e : Elem) :
  e ∈ elems → e_stream e = 0 → elem_end e ≤ stream0_stride elems.
Proof.
  intros Hin H0. unfold stream0_stride.
  assert (elem_end e ∈ elem_end <$> filter (λ e, e_stream e = 0) elems) as Hm.
  { apply list_elem_of_fmap. exists e. split; [done|]. by apply list_elem_of_filter. }
  induction (elem_end <$> _) as [|x l IH]; [by apply elem_of_nil in Hm|].
  cbn [foldr]. apply elem_of_cons in Hm as [->|Hm]; [lia|].
  specialize (IH Hm). lia.
Qed.

Lemma stream0_stride_attained (elems : list Elem) :
  0 < stream0_stride elems →
  ∃ e, e ∈ elems ∧ e_stream e = 0 ∧ elem_end e = stream0_stride elems.
Proof.
  unfold stream0_stride. induction elems as [|a elems IH]; [cbn; lia|].
  rewrite filter_cons. destruct (decide (e_stream a = 0)) as [Ha|Ha].
  - rewrite fmap_cons. cbn [foldr]. intros Hpos.
    destruct (Z.max_spec (elem_end a)
                (foldr Z.max 0 (elem_end <$> filter (λ e, e_stream e = 0) elems)))
      as [[Hlt ->]|[Hle ->]].
    + destruct IH as (e & He & H0 & Hend); [lia|].
      exists e. split_and!; [by apply elem_of_cons; right|done|done].
    + exists a. split_and!; [by apply elem_of_cons; left|done|done].
  - intros Hpos. destruct (IH Hpos) as (e & He & H0 & Hend).
    exists e. split_and!; [by apply elem_of_cons; right|done|done].
Qed.

(** The value of [parse_d3d_decl_520] on any block. *)
Lemma parse_decl_value (block : bytes) :
  let recs := decl_records block in
  let stride := stream0_stride (before_sentinel recs) in
  parse_d3d_decl_520 block
  = Some (if (len block =? 520) && has_sentinel recs
             && negb (existsb unknown_type (before_sentinel recs))
             && (0 <? stride) && (stride <=? 1024)
          then Some (stride, upto_sentinel recs) else None).
Proof.
  intros recs stride. unfold parse_d3d_decl_520.
  destruct (Z.eqb_spec (len block) 520) as [Hlen|Hlen]; cbn [negb andb]; [|done].
  rewrite read_elems_spec; cycle 1.
  { apply Forall_forall. intros i Hi%elem_of_seqZ. lia. }
  cbv zeta. cbn [mbind option_bind]. change (py_range 0 65) with (seqZ 0 65).
  fold (decl_records block). fold recs.
  rewrite app_nil_l. destruct (has_sentinel recs); [|done]. cbn [negb andb].
  rewrite decl_stride_spec by done. fold stride.
  destruct (existsb _ _); [done|]. cbn [negb andb].
  pose proof (stream0_stride_nonneg (before_sentinel recs)) as Hnn. fold stride in Hnn.
  rewrite Z.max_r by done.
  destruct (Z.leb_spec stride 0), (Z.ltb_spec 1024 stride), (Z.ltb_spec 0 stride),
    (Z.leb_spec stride 1024); try lia; done.
Qed.

Lemma parse_decl_Some (block : bytes) (stride : Z) (elems : list Elem) :
  parse_d3d_decl_520 block = Some (Some (stride, elems)) →
  let recs := decl_records block in
  len block = 520
  ∧ has_sentinel recs = true
  ∧ existsb unknown_type (before_sentinel recs) = false
  ∧ stride = stream0_stride (before_sentinel recs)
  ∧ elems = upto_sentinel recs
  ∧ 1 ≤ stride ≤ 1024.
Proof.
  rewrite parse_decl_value. cbv zeta.
  generalize (decl_records block). intros recs.
  destruct (Z.eqb_spec (len block) 520); [|done].
  destruct (has_sentinel _); [|done].
  destruct (existsb _ _); [done|].
  destruct (Z.ltb_spec 0 (stream0_stride (before_sentinel recs))); [|done].
  destruct (Z.leb_spec (stream0_stride (before_sentinel recs)) 1024); [|done].
  cbn [andb negb]. intros [= <- <-]. split_and!; try done; lia.
Qed.

Lemma parse_decl_fits (block : bytes) (stride : Z) (elems : list Elem) :
  parse_d3d_decl_520 block = Some (Some (stride, elems)) →
  Forall (elem_fits stride) (before_sentinel elems).
Proof.
  intros H. apply parse_decl_Some in H as (_ & _ & _ & -> & -> & _).
  rewrite before_upto_sentinel.
  pose proof (before_sentinel_records block) as Hoff.
  rewrite Forall_forall in Hoff. apply Forall_forall. intros e He H0.
  split; [by apply Hoff|]. by apply stream0_stride_upper.
Qed.

(** X7. [parse_d3d_decl_520] never raises, returns [None] for a block
    whose length is not 520, and any declaration it returns is usable by
    the vertex decoder: the stride is between 1 and 1024, the element list
    has at most 65 entries and ends with the sentinel (stream 0xFF), every
    element before the sentinel has a known type, every stream-0 element
    before the sentinel lies inside the stride, and one of them ends
    exactly at the stride. *)
Theorem parse_d3d_decl_520_total (block : bytes) :
  ∃ r,
    parse_d3d_decl_520 block = Some r
    ∧ (len block ≠ 520 → r = None)
    ∧ ∀ stride elems, r = Some (stride, elems) →
        1 ≤ stride ≤ 1024
        ∧ len elems ≤ 65
        ∧ (∃ s, elems = before_sentinel elems ++ [s] ∧ e_stream s = 0xFF)
        ∧ Forall (λ e, unknown_type e = false) (before_sentinel elems)
        ∧ Forall (elem_fits stride) (before_sentinel elems)
        ∧ ∃ e, e ∈ before_sentinel elems ∧ e_stream e = 0 ∧ elem_end e = stride.
Proof.
  destruct (parse_d3d_decl_520 block) as [r|] eqn:Hr; cycle 1.
  { rewrite parse_decl_value in Hr. done. }
  exists r. split; [done|]. split.
  - intros Hlen. rewrite parse_decl_value in Hr. cbv zeta in Hr.
    destruct (Z.eqb_spec (len block) 520); [done|]. cbn [andb] in Hr. congruence.
  - intros stride elems ->.
    pose proof (parse_decl_fits _ _ _ Hr) as Hfits.
    apply parse_decl_Some in Hr as (Hlen & Hsent & Hknown & Hstride & Helems & Hrange).
    cbv zeta in *. set (recs := decl_records block) in *.
    destruct (upto_sentinel_split recs Hsent) as (s & Hsplit & Hs).
    split_and!; try lia.
    + rewrite Helems, Hsplit. unfold len. rewrite length_app. cbn [length].
      pose proof (before_sentinel_short recs Hsent) as Hshort.
      assert (length recs = 65%nat) as Hn.
      { unfold recs, decl_records. by rewrite length_fmap, length_seqZ. }
      lia.
    + exists s. rewrite Helems, before_upto_sentinel. done.
    + rewrite Helems, before_upto_sentinel. apply Forall_forall. intros e He.
      apply not_true_iff_false. intros Hu. apply not_true_iff_false in Hknown.
      apply Hknown, existsb_exists. exists e. split; [by apply list_elem_of_In|done].
    + done.
    + rewrite Helems, before_upto_sentinel, Hstride.
      apply stream0_stride_attained. lia.
Qed.

Lemma or_else_None {A} (x : option A) : or_else x None = x.
Proof. by destruct x. Qed.

Lemma first_elem_cons (p : Elem → bool) (e : Elem) (rest : list Elem) :
  first_elem p (e :: rest)
  = if is_sentinel e then None
    else if p e then Some e else first_elem p rest.
Proof.
  unfold first_elem. cbn [before_sentinel].
  destruct (is_sentinel e); [done|].
  rewrite filter_cons. destruct (p e); [by rewrite decide_True|].
  by rewrite decide_False.
Qed.

Section d3d_vertex.
Variables (vb : bytes) (base : Z) (flip_v swap_yz : bool).

Lemma decode_d3d_loop_first (elems : list Elem) : ∀ pos nrm uv,
  Forall (λ e, e_stream e = 0 →
               0 ≤ base + e_offset e ∧ base + elem_end e ≤ len vb)
    (before_sentinel elems) →
  decode_d3d_loop elems vb base flip_v swap_yz pos nrm uv
  = Some (or_else pos
            ((λ e, swap_vec3 swap_yz (vec3_at vb (base + e_offset e)))
               <$> first_elem is_position elems),
          or_else nrm
            ((λ e, swap_vec3 swap_yz (vec3_at vb (base + e_offset e)))
               <$> first_elem is_normal elems),
          or_else uv
            ((λ e, flip_vec2 flip_v (vec2_at vb (base + e_offset e)))
               <$> first_elem is_texcoord0 elems)).
Proof.
  induction elems as [|e elems IH]; intros pos nrm uv Hfit.
  { cbn. by rewrite !or_else_None. }
  cbn [decode_d3d_loop]. rewrite !first_elem_cons.
  cbn [before_sentinel] in Hfit. unfold is_sentinel in *.
  destruct (Z.eqb_spec (e_stream e) 0xFF) as [Hs|Hs].
  { cbn. by rewrite !or_else_None. }
  apply Forall_cons in Hfit as [Hfit Hrest].
  pose proof (λ p n u, IH p n u Hrest) as IHr. clear IH. rename IHr into IH.
  unfold is_position, is_normal, is_texcoord0.
  destruct (Z.eqb_spec (e_stream e) 0) as [H0|H0]; cbn [negb andb].
  2:{ apply IH. }
  specialize (Hfit H0). unfold elem_end in Hfit.
  destruct (Z.eqb_spec (e_usage e) 0) as [U0|U0]; cbn [andb].
  { destruct (Z.eqb_spec (e_usage e) 3) as [?|_]; [lia|].
    destruct (Z.eqb_spec (e_usage e) 5) as [?|_]; [lia|]. cbn [andb].
    destruct pos as [p|]; cbn [is_none].
    - rewrite IH. by destruct (e_typ e =? 2).
    - destruct (Z.eqb_spec (e_typ e) 2) as [T|T]; [|by rewrite IH].
      rewrite T in Hfit. cbn in Hfit.
      rewrite unpack_3f_ok by lia. cbn [mbind option_bind].
      destruct swap_yz; rewrite IH; done. }
  destruct (Z.eqb_spec (e_usage e) 3) as [U3|U3]; cbn [andb].
  { destruct (Z.eqb_spec (e_usage e) 5) as [?|_]; [lia|]. cbn [andb].
    destruct nrm as [n|]; cbn [is_none].
    - rewrite IH. by destruct (e_typ e =? 2).
    - destruct (Z.eqb_spec (e_typ e) 2) as [T|T]; [|by rewrite IH].
      rewrite T in Hfit. cbn in Hfit.
      rewrite unpack_3f_ok by lia. cbn [mbind option_bind].
      destruct swap_yz; rewrite IH; done. }
  destruct (Z.eqb_spec (e_usage e) 5) as [U5|U5]; cbn [andb]; [|by rewrite IH].
  destruct (Z.eqb_spec (e_usage_idx e) 0) as [I0|I0]; cbn [andb]; [|by rewrite IH].
  destruct uv as [t|]; cbn [is_none].
  - rewrite IH. by destruct (e_typ e =? 1).
  - destruct (Z.eqb_spec (e_typ e) 1) as [T|T]; [|by rewrite IH].
    rewrite T in Hfit. cbn in Hfit.
    rewrite unpack_2f_ok by lia. cbn [mbind option_bind].
    destruct flip_v; rewrite IH; done.
Qed.
End d3d_vertex.

Lemma decode_vertex_d3d_value
    (block : bytes) (stride : Z) (elems : list Elem) (vb : bytes) (i : Z)
    (flip_v swap_yz : bool) :
  parse_d3d_decl_520 block = Some (Some (stride, elems)) →
  0 ≤ i → (i + 1) * stride ≤ len vb →
  decode_vertex_d3d elems vb i stride flip_v swap_yz
  = Some (default (0, 0, 0)%float
            ((λ e, swap_vec3 swap_yz (vec3_at vb (i * stride + e_offset e)))
               <$> first_elem is_position elems),
          (λ e, swap_vec3 swap_yz (vec3_at vb (i * stride + e_offset e)))
            <$> first_elem is_normal elems,
          (λ e, flip_vec2 flip_v (vec2_at vb (i * stride + e_offset e)))
            <$> first_elem is_texcoord0 elems).
Proof.
  intros Hparse Hi Hlen.
  pose proof (parse_decl_fits _ _ _ Hparse) as Hfits.
  apply parse_decl_Some in Hparse as (_ & _ & _ & _ & _ & Hrange).
  unfold decode_vertex_d3d. rewrite decode_d3d_loop_first.
  - cbn [mbind option_bind or_else]. by destruct (first_elem is_position elems).
  - eapply Forall_impl; [exact Hfits|]. intros e He H0. specialize (He H0). nia.
Qed.

(** X8. With the stride and the element list that [parse_d3d_decl_520]
    returned, decoding vertex [i] from a buffer that holds vertices
    [0 .. i] never raises, and the result is read off the declaration:
    the position is the FLOAT3 (type 2) at the first stream-0 element with
    usage 0 before the sentinel, or (0, 0, 0) when there is none; the
    normal likewise for usage 3 and the texture coordinate for the FLOAT2
    (type 1) element with usage 5 and usage index 0, each absent when the
    declaration has no such element; y and z are exchanged under
    [swap_yz] and v becomes 1 - v under [flip_v]. *)
Theorem decode_vertex_d3d_spec
    (block : bytes) (stride : Z) (elems : list Elem) (vb : bytes) (i : Z)
    (flip_v swap_yz : bool) :
  parse_d3d_decl_520 block = Some (Some (stride, elems)) →
  0 ≤ i → (i + 1) * stride ≤ len vb →
  decode_vertex_d3d elems vb i stride flip_v swap_yz
  = Some (default (0, 0, 0)%float
            ((λ e, swap_vec3 swap_yz (vec3_at vb (i * stride + e_offset e)))
               <$> first_elem is_position elems),
          (λ e, swap_vec3 swap_yz (vec3_at vb (i * stride + e_offset e)))
            <$> first_elem is_normal elems,
          (λ e, flip_vec2 flip_v (vec2_at vb (i * stride + e_offset e)))
            <$> first_elem is_texcoord0 elems).
Proof. apply decode_vertex_d3d_value. Qed.

Lemma decode_vertex_d3d_spec_witness :
  ∃ stride elems,
    parse_d3d_decl_520 pnt_decl_block = Some (Some (stride, elems))
    ∧ decode_vertex_d3d elems pnt_vertex_buffer 1 stride true false
      = Some ((0, 0, 0)%float, Some (0, 0, 0)%float, Some (0, 1)%float).
Proof.
  assert (parse_d3d_decl_520 pnt_decl_block
          = Some (Some (32, upto_sentinel (decl_records pnt_decl_block)))) as H
    by (vm_compute; reflexivity).
  eexists _, _. split; [exact H|].
  rewrite (decode_vertex_d3d_spec _ _ _ pnt_vertex_buffer 1 true false H);
    [|lia|vm_compute; discriminate].
  vm_compute. reflexivity.
Defined.

(** * Slices of a buffer *)

Lemma py_slice_take_drop {A} (l : list A) (lo hi : Z) :
  0 ≤ lo → lo ≤ hi → hi ≤ len l →
  py_slice l lo hi = take (Z.to_nat (hi - lo)) (drop (Z.to_nat lo) l).
Proof.
  intros H0 Hle Hhi. unfold py_slice, slice_index.
  destruct (Z.ltb_spec lo 0); [lia|]. destruct (Z.ltb_spec hi 0); [lia|].
  by rewrite !Z.min_l by lia.
Qed.

Lemma py_slice_len {A} (l : list A) (lo hi : Z) :
  0 ≤ lo → lo ≤ hi → hi ≤ len l → len (py_slice l lo hi) = hi - lo.
Proof.
  intros H0 Hle Hhi. rewrite py_slice_take_drop by done.
  unfold len in *. rewrite length_take, length_drop. lia.
Qed.

Lemma get_byte_slice (l : bytes) (lo hi k : Z) :
  0 ≤ lo → hi ≤ len l → 0 ≤ k → lo + k < hi →
  get_byte (py_slice l lo hi) k = get_byte l (lo + k).
Proof.
  intros H0 Hhi Hk Hlt. rewrite py_slice_take_drop by lia.
  unfold get_byte. rewrite lookup_take_lt by lia. rewrite lookup_drop.
  by replace (Z.to_nat lo + Z.to_nat k)%nat with (Z.to_nat (lo + k)) by lia.
Qed.

Lemma le_uint_slice (w : nat) (l : bytes) (lo hi : Z) : ∀ k,
  0 ≤ lo → hi ≤ len l → 0 ≤ k → lo + k + Z.of_nat w ≤ hi →
  le_uint w (py_slice l lo hi) k = le_uint w l (lo + k).
Proof.
  induction w as [|w IH]; intros k H0 Hhi Hk Hle; [done|].
  rewrite !le_uint_succ. rewrite get_byte_slice by lia.
  rewrite IH by lia. by replace (lo + (k + 1)) with (lo + k + 1) by lia.
Qed.

Lemma f32_at_slice (l : bytes) (lo hi k : Z) :
  0 ≤ lo → hi ≤ len l → 0 ≤ k → lo + k + 4 ≤ hi →
  f32_at (py_slice l lo hi) k = f32_at l (lo + k).
Proof. intros. unfold f32_at. by rewrite le_uint_slice by lia. Qed.

Lemma vec3_at_slice (l : bytes) (lo hi k : Z) :
  0 ≤ lo → hi ≤ len l → 0 ≤ k → lo + k + 12 ≤ hi →
  vec3_at (py_slice l lo hi) k = vec3_at l (lo + k).
Proof.
  intros. unfold vec3_at. rewrite !f32_at_slice by lia.
  by rewrite !Z.add_assoc.
Qed.

Lemma vec2_at_slice (l : bytes) (lo hi k : Z) :
  0 ≤ lo → hi ≤ len l → 0 ≤ k → lo + k + 8 ≤ hi →
  vec2_at (py_slice l lo hi) k = vec2_at l (lo + k).
Proof.
  intros. unfold vec2_at. rewrite !f32_at_slice by lia.
  by rewrite !Z.add_assoc.
Qed.

(** * Embedded D3D mesh blocks *)

Lemma d3d_index_header_Some (h0 h1 f c s : Z) :
  0 ≤ h1 →
  d3d_index_header h0 h1 = Some (f, c, s) →
  c = h1 ∧ 1 ≤ c ≤ 100000000 ∧ (f = 0 ∧ s = 2 ∨ f = 1 ∧ s = 4).
Proof.
  intros Hh1. unfold d3d_index_header.
  destruct (((h0 =? 0) || (h0 =? 1)) && negb (h1 =? 0) && (h1 <=? 50000000)) eqn:GA.
  - guard_facts GA. intros [= <- <- <-].
    destruct (Z.eqb_spec h0 0); split_and!; try lia.
  - destruct (idx_bpi h0) as [bpi|] eqn:Hb; [|done].
    assert (bpi = 2 ∨ bpi = 4) as Hbpi.
    { unfold idx_bpi in Hb. repeat case_match; simplify_eq; lia. }
    destruct ((h1 =? 0) || (100000000 <? h1)) eqn:G; [done|]. guard_facts G.
    intros [= <- <- <-]. destruct Hbpi as [-> | ->]; cbn; split_and!; lia.
Qed.

Section d3d_block.
Variables (payload : bytes) (off : Z).
Hypothesis Hoff : 0 ≤ off.
Hypothesis Hlen : off + 532 < len payload.

Lemma extract_d3d_header_wf :
  ∃ h, extract_d3d_header payload off = Some h
       ∧ ∀ b, h = Some b → d3d_block_wf payload off b.
Proof.
  unfold extract_d3d_header.
  destruct (parse_d3d_decl_520 (py_slice payload off (off + 520)))
    as [[[stride elems]|]|] eqn:Hp; cycle 2.
  { by rewrite parse_decl_value in Hp. }
  2:{ cbn. by eexists. }
  cbn [mbind option_bind].
  pose proof (parse_decl_Some _ _ _ Hp) as (_ & _ & _ & _ & _ & Hstride).
  rewrite !unpack_u32_ok by lia. cbn [mbind option_bind].
  set (v0 := le_uint 4 payload (off + 520)).
  set (v1 := le_uint 4 payload (off + 524)).
  set (v2 := le_uint 4 payload (off + 528)).
  assert (∃ vcount vb_off,
    (if (0 <? v0) && (v0 <=? 5000000) then (v0, off + 524)
     else if (0 <? v1) && (v1 <=? 5000000) then (v1, off + 528)
     else (v2, off + 532)) = (vcount, vb_off)
    ∧ (vb_off = off + 524 ∨ vb_off = off + 528 ∨ vb_off = off + 532)
    ∧ vcount = le_uint 4 payload (vb_off - 4)) as (vcount & vb_off & -> & Hvb & Hvc).
  { destruct ((0 <? v0) && (v0 <=? 5000000)).
    { eexists _, _. split_and!; [done|by left|].
      subst v0. f_equal. lia. }
    destruct ((0 <? v1) && (v1 <=? 5000000)).
    { eexists _, _. split_and!; [done|by right; left|].
      subst v1. f_equal. lia. }
    eexists _, _. split_and!; [done|by right; right|].
    subst v2. f_equal. lia. }
  destruct ((vcount =? 0) || (5000000 <? vcount)) eqn:G1; [by eexists|].
  guard_facts G1.
  assert (0 ≤ vcount) by (rewrite Hvc; apply le_uint_range_nonneg).
  assert (0 ≤ stride * vcount) by nia.
  set (idx_hdr := vb_off + stride * vcount) in *.
  destruct (Z.ltb_spec (len payload) (idx_hdr + 8)) as [G2|G2]; [by eexists|].
  rewrite unpack_offset_ok by lia. cbn [mbind option_bind].
  pose proof (le_uint_range_nonneg 4 payload (idx_hdr + 4)) as Hh1.
  destruct (d3d_index_header _ _) as [[[f c] s]|] eqn:Hidx; [|by eexists].
  apply d3d_index_header_Some in Hidx as (Hc & Hcr & Hfs); [|done].
  destruct (Z.ltb_spec (len payload) (idx_hdr + 8 + c * s)) as [G3|G3];
    [by eexists|].
  eexists. split; [done|]. intros b [= <-].
  unfold d3d_block_wf. cbn. fold idx_hdr. split_and!; try done; lia.
Qed.
End d3d_block.

Lemma unpack_u32s_ok (n : Z) (data : bytes) (off : Z) :
  0 ≤ n → 0 ≤ off → off + 4 * n ≤ len data →
  unpack_u32s n data off = Some ((λ k, le_uint 4 data (off + 4 * k)) <$> seqZ 0 n).
Proof. intros. unfold unpack_u32s. by rewrite unpack_offset_ok by lia. Qed.

Lemma mapM_ext_Some {A B} (f : A → option B) (g : A → B) (l : list A) :
  Forall (λ x, f x = Some (g x)) l → mapM f l = Some (g <$> l).
Proof.
  induction 1 as [|x l Hx _ IH]; [done|].
  cbn [mapM]. rewrite Hx. cbn [mbind option_bind]. rewrite IH. done.
Qed.

Lemma build_faces_total (indices : list Z) : is_Some (build_faces indices).
Proof.
  unfold build_faces. destruct (Z.eqb_spec (len indices `mod` 3) 0) as [H|H].
  - destruct (tri_list_faces_chunks indices H) as (fs & -> & _). by eexists.
  - by eexists.
Qed.

Lemma first_elem_Some (p : Elem → bool) (elems : list Elem) (e : Elem) :
  first_elem p elems = Some e → e ∈ before_sentinel elems ∧ p e = true.
Proof.
  unfold first_elem. intros H%head_Some_elem_of.
  apply list_elem_of_filter in H. tauto.
Qed.

Section d3d_mesh.
Variables (payload : bytes) (off : Z) (b : D3DBlock).
Variables (flip_v swap_yz : bool) (name : string).
Variables (maps : gmap string string) (material_sets : list (gmap string string)).
Hypothesis Hoff : 0 ≤ off.
Hypothesis Hwf : d3d_block_wf payload off b.

Lemma d3d_block_bounds :
  1 ≤ d_stride b ≤ 1024
  ∧ 0 ≤ d_vb_off b
  ∧ Forall (elem_fits (d_stride b)) (before_sentinel (d_elems b)).
Proof.
  destruct Hwf as (Hp & Hvb & _).
  pose proof (parse_decl_fits _ _ _ Hp).
  apply parse_decl_Some in Hp as (_ & _ & _ & _ & _ & ?).
  split_and!; try done; lia.
Qed.

Lemma d3d_vertex_value (i : Z) :
  0 ≤ i < d_vcount b →
  let vb := py_slice payload (d_vb_off b)
              (d_vb_off b + d_stride b * d_vcount b) in
  decode_vertex_d3d (d_elems b) vb i (d_stride b) flip_v swap_yz
  = Some (d3d_position payload swap_yz b i, d3d_normal payload swap_yz b i,
          d3d_uv payload flip_v b i).
Proof.
  intros Hi vb.
  destruct d3d_block_bounds as (Hs & Hvb0 & Hfits).
  destruct Hwf as (Hp & _ & _ & Hvc & Hic & Hfs & _ & Hend).
  assert (0 ≤ d_idx_count b * d_idx_size b) by (destruct Hfs as [[_ ->]|[_ ->]]; lia).
  assert (len vb = d_stride b * d_vcount b) as Hlenvb.
  { unfold vb. rewrite py_slice_len by nia. lia. }
  rewrite (decode_vertex_d3d_value _ _ _ _ _ _ _ Hp) by nia.
  rewrite Forall_forall in Hfits.
  assert (∀ e, e ∈ before_sentinel (d_elems b) → e_stream e = 0 →
               0 ≤ e_offset e
               ∧ i * d_stride b + elem_end e ≤ d_stride b * d_vcount b) as Hin.
  { intros e He H0. destruct (Hfits e He H0). split; [done|]. nia. }
  unfold d3d_position, d3d_normal, d3d_uv.
  f_equal. f_equal; [f_equal|].
  - destruct (first_elem is_position (d_elems b)) as [e|] eqn:He; [|done].
    apply first_elem_Some in He as [He Hp3]. unfold is_position in Hp3.
    guard_facts Hp3. destruct Hp3 as [[H0 _] Ht].
    destruct (Hin e He H0) as [? Hfit]. unfold elem_end in Hfit.
    rewrite Ht in Hfit. cbn in Hfit. cbn [fmap option_fmap option_map default].
    unfold vb. rewrite vec3_at_slice by nia. by rewrite Z.add_assoc.
  - destruct (first_elem is_normal (d_elems b)) as [e|] eqn:He; [|done].
    apply first_elem_Some in He as [He Hp3]. unfold is_normal in Hp3.
    guard_facts Hp3. destruct Hp3 as [[H0 _] Ht].
    destruct (Hin e He H0) as [? Hfit]. unfold elem_end in Hfit.
    rewrite Ht in Hfit. cbn in Hfit. cbn [fmap option_fmap option_map].
    unfold vb. rewrite vec3_at_slice by nia. by rewrite Z.add_assoc.
  - destruct (first_elem is_texcoord0 (d_elems b)) as [e|] eqn:He; [|done].
    apply first_elem_Some in He as [He Hp3]. unfold is_texcoord0 in Hp3.
    guard_facts Hp3. destruct Hp3 as [[[H0 _] _] Ht].
    destruct (Hin e He H0) as [? Hfit]. unfold elem_end in Hfit.
    rewrite Ht in Hfit. cbn in Hfit. cbn [fmap option_fmap option_map].
    unfold vb. rewrite vec2_at_slice by nia. by rewrite Z.add_assoc.
Qed.

Lemma d3d_indices_value :
  let ib_off := d_vb_off b + d_stride b * d_vcount b + 8 in
  let ib := py_slice payload ib_off (ib_off + d_idx_count b * d_idx_size b) in
  (if d_idx_fmt b =? 0 then unpack_u16s (d_idx_count b) ib 0
   else unpack_u32s (d_idx_count b) ib 0)
  = Some (d3d_indices payload b).
Proof.
  intros ib_off ib.
  destruct d3d_block_bounds as (Hs & Hvb0 & _).
  destruct Hwf as (_ & _ & _ & Hvc & Hic & Hfs & _ & Hend).
  assert (0 ≤ d_stride b * d_vcount b) by nia.
  unfold d3d_indices. fold ib_off.
  destruct Hfs as [[-> Hsz]|[-> Hsz]]; rewrite Hsz in *; cbn [Z.eqb Pos.eqb].
  - assert (len ib = d_idx_count b * 2) as Hlenib.
    { unfold ib. rewrite py_slice_len by lia. lia. }
    rewrite unpack_u16s_ok by lia. f_equal.
    apply list_fmap_ext. intros _ k Hk%list_elem_of_lookup_2%elem_of_seqZ.
    unfold ib. rewrite le_uint_slice by lia. done.
  - assert (len ib = d_idx_count b * 4) as Hlenib.
    { unfold ib. rewrite py_slice_len by lia. lia. }
    rewrite unpack_u32s_ok by lia. f_equal.
    apply list_fmap_ext. intros _ k Hk%list_elem_of_lookup_2%elem_of_seqZ.
    unfold ib. rewrite le_uint_slice by lia. done.
Qed.

Lemma extract_d3d_mesh_value :
  ∃ m,
    extract_d3d_mesh payload flip_v swap_yz maps material_sets name b = Some m
    ∧ nm_name m = name
    ∧ nm_decl m = 0
    ∧ nm_maps m = maps
    ∧ nm_material_sets m = material_sets
    ∧ nm_vertices m = d3d_position payload swap_yz b <$> seqZ 0 (d_vcount b)
    ∧ nm_normals m = d3d_normal payload swap_yz b <$> seqZ 0 (d_vcount b)
    ∧ nm_uvs m = d3d_uv payload flip_v b <$> seqZ 0 (d_vcount b)
    ∧ build_faces (d3d_indices payload b) = Some (nm_faces m)
    ∧ (if bool_decide (nm_faces m = []) then Some []
       else find_subset_table payload (d_vb_off b - 524) (d_vcount b)
              (Some (len (nm_faces m))))
      = Some (nm_subsets m).
Proof.
  destruct d3d_block_bounds as (Hs & Hvb0 & _).
  pose proof Hwf as (_ & Hvb & _ & Hvc & Hic & Hfs & _ & Hend).
  unfold extract_d3d_mesh. cbv zeta.
  rewrite d3d_indices_value. cbn [mbind option_bind].
  rewrite (mapM_ext_Some _
    (λ i, (d3d_position payload swap_yz b i, d3d_normal payload swap_yz b i,
           d3d_uv payload flip_v b i))); cycle 1.
  { apply Forall_forall. intros i Hi%elem_of_seqZ.
    apply d3d_vertex_value. lia. }
  cbn [mbind option_bind].
  destruct (build_faces_total (d3d_indices payload b)) as [fs Hfaces].
  rewrite Hfaces. cbn [mbind option_bind].
  assert (find_subset_table payload (d_vb_off b - 524) (d_vcount b) (Some (len fs))
          = Some match fold_left
                         (pick payload (d_vb_off b - 524) (d_vcount b) (len fs))
                         (scan_order (d_vb_off b - 524)) None
                 with
                 | None => []
                 | Some c => table_entries payload c.1 c.2
                 end) as Hsub.
  { apply find_subset_table_fold.
    assert (0 ≤ d_stride b * d_vcount b) by nia.
    assert (0 ≤ d_idx_count b * d_idx_size b)
      by (destruct Hfs as [[_ ->]|[_ ->]]; lia).
    lia. }
  assert (py_range 0 (d_vcount b) ≠ []) as Hne.
  { unfold py_range. rewrite Z.sub_0_r.
    intros E. apply (f_equal length) in E. rewrite length_seqZ in E.
    cbn in E. lia. }
  rewrite bool_decide_true; cycle 1.
  { intros E. apply fmap_nil_inv in E. done. }
  cbn [andb].
  destruct fs as [|f fs].
  - rewrite bool_decide_false by (intros E; by apply E).
    cbn [mbind option_bind]. eexists. split; [done|]. cbn.
    unfold py_range. rewrite Z.sub_0_r, <- !list_fmap_compose.
    split_and!; done.
  - rewrite bool_decide_true by done. rewrite Hsub.
    cbn [mbind option_bind]. eexists. split; [done|]. cbn.
    unfold py_range. rewrite Z.sub_0_r, <- !list_fmap_compose.
    split_and!; try done.
Qed.
End d3d_mesh.

Section d3d_scan.
Variables (payload : bytes) (flip_v swap_yz : bool) (name_prefix : string).
Variables (maps : gmap string string) (material_sets : list (gmap string string)).

Let inv := d3d_inv payload flip_v swap_yz name_prefix maps material_sets.
Let step := extract_d3d_at payload flip_v swap_yz name_prefix maps material_sets.

Lemma extract_d3d_at_inv (pre : list Z) (st : list NamedMesh * gset Z)
    (used : list (Z * D3DBlock)) (off : Z) :
  inv pre st used →
  0 ≤ off → off + 532 < len payload →
  Forall (λ p, p < off) pre →
  ∃ st' used', step st off = Some st' ∧ inv (pre ++ [off]) st' used'.
Proof.
  intros (Hlen & Hmesh & Hsort & Hpre & Hnil & Hhead) H0 Hoff Hlt.
  destruct st as [meshes seen]. cbn [fst snd] in *.
  unfold step, extract_d3d_at.
  destruct (extract_d3d_header_wf payload off H0 Hoff) as (h & Hh & Hwf).
  rewrite Hh. cbn [mbind option_bind].
  assert (∀ ob, ob ∈ used → ob.1 < off) as Hused_lt.
  { intros ob Hob. rewrite Forall_forall in Hlt. apply Hlt, Hpre, Hob. }
  assert (∀ ob, head used = Some ob → ¬ off < ob.1) as Hhead_lt.
  { intros ob Hob%head_Some_elem_of. specialize (Hused_lt _ Hob). lia. }
  destruct h as [b|]; cycle 1.
  { exists (meshes, seen), used. split; [done|].
    split_and!; cbn [fst snd]; try done.
    - intros ob Hob. apply elem_of_app. left. by apply Hpre.
    - intros Hu. destruct (Hnil Hu) as [Hs Hnone]. split; [done|].
      intros o [Ho|Ho%list_elem_of_singleton]%elem_of_app; [by apply Hnone|].
      by subst o.
    - intros ob Hob o [Ho|Ho%list_elem_of_singleton]%elem_of_app Hlto.
      + by apply (Hhead ob).
      + by subst o. }
  specialize (Hwf b eq_refl).
  destruct (decide (d3d_key off (d_vcount b) (d_idx_count b) ∈ seen)) as [Hk|Hk].
  { rewrite bool_decide_true by done.
    exists (meshes, seen), used. split; [done|].
    split_and!; cbn [fst snd]; try done.
    - intros ob Hob. apply elem_of_app. left. by apply Hpre.
    - intros Hu. destruct (Hnil Hu) as [Hs _]. rewrite Hs in Hk.
      by apply not_elem_of_empty in Hk.
    - intros ob Hob o [Ho|Ho%list_elem_of_singleton]%elem_of_app Hlto.
      + by apply (Hhead ob).
      + subst o. by apply Hhead_lt in Hob. }
  rewrite bool_decide_false by done.
  destruct (extract_d3d_mesh_value payload off b flip_v swap_yz
              (part_name name_prefix (len meshes)) maps material_sets H0 Hwf)
    as (m & Hm & Hname & Hdecl & Hmaps & Hsets & Hv & Hn & Hu & Hf & Hs).
  rewrite Hm. cbn [mbind option_bind].
  exists (meshes ++ [m], seen ∪ {[d3d_key off (d_vcount b) (d_idx_count b)]}),
         (used ++ [(off, b)]).
  split; [done|]. split_and!; cbn [fst snd].
  - rewrite !length_app. cbn. lia.
  - intros k ob m' Hob Hm'.
    destruct (decide (k < length used)%nat) as [Hk'|Hk'].
    + rewrite lookup_app_l in Hob by done.
      rewrite lookup_app_l in Hm' by lia. by apply Hmesh.
    + rewrite lookup_app_r in Hob by lia.
      rewrite lookup_app_r in Hm' by lia.
      rewrite Hlen in Hob.
      destruct (k - length meshes)%nat as [|j] eqn:Hj; [|done].
      cbn in Hob, Hm'. injection Hob as <-. injection Hm' as <-.
      cbn [fst snd]. unfold d3d_mesh_of.
      assert (Z.of_nat k = len meshes) as -> by (unfold len; lia).
      split_and!; done.
  - rewrite fmap_app. apply StronglySorted_app_2; [|done|].
    + intros x1 x2 Hx1 Hx2. cbn in Hx2.
      apply list_elem_of_singleton in Hx2 as ->.
      apply list_elem_of_fmap in Hx1 as (ob & -> & Hob). by apply Hused_lt.
    + cbn. repeat constructor.
  - intros ob [Hob|Hob%list_elem_of_singleton]%elem_of_app.
    + apply elem_of_app. left. by apply Hpre.
    + subst ob. apply elem_of_app. right. by apply list_elem_of_singleton.
  - intros E. by apply app_eq_nil in E as [_ ?].
  - intros ob Hob o Ho Hlto.
    destruct used as [|u used'].
    + cbn in Hob. injection Hob as <-. cbn [fst] in Hlto.
      destruct (Hnil eq_refl) as [_ Hnone].
      apply elem_of_app in Ho as [Ho|Ho%list_elem_of_singleton]; [by apply Hnone|lia].
    + cbn in Hob. injection Hob as <-.
      apply elem_of_app in Ho as [Ho|Ho%list_elem_of_singleton].
      * by apply (Hhead u).
      * subst o. by apply (Hhead_lt u) in Hlto.
Qed.

Lemma extract_d3d_loop_inv (offs : list Z) : ∀ pre st used,
  inv pre st used →
  Forall (λ off, 0 ≤ off ∧ off + 532 < len payload) offs →
  StronglySorted Z.lt (pre ++ offs) →
  ∃ st' used',
    extract_d3d_loop payload flip_v swap_yz name_prefix maps material_sets offs st
    = Some st'
    ∧ inv (pre ++ offs) st' used'.
Proof.
  induction offs as [|off offs IH]; intros pre st used Hinv Hall Hsort.
  { exists st, used. rewrite app_nil_r. done. }
  apply Forall_cons in Hall as [[H0 Hoff] Hall].
  assert (Forall (λ p, p < off) pre) as Hlt.
  { apply Forall_forall. intros p Hp.
    eapply StronglySorted_app_1_elem_of; [exact Hsort|exact Hp|].
    apply elem_of_cons. by left. }
  destruct (extract_d3d_at_inv pre st used off Hinv H0 Hoff Hlt)
    as (st1 & used1 & Hstep & Hinv1).
  cbn [extract_d3d_loop]. fold step. rewrite Hstep. cbn [mbind option_bind].
  destruct (IH (pre ++ [off]) st1 used1 Hinv1 Hall) as (st' & used' & Hloop & Hinv').
  { by rewrite <- app_assoc. }
  exists st', used'. split; [done|]. by rewrite <- app_assoc in Hinv'.
Qed.

Lemma d3d_grid_bounds (off : Z) :
  off ∈ d3d_grid payload → 0 ≤ off ∧ off + 532 < len payload.
Proof.
  unfold d3d_grid, py_range_step. intros (k & -> & Hk%elem_of_seqZ)%list_elem_of_fmap.
  pose proof (Z.mul_div_le (len payload - 532 - 0 + 2 - 1) 2 ltac:(lia)).
  lia.
Qed.

Lemma d3d_grid_sorted : StronglySorted Z.lt (d3d_grid payload).
Proof.
  unfold d3d_grid, py_range_step.
  apply StronglySorted_fmap_mono; [intros; lia|apply StronglySorted_seqZ].
Qed.

Lemma d3d_inv_init : inv [] ([], ∅) [].
Proof.
  unfold inv, d3d_inv. cbn [fst snd]. split_and!.
  - done.
  - intros k ob m Hob. done.
  - cbn. constructor.
  - intros ob Hob. by apply elem_of_nil in Hob.
  - intros _. split; [done|]. intros o Ho. by apply elem_of_nil in Ho.
  - intros ob Hob. done.
Qed.

Lemma extract_d3d_mesh_blocks_inv :
  ∃ meshes seen used,
    extract_d3d_mesh_blocks payload flip_v swap_yz name_prefix maps material_sets
    = Some meshes
    ∧ inv (d3d_grid payload) (meshes, seen) used.
Proof.
  unfold extract_d3d_mesh_blocks.
  destruct (Z.ltb_spec (len payload) (520 + 4 + 8)) as [Hs|Hs].
  - exists [], ∅, []. split; [done|].
    assert (d3d_grid payload = []) as ->.
    { unfold d3d_grid, py_range_step.
      assert ((len payload - 532 - 0 + 2 - 1) `div` 2 ≤ 0) as Hd.
      { apply Z.div_le_upper_bound; lia. }
      destruct ((len payload - 532 - 0 + 2 - 1) `div` 2) eqn:E; try lia; done. }
    apply d3d_inv_init.
  - change (520 + 4 + 8) with 532. fold (d3d_grid payload).
    destruct (extract_d3d_loop_inv (d3d_grid payload) [] ([], ∅) [])
      as ([meshes seen] & used & Hloop & Hinv).
    + apply d3d_inv_init.
    + apply Forall_forall. intros off. apply d3d_grid_bounds.
    + apply d3d_grid_sorted.
    + rewrite Hloop. cbn. by exists meshes, seen, used.
Qed.
End d3d_scan.

Lemma type_size_ge4 (t sz : Z) : type_size t = Some sz → 4 ≤ sz.
Proof.
  unfold type_size. intros H.
  repeat match type of H with
         | match ?x with _ => _ end = _ => destruct x; try done
         end; injection H as <-; lia.
Qed.

(** A block spans at least 538 bytes from its declaration. *)
Lemma d3d_block_wf_span (payload : bytes) (off : Z) (b : D3DBlock) :
  0 ≤ off → d3d_block_wf payload off b →
  4 ≤ d_stride b ∧ off + 538 ≤ len payload.
Proof.
  intros Hoff (Hp & Hvb & _ & Hvc & Hic & Hfs & _ & Hend).
  assert (4 ≤ d_stride b) as Hs.
  { pose proof (parse_decl_fits _ _ _ Hp) as Hfits.
    apply parse_decl_Some in Hp as (_ & Hsent & Hknown & Hstride & Helems & Hr).
    cbv zeta in *.
    destruct (stream0_stride_attained
                (before_sentinel (decl_records (py_slice payload off (off + 520)))))
      as (e & He & H0 & Hend'); [lia|].
    rewrite <- Hstride in Hend'. rewrite <- Hend'.
    rewrite Forall_forall in Hfits. rewrite Helems, before_upto_sentinel in Hfits.
    destruct (Hfits e He H0) as [Hoffe _].
    unfold elem_end.
    destruct (type_size (e_typ e)) as [sz|] eqn:Hsz.
    - apply type_size_ge4 in Hsz. cbn. lia.
    - exfalso. apply not_true_iff_false in Hknown. apply Hknown.
      apply existsb_exists. exists e. split; [by apply list_elem_of_In|].
      unfold unknown_type. by rewrite Hsz. }
  split; [done|].
  assert (4 ≤ d_stride b * d_vcount b) by nia.
  destruct Hfs as [[_ Hsz]|[_ Hsz]]; rewrite Hsz in Hend; lia.
Qed.

Lemma string_app_self (p s : string) : p = p +:+ s → s = "".
Proof.
  induction p as [|a p IH]; cbn; [done|]. intros [= H]. by apply IH.
Qed.

Lemma part_name_inj (p : string) (j k : Z) :
  part_name p j = part_name p k → j = k.
Proof.
  unfold part_name.
  destruct (Z.eqb_spec j 0) as [->|Hj], (Z.eqb_spec k 0) as [->|Hk]; [done| | |].
  - intros H%string_app_self. done.
  - intros H. symmetry in H. apply string_app_self in H. done.
  - intros H%(inj (String.append p))%(inj (String.append "_")).
    by apply (inj pretty) in H.
Qed.

(** X9. [extract_d3d_mesh_blocks] never raises, whatever the payload:
    every read of the scan and of the vertex and index decoding lies
    inside the payload.  A payload shorter than 538 bytes yields no mesh.
    The k-th mesh of the result is named [name_prefix] for k = 0 and
    [name_prefix_k] otherwise, has declaration word 0 and the maps and
    material sets that were passed in, between 1 and 5000000 vertices,
    one normal slot and one UV slot per vertex, and subsets only if it has
    faces. *)
Theorem extract_d3d_mesh_blocks_total
    (payload : bytes) (flip_v swap_yz : bool) (name_prefix : string)
    (maps : gmap string string) (material_sets : list (gmap string string)) :
  ∃ meshes,
    extract_d3d_mesh_blocks payload flip_v swap_yz name_prefix maps material_sets
    = Some meshes
    ∧ (len payload < 538 → meshes = [])
    ∧ ∀ (k : nat) m, meshes !! k = Some m →
        nm_name m = part_name name_prefix (Z.of_nat k)
        ∧ nm_decl m = 0
        ∧ nm_maps m = maps
        ∧ nm_material_sets m = material_sets
        ∧ 1 ≤ len (nm_vertices m) ≤ 5000000
        ∧ len (nm_normals m) = len (nm_vertices m)
        ∧ len (nm_uvs m) = len (nm_vertices m)
        ∧ (nm_faces m = [] → nm_subsets m = []).
Proof.
  destruct (extract_d3d_mesh_blocks_inv payload flip_v swap_yz name_prefix maps
              material_sets)
    as (meshes & seen & used & Hres & Hlen & Hmesh & Hsort & Hpre & Hnil & Hhead).
  cbn [fst snd] in *.
  exists meshes. split; [done|]. split.
  - intros Hshort. destruct meshes as [|m meshes]; [done|]. exfalso.
    destruct used as [|[off b] used]; [done|].
    destruct (Hmesh 0%nat (off, b) m eq_refl eq_refl) as (Hwf & _).
    assert ((off, b).1 ∈ d3d_grid payload) as Hin.
    { apply Hpre. apply elem_of_cons. by left. }
    apply d3d_grid_bounds in Hin as [H0 _]. cbn [fst snd] in *.
    apply d3d_block_wf_span in Hwf as [_ ?]; lia.
  - intros k m Hm.
    destruct (used !! k) as [[off b]|] eqn:Hob; cycle 1.
    { apply lookup_ge_None in Hob. apply lookup_lt_Some in Hm. lia. }
    destruct (Hmesh k (off, b) m Hob Hm)
      as (Hwf & _ & Hname & Hdecl & Hmaps & Hsets & Hv & Hn & Hu & Hf & Hs).
    cbn [fst snd] in *.
    destruct Hwf as (_ & _ & _ & Hvc & _).
    assert (∀ {A} (f : Z → A), len (f <$> seqZ 0 (d_vcount b)) = d_vcount b) as Hl.
    { intros A f. unfold len. rewrite length_fmap, length_seqZ. lia. }
    rewrite Hv, Hn, Hu, !Hl. split_and!; try done; try lia.
    intros Hnof. rewrite bool_decide_true in Hs by done. by injection Hs as <-.
Qed.

(** X10. Every mesh that [extract_d3d_mesh_blocks] returns is read from a
    block of the payload: the meshes correspond, in order, to blocks at
    strictly increasing scanned offsets; each block's 520 bytes parse as a
    declaration, its vertex count (1 to 5000000) is the dword before the
    vertex buffer, which starts 524, 528 or 532 bytes after the block
    offset, and the index header and index data follow the vertex buffer
    inside the payload; vertex i of the mesh is decoded from the payload at
    [vb_off + i * stride] as the declaration directs, the faces are built
    from the block's index buffer, and the subsets are those that
    [find_subset_table] finds before [vb_off - 524]. *)
Theorem extract_d3d_mesh_blocks_sound
    (payload : bytes) (flip_v swap_yz : bool) (name_prefix : string)
    (maps : gmap string string) (material_sets : list (gmap string string)) :
  ∃ meshes (used : list (Z * D3DBlock)),
    extract_d3d_mesh_blocks payload flip_v swap_yz name_prefix maps material_sets
    = Some meshes
    ∧ length used = length meshes
    ∧ StronglySorted Z.lt (fst <$> used)
    ∧ ∀ (k : nat) off b m,
        used !! k = Some (off, b) → meshes !! k = Some m →
        off ∈ d3d_grid payload
        ∧ d3d_mesh_of payload flip_v swap_yz name_prefix maps material_sets
            k off b m.
Proof.
  destruct (extract_d3d_mesh_blocks_inv payload flip_v swap_yz name_prefix maps
              material_sets)
    as (meshes & seen & used & Hres & Hlen & Hmesh & Hsort & Hpre & Hnil & Hhead).
  cbn [fst snd] in *.
  exists meshes, used. split_and!; try done.
  intros k off b m Hob Hm. split.
  - apply (Hpre (off, b)). by apply list_elem_of_lookup_2 in Hob.
  - apply (Hmesh k (off, b) m Hob Hm).
Qed.


(** X12. The meshes of one call have pairwise distinct names. *)
Theorem extract_d3d_mesh_blocks_names
    (payload : bytes) (flip_v swap_yz : bool) (name_prefix : string)
    (maps : gmap string string) (material_sets : list (gmap string string)) :
  ∃ meshes,
    extract_d3d_mesh_blocks payload flip_v swap_yz name_prefix maps material_sets
    = Some meshes
    ∧ NoDup (nm_name <$> meshes).
Proof.
  destruct (extract_d3d_mesh_blocks_inv payload flip_v swap_yz name_prefix maps
              material_sets)
    as (meshes & seen & used & Hres & Hlen & Hmesh & _).
  cbn [fst snd] in *.
  exists meshes. split; [done|].
  apply NoDup_alt. intros i j name Hi Hj.
  apply list_lookup_fmap_Some in Hi as (mi & -> & Hi).
  apply list_lookup_fmap_Some in Hj as (mj & Hnj & Hj).
  destruct (used !! i) as [obi|] eqn:Hoi; cycle 1.
  { apply lookup_ge_None in Hoi. apply lookup_lt_Some in Hi. lia. }
  destruct (used !! j) as [obj|] eqn:Hoj; cycle 1.
  { apply lookup_ge_None in Hoj. apply lookup_lt_Some in Hj. lia. }
  destruct (Hmesh i obi mi Hoi Hi) as (_ & _ & Hni & _).
  destruct (Hmesh j obj mj Hoj Hj) as (_ & _ & Hnj' & _).
  rewrite Hni, Hnj' in Hnj. apply part_name_inj in Hnj. lia.
Qed.
